(** * White River Basin dashboard: the telemetry pipeline

    A shallow embedding of the pure helpers behind the dam detail page
    ([src/pages/DamDetail.tsx], [src/components/dam/Visualization.tsx],
    [src/components/dam/DamStatusCards.tsx]) and the properties of the
    time-series normalisation and trend-derivation pipeline.

    JavaScript numbers are IEEE-754 binary64 values: they are modelled by
    Rocq's primitive [float], whose operations are the hardware ones, so
    every arithmetic step rounds exactly as it does in the browser.  Time
    values of [Date] objects are integral millisecond counts: they are
    modelled by [option Z], [None] standing for the NaN of an Invalid
    Date, and the arithmetic of the date operations rounds to binary64
    beyond 2^53. *)

From Stdlib Require Import ZArith List String Ascii Bool Lia Permutation Sorted.
From Stdlib Require Import Floats SpecFloat.
Import ListNotations.

Set Warnings "-inexact-float".

Local Open Scope string_scope.
Local Open Scope Z_scope.

(* ================================================================== *)
(** * The host language: the ECMAScript built-ins the helpers call     *)
(* ================================================================== *)

Module JS.

(** ** Strings

    A string is a sequence of code units; the telemetry feed is
    Latin-1, so a code unit is an [ascii]. *)

Definition code (c : ascii) : Z := Z.of_N (N_of_ascii c).

(** WhiteSpace and LineTerminator code units below 256:
    TAB, LF, VT, FF, CR, SP and NBSP. *)
Definition isWhiteSpace (c : ascii) : bool :=
  let n := code c in
  ((9 <=? n) && (n <=? 13)) || (n =? 32) || (n =? 160).

Definition isDigit (c : ascii) : bool :=
  let n := code c in (48 <=? n) && (n <=? 57).

Fixpoint trimStart (s : string) : string :=
  match s with
  | String c s' => if isWhiteSpace c then trimStart s' else s
  | EmptyString => s
  end.

Fixpoint rev_string (s acc : string) : string :=
  match s with
  | String c s' => rev_string s' (String c acc)
  | EmptyString => acc
  end.

Definition trimEnd (s : string) : string :=
  rev_string (trimStart (rev_string s "")) "".

(** [String.prototype.trim] *)
Definition trim (s : string) : string := trimEnd (trimStart s).

(** [s.split(sep)] for a one-character separator: never empty, the
    empty string splits into one empty piece. *)
Fixpoint split (sep : ascii) (s : string) : list string :=
  match s with
  | EmptyString => [""]
  | String c s' =>
      if Ascii.eqb c sep then "" :: split sep s'
      else match split sep s' with
           | p :: ps => String c p :: ps
           | [] => [String c ""]
           end
  end.

(** [s.replace(/c/g, '')]: every occurrence of one character removed. *)
Fixpoint removeAll (c : ascii) (s : string) : string :=
  match s with
  | EmptyString => ""
  | String d s' =>
      if Ascii.eqb d c then removeAll c s' else String d (removeAll c s')
  end.

(** Truthiness of a string-or-undefined value: [undefined] and the
    empty string are falsy. *)
Definition truthyStr (v : option string) : bool :=
  match v with
  | None => false
  | Some "" => false
  | Some _ => true
  end.

(** ToString of a string-or-undefined value. *)
Definition ToString (v : option string) : string :=
  match v with
  | Some s => s
  | None => "undefined"
  end.

(** ** parseInt(string) with no radix argument

    The result is the integer that the digits denote, or NaN ([None]).
    The Number it stands for, the nearest binary64 value, is taken where
    the result is used: by [number] in the date operations and by
    [numberOfInt] on the cards.  The sign of a zero is not kept: no
    comparison and no date operation tells -0 from +0. *)

Definition digitValue (radix : Z) (c : ascii) : option Z :=
  let n := code c in
  let v := if (48 <=? n) && (n <=? 57) then Some (n - 48)
           else if (97 <=? n) && (n <=? 122) then Some (n - 87)
           else if (65 <=? n) && (n <=? 90) then Some (n - 55)
           else None in
  match v with
  | Some d => if d <? radix then Some d else None
  | None => None
  end.

(** The value of the longest prefix made of radix-[radix] digits,
    [acc] being the value read so far ([None]: no digit yet). *)
Fixpoint digitsPrefix (radix : Z) (s : string) (acc : option Z) : option Z :=
  match s with
  | String c s' =>
      match digitValue radix c with
      | Some d =>
          digitsPrefix radix s'
            (Some (radix * (match acc with Some a => a | None => 0 end) + d))
      | None => acc
      end
  | EmptyString => acc
  end.

Definition parseInt (v : option string) : option Z :=
  let str := trimStart (ToString v) in
  let '(sign, str) :=
    match str with
    | String "-" r => (-1, r)
    | String "+" r => (1, r)
    | _ => (1, str)
    end in
  let '(R, str) :=
    match str with
    | String "0" (String "x" r) => (16, r)
    | String "0" (String "X" r) => (16, r)
    | _ => (10, str)
    end in
  match digitsPrefix R str None with
  | Some n => Some (sign * n)
  | None => None
  end.

(** ** parseFloat(string)

    The longest prefix that is a StrDecimalLiteral, correctly rounded
    to binary64; NaN when there is none. *)

(** The run of decimal digits a string starts with, and what follows. *)
Fixpoint spanDigits (s : string) : string * string :=
  match s with
  | String c s' =>
      if isDigit c then let '(d, r) := spanDigits s' in (String c d, r)
      else ("", s)
  | EmptyString => ("", "")
  end.

Fixpoint digitsValue (s : string) (acc : Z) : Z :=
  match s with
  | String c s' => digitsValue s' (10 * acc + (code c - 48))
  | EmptyString => acc
  end.

(** A decimal literal [mant * 10 ^ exp10], or an infinity. *)
Inductive literal :=
| LitInfinity
| LitDecimal (mant exp10 : Z).

(** ExponentPart: [e] or [E], an optional sign and at least one digit;
    anything else is not part of the literal. *)
Definition exponentPart (s : string) : Z :=
  match s with
  | String c r =>
      if Ascii.eqb c "e" || Ascii.eqb c "E" then
        let '(sg, r') :=
          match r with
          | String "-" r' => (-1, r')
          | String "+" r' => (1, r')
          | _ => (1, r)
          end in
        let '(ds, _) := spanDigits r' in
        match ds with
        | "" => 0
        | _ => sg * digitsValue ds 0
        end
      else 0
  | EmptyString => 0
  end.

(** StrUnsignedDecimalLiteral at the head of [s]. *)
Definition unsignedLiteral (s : string) : option literal :=
  if String.prefix "Infinity" s then Some LitInfinity
  else
    let '(ip, r1) := spanDigits s in
    let '(fp, r2) :=
      match r1 with
      | String "." r => spanDigits r
      | _ => ("", r1)
      end in
    match ip, fp with
    | "", "" => None
    | _, _ =>
        Some (LitDecimal (digitsValue (ip ++ fp) 0)
                         (exponentPart r2 - Z.of_nat (String.length fp)))
    end.

(** The binary64 value nearest to [m * 10 ^ e] (ties to even), with
    the sign [neg]. *)
Definition roundDecimal (neg : bool) (m e : Z) : float :=
  match m with
  | Zpos p =>
      if 0 <=? e
      then SF2Prim (binary_normalize prec emax
                      (if neg then - (m * 10 ^ e) else m * 10 ^ e) 0 neg)
      else match 10 ^ (- e) with
           | Zpos q =>
               SF2Prim (SFdiv prec emax (S754_finite neg p 0)
                                        (S754_finite false q 0))
           | _ => nan
           end
  | _ => if neg then neg_zero else zero
  end.

Definition parseFloat (v : option string) : float :=
  let str := trimStart (ToString v) in
  let '(neg, str) :=
    match str with
    | String "-" r => (true, r)
    | String "+" r => (false, r)
    | _ => (false, str)
    end in
  match unsignedLiteral str with
  | None => nan
  | Some LitInfinity => if neg then neg_infinity else infinity
  | Some (LitDecimal m e) => roundDecimal neg m e
  end.

(** ** Numbers *)

(** Truthiness of a number: NaN, +0 and -0 are falsy. *)
Definition truthyNum (x : float) : bool := negb (is_nan x || is_zero x).

(** [x || d] on numbers. *)
Definition orElse (x d : float) : float := if truthyNum x then x else d.

(** The global [isNaN] on a number. *)
Definition isNaN (x : float) : bool := is_nan x.

(** [x > y] *)
Definition gt (x y : float) : bool := PrimFloat.ltb y x.

(** [x >= y] *)
Definition ge (x y : float) : bool := PrimFloat.leb y x.

(** [Math.min(...xs)] and [Math.max(...xs)]: NaN is contagious and
    -0 is below +0. *)
Definition min2 (lowest x : float) : float :=
  if is_nan lowest || is_nan x then nan
  else if is_zero x && is_zero lowest && get_sign x then x
  else if PrimFloat.ltb x lowest then x else lowest.

Definition max2 (highest x : float) : float :=
  if is_nan highest || is_nan x then nan
  else if is_zero x && is_zero highest && negb (get_sign x) then x
  else if PrimFloat.ltb highest x then x else highest.

Definition Math_min (xs : list float) : float := fold_left min2 xs infinity.
Definition Math_max (xs : list float) : float := fold_left max2 xs neg_infinity.

(** [Math.abs] *)
Definition Math_abs (x : float) : float := PrimFloat.abs x.

(** ** Arrays *)

(** [Array.prototype.sort(compareFn)]: a stable sort (ECMAScript 2019);
    [a] stays before [b] unless [compareFn(a, b) > 0], a NaN result
    counting as 0.  The comparators of this program return differences
    of time values, [None] being NaN. *)
Definition comesAfter (r : option Z) : bool :=
  match r with
  | Some d => 0 <? d
  | None => false
  end.

Section Sort.
Context {A : Type} (compareFn : A -> A -> option Z).

Fixpoint insertSorted (x : A) (l : list A) : list A :=
  match l with
  | [] => [x]
  | y :: l' =>
      if comesAfter (compareFn x y) then y :: insertSorted x l'
      else x :: l
  end.

Fixpoint Array_sort (l : list A) : list A :=
  match l with
  | [] => []
  | x :: l' => insertSorted x (Array_sort l')
  end.
End Sort.

(** ** Date

    The conversions between local time and UTC belong to the host
    (time zone and daylight-saving rules). *)

Record Host := { UTC : Z -> Z; LocalTime : Z -> Z }.

(** The [[DateValue]] of a Date object: milliseconds since the epoch,
    [None] for an Invalid Date. *)
Definition Date := option Z.

Definition msPerDay : Z := 86400000.

(** *** Arithmetic on integral Numbers

    The fields of a date and the time values are integral Numbers.  Such
    a Number is modelled by its value in [Z], and [None] stands for the
    Numbers that are not finite (NaN and the infinities: the date
    operations answer NaN for each of them).  Every sum and product is
    rounded to binary64 as IEEE 754 prescribes: the integers up to 2^53
    are Numbers; a larger one keeps its 53 leading bits, rounded to the
    nearest, ties to even, and overflows to an infinity from 2^1024
    on. *)

Definition toNumber (z : Z) : option Z :=
  if Z.abs z <=? 2 ^ 53 then Some z
  else
    let e := Z.log2 (Z.abs z) - 52 in
    let q := Z.abs z / 2 ^ e in
    let r := Z.abs z mod 2 ^ e in
    let m := if (2 ^ e <? 2 * r) || ((2 * r =? 2 ^ e) && Z.odd q)
             then q + 1 else q in
    if 2 ^ 1024 <=? m * 2 ^ e then None
    else Some (Z.sgn z * (m * 2 ^ e)).

(** The Number value of what [parseInt] read. *)
Definition number (n : option Z) : option Z :=
  match n with
  | Some z => toNumber z
  | None => None
  end.

Definition numAdd (a b : option Z) : option Z :=
  match a, b with
  | Some x, Some y => toNumber (x + y)
  | _, _ => None
  end.

Definition numMul (a b : option Z) : option Z :=
  match a, b with
  | Some x, Some y => toNumber (x * y)
  | _, _ => None
  end.

Definition Day (t : Z) : Z := t / msPerDay.

(** Day number of the first day of year [y], computed as V8 does, in
    integers offset by 399999 years with a division that truncates: from
    year -399999 on this is the [DayFromYear] of ECMA-262 (lemma
    [DayFromYear_calendar]). *)
Definition kYearDelta : Z := 399999.

Definition kBaseDay : Z :=
  365 * (1970 + kYearDelta) + Z.quot (1970 + kYearDelta) 4
  - Z.quot (1970 + kYearDelta) 100 + Z.quot (1970 + kYearDelta) 400.

Definition DayFromYear (y : Z) : Z :=
  365 * (y + kYearDelta) + Z.quot (y + kYearDelta) 4
  - Z.quot (y + kYearDelta) 100 + Z.quot (y + kYearDelta) 400 - kBaseDay.

Definition InLeapYear (y : Z) : bool :=
  (y mod 4 =? 0) && (negb (y mod 100 =? 0) || (y mod 400 =? 0)).

(** Days of the year before month [mn] (0 = January). *)
Definition DayWithinYear (y mn : Z) : Z :=
  nth (Z.to_nat mn) [0; 31; 59; 90; 120; 151; 181; 212; 243; 273; 304; 334] 0
  + (if InLeapYear y && (2 <=? mn) then 1 else 0).

(** [MakeDay]: ECMA-262 leaves the arguments it cannot place to the
    implementation, which answers NaN; the bounds are V8's (a million
    years, ten million months). *)
Definition kMaxYear : Z := 1000000.
Definition kMaxMonth : Z := 10000000.

Definition MakeDay (year month date : Z) : option Z :=
  if (- kMaxYear <=? year) && (year <=? kMaxYear)
     && (- kMaxMonth <=? month) && (month <=? kMaxMonth)
  then
    let ym := year + month / 12 in
    let mn := month mod 12 in
    toNumber (DayFromYear ym + DayWithinYear ym mn - 1 + date)
  else None.

(** [MakeTime]: [((hour * msPerHour + min * msPerMinute)
    + sec * msPerSecond) + ms] in Number arithmetic. *)
Definition MakeTime (hour min sec ms : Z) : option Z :=
  numAdd (numAdd (numAdd (toNumber (hour * 3600000))
                         (toNumber (min * 60000)))
                 (toNumber (sec * 1000)))
         (Some ms).

(** [MakeDate]: [day * msPerDay + time] in Number arithmetic. *)
Definition MakeDate (day time : option Z) : option Z :=
  numAdd (numMul day (Some msPerDay)) time.

Definition TimeClip (t : Z) : Date :=
  if 8640000000000000 <? Z.abs t then None else Some t.

(** [new Date()]: the reading of the system clock. *)
Definition Date_now (clock : Z) : Date := Some clock.

(** [new Date(year, month, date)]: local midnight; an argument that is
    not finite gives an Invalid Date, and years 0..99 mean 1900..1999. *)
Definition Date_ymd (host : Host) (year month date : option Z) : Date :=
  match number year, number month, number date with
  | Some y, Some m, Some dt =>
      let yr := if (0 <=? y) && (y <=? 99) then 1900 + y else y in
      match MakeDate (MakeDay yr m dt) (MakeTime 0 0 0 0) with
      | Some tv => TimeClip (UTC host tv)
      | None => None
      end
  | _, _, _ => None
  end.

(** [this.setHours(hour, min, sec, ms)], the new [[DateValue]]. *)
Definition setHours (host : Host) (this : Date)
    (hour min sec ms : option Z) : Date :=
  match this, number hour, number min, number sec, number ms with
  | Some t, Some h, Some m, Some s, Some milli =>
      match MakeDate (toNumber (Day (LocalTime host t)))
                     (MakeTime h m s milli) with
      | Some tv => TimeClip (UTC host tv)
      | None => None
      end
  | _, _, _, _, _ => None
  end.

(** [a.getTime() - b.getTime()] *)
Definition timeDiff (a b : Date) : option Z :=
  match a, b with
  | Some x, Some y => Some (x - y)
  | _, _ => None
  end.

(** [x >= y] and [x <= y] on time values: false when either is NaN. *)
Definition timeLe (x y : Date) : bool :=
  match x, y with
  | Some a, Some b => a <=? b
  | _, _ => false
  end.

(** [n - 1] in Number arithmetic. *)
Definition pred (n : option Z) : option Z := numAdd (number n) (Some (-1)).

(** ** Further built-ins, used by the cards and the consent form *)

(** [s.replace(/[class]/g, '')]: every character of a class removed. *)
Fixpoint removeWhere (p : ascii -> bool) (s : string) : string :=
  match s with
  | EmptyString => ""
  | String c s' =>
      if p c then removeWhere p s' else String c (removeWhere p s')
  end.

(** [s.slice(a, b)] and [s.slice(a)] for indices that are not negative. *)
Definition slice (a b : nat) (s : string) : string :=
  String.substring a (b - a) s.

Definition sliceFrom (a : nat) (s : string) : string :=
  String.substring a (String.length s - a) s.

(** [s.replace(pat, '')] for a string pattern: the first occurrence of
    [pat] removed. *)
Fixpoint removeFirst (pat s : string) : string :=
  if String.prefix pat s
  then String.substring (String.length pat)
                        (String.length s - String.length pat) s
  else match s with
       | EmptyString => ""
       | String c s' => String c (removeFirst pat s')
       end.

(** [s || d] on strings. *)
Definition orElseStr (s d : string) : string :=
  match s with
  | "" => d
  | _ => s
  end.

(** The Number value of an integer: the nearest binary64 value, exact up
    to 2^53 and an infinity from 2^1024 on. *)
Definition numberOfInt (n : option Z) : float :=
  match n with
  | Some z => SF2Prim (binary_normalize prec emax z 0 false)
  | None => nan
  end.

(** [a > b] on Date objects: false when either is invalid. *)
Definition timeGt (a b : Date) : bool :=
  match a, b with
  | Some x, Some y => y <? x
  | _, _ => false
  end.

(** [SecFromTime] and [msFromTime]. *)
Definition SecFromTime (t : Z) : Z := (t / 1000) mod 60.
Definition msFromTime (t : Z) : Z := t mod 1000.

(** [this.setHours(hour, min)]: seconds and milliseconds are kept. *)
Definition setHoursMinutes (host : Host) (this : Date)
    (hour min : option Z) : Date :=
  match this, number hour, number min with
  | Some t0, Some h, Some m =>
      let t := LocalTime host t0 in
      match MakeDate (toNumber (Day t))
                     (MakeTime h m (SecFromTime t) (msFromTime t)) with
      | Some tv => TimeClip (UTC host tv)
      | None => None
      end
  | _, _, _ => None
  end.

(** [array.findIndex(p)]: [None] stands for -1. *)
Fixpoint findIndex {A : Type} (p : A -> bool) (l : list A) : option nat :=
  match l with
  | [] => None
  | x :: l' =>
      if p x then Some O
      else match findIndex p l' with
           | Some i => Some (S i)
           | None => None
           end
  end.

(** [array[array.length - 1]] *)
Definition lastItem {A : Type} (l : list A) : option A :=
  nth_error l (List.length l - 1).

End JS.

(* ================================================================== *)
(** * date-fns                                                         *)
(* ================================================================== *)

Module DateFns.
Import JS.

(** [isWithinInterval(date, {start, end})] (date-fns 3 and later): the
    two ends are put in order, then both comparisons are inclusive.
    (date-fns 2 raised a RangeError instead of swapping the ends; on an
    interval with [start <= end] all versions agree.) *)
Definition isWithinInterval (date start end_ : Date) : bool :=
  let '(startTime, endTime) :=
    if comesAfter (timeDiff start end_) then (end_, start)
    else (start, end_) in
  timeLe startTime date && timeLe date endTime.

End DateFns.

(* ================================================================== *)
(** * Data model                                                       *)
(* ================================================================== *)

(** One observation of the feed; every field is an optional string. *)
Record TelemetryRecord := {
  date : option string;
  time : option string;
  waterLevel : option string;
  inflow : option string;
  totalOutflow : option string;
  powerHouseDischarge : option string;
  spillwayRelease : option string;
  rainfall : option string;
  liveStorage : option string;
  storagePercentage : option string;
  lakeWaterTemp : option string
}.

(** The station, with its string-encoded threshold levels. *)
Record StationConfig := {
  FRL : option string;
  redLevel : option string;
  orangeLevel : option string;
  blueLevel : option string;
  liveStorageAtFRL : option string
}.

(** The outcome of a block that may raise. *)
Inductive completion (A : Type) :=
| Normal (a : A)
| Throw.
Arguments Normal {A} a.
Arguments Throw {A}.

(* ================================================================== *)
(** * src/pages/DamDetail.tsx                                          *)
(* ================================================================== *)

Module DamDetail.
Import JS.

(** The body of the [try] block of [parseDateTime].  [split],
    [parseInt], the [Date] constructor and [setHours] never raise on
    strings, so the block always completes normally. *)
Definition parseDateTime_try (host : Host)
    (dateStr : string) (timeStr : option string) : completion Date :=
  let parts := split "." dateStr in
  let day := nth_error parts 0 in
  let month := nth_error parts 1 in
  let year := nth_error parts 2 in
  let date := Date_ymd host (parseInt year) (pred (parseInt month))
                       (parseInt day) in
  let date :=
    if truthyStr timeStr then
      let parts := split ":" (ToString timeStr) in
      let hours := nth_error parts 0 in
      let minutes := nth_error parts 1 in
      setHours host date (parseInt hours) (parseInt minutes)
               (Some 0) (Some 0)
    else date in
  Normal date.

(** [parseDateTime(dateStr, timeStr?)]; [clock] is what [new Date()]
    reads when the call reaches it. *)
Definition parseDateTime (host : Host) (clock : Z)
    (dateStr : option string) (timeStr : option string) : Date :=
  if negb (truthyStr dateStr) then Date_now clock
  else
    match parseDateTime_try host (ToString dateStr) timeStr with
    | Normal date => date
    | Throw => Date_now clock
    end.

(** [parseNumber(value)] *)
Definition parseNumber (value : option string) : float :=
  if negb (truthyStr value) || String.eqb (trim (ToString value)) ""
  then 0%float
  else
    let cleaned := removeAll "%" (removeAll "," (ToString value)) in
    let parsed := parseFloat (Some cleaned) in
    if isNaN parsed then 0%float else parsed.

(** The entries [calculateAxisDomain] keeps: numbers other than NaN
    ([None] is an [undefined] entry). *)
Definition validData (data : list (option float)) : list float :=
  flat_map (fun val =>
              match val with
              | Some x => if negb (isNaN x) then [x] else []
              | None => []
              end) data.

(** [calculateAxisDomain(data)] *)
Definition calculateAxisDomain (data : list (option float)) : float * float :=
  let validData := validData data in
  if (Z.of_nat (List.length validData) =? 0) then (0, 100)%float
  else
    let min := Math_min validData in
    let max := Math_max validData in
    if PrimFloat.eqb min max then
      let value := min in
      (value * 0.9, value * 1.1)%float
    else
      let padding := ((max - min) * 0.05)%float in
      (min - padding, max + padding)%float.

(** The chosen range of the date picker. *)
Record DateRange := { from : option Date; to : option Date }.

(** The [filteredData] memo: the records of [data] inside the chosen
    range, in ascending order of time. *)
Definition filteredData (host : Host) (clock : Z)
    (data : option (list TelemetryRecord))
    (dateRange : option DateRange) (referenceDate : Date)
    : list TelemetryRecord :=
  match data, dateRange with
  | None, _ => []
  | Some data, None => data
  | Some data, Some dateRange =>
      match from dateRange with
      | None => data
      | Some startDate =>
          let endDate :=
            match to dateRange with
            | Some d => d
            | None => referenceDate
            end in
          let filtered :=
            filter (fun item =>
                      if negb (truthyStr (date item)) then false
                      else
                        let itemDate :=
                          parseDateTime host clock (date item) (time item) in
                        DateFns.isWithinInterval itemDate startDate endDate)
                   data in
          Array_sort (fun a b =>
                        let dateA := parseDateTime host clock (date a) (time a) in
                        let dateB := parseDateTime host clock (date b) (time b) in
                        timeDiff dateA dateB)
                     filtered
      end
  end.

(** The most recent date of the feed, computed by the reference-date
    effect when the feed is not empty: the reduction starts from the
    epoch, [new Date(0)]. *)
Definition mostRecentDate (host : Host) (clock : Z)
    (data : list TelemetryRecord) : Date :=
  fold_left
    (fun latest item =>
       if negb (truthyStr (date item)) then latest
       else
         let itemDate := parseDateTime host clock (date item) (time item) in
         if timeGt itemDate latest then itemDate else latest)
    data (Some 0).

Section WithSubYears.
(** [subYears] of date-fns. *)
Variable subYears : Date -> Z -> Date.

(** The [visualizationData] memo: the records of the two years before
    the reference date, in ascending order of time. *)
Definition visualizationData (host : Host) (clock : Z)
    (data : option (list TelemetryRecord)) (referenceDate : Date)
    : list TelemetryRecord :=
  match data with
  | None => []
  | Some data =>
      let twoYearsAgo := subYears referenceDate 2 in
      let filtered :=
        filter (fun item =>
                  if negb (truthyStr (date item)) then false
                  else
                    let itemDate :=
                      parseDateTime host clock (date item) (time item) in
                    timeLe twoYearsAgo itemDate && timeLe itemDate referenceDate)
               data in
      Array_sort (fun a b =>
                    let dateA := parseDateTime host clock (date a) (time a) in
                    let dateB := parseDateTime host clock (date b) (time b) in
                    timeDiff dateA dateB)
                 filtered
  end.
End WithSubYears.

(** The object of the [waterLevelStats] memo. *)
Record LevelStats := { min : float; max : float; avg : float }.

(** The [waterLevelStats] memo; [None] is [null]. *)
Definition waterLevelStats (filteredData : list TelemetryRecord)
    : option LevelStats :=
  if Z.of_nat (List.length filteredData) =? 0 then None
  else
    let levels :=
      filter (fun level => negb (isNaN level))
        (map (fun d => parseFloat (waterLevel d))
           (filter (fun d => truthyStr (waterLevel d)) filteredData)) in
    if Z.of_nat (List.length levels) =? 0 then None
    else
      Some {| min := Math_min levels;
              max := Math_max levels;
              avg := (fold_left PrimFloat.add levels 0
                      / numberOfInt (Some (Z.of_nat (List.length levels))))%float |}.

(** The record shown by the cards: the last one of the chosen range
    or, when the range is empty, the last one of the feed. *)
Definition currentData (filteredData : list TelemetryRecord)
    (data : option (list TelemetryRecord)) : option TelemetryRecord :=
  if 0 <? Z.of_nat (List.length filteredData) then lastItem filteredData
  else
    match data with
    | Some data =>
        if 0 <? Z.of_nat (List.length data) then lastItem data else None
    | None => None
    end.

(** The axis domains of the charts. *)
Definition inflowDomain (filteredData : list TelemetryRecord) : float * float :=
  calculateAxisDomain
    (map (fun d => Some (parseNumber (inflow d)))
       (filter (fun d => truthyStr (inflow d)) filteredData)).

Definition rainfallDomain (filteredData : list TelemetryRecord) : float * float :=
  calculateAxisDomain
    (map (fun d => Some (parseNumber (rainfall d)))
       (filter (fun d => truthyStr (rainfall d)) filteredData)).

Definition storageDomain (filteredData : list TelemetryRecord) : float * float :=
  calculateAxisDomain
    (map (fun d => Some (parseNumber (liveStorage d)))
       (filter (fun d => truthyStr (liveStorage d)) filteredData)).

Definition outflowDomain (filteredData : list TelemetryRecord) : float * float :=
  calculateAxisDomain
    (map (fun d => Some (parseNumber (powerHouseDischarge d)))
       (filter (fun d => truthyStr (powerHouseDischarge d)) filteredData)
     ++ map (fun d => Some (parseNumber (spillwayRelease d)))
          (filter (fun d => truthyStr (spillwayRelease d)) filteredData)).

Definition waterLevels (filteredData : list TelemetryRecord) : list float :=
  map (fun d => parseFloat (waterLevel d))
    (filter (fun d => truthyStr (waterLevel d)) filteredData).

Definition referenceLines (damData : StationConfig) : list float :=
  filter (fun val => negb (isNaN val) && gt val 0)
    [ parseFloat (FRL damData); parseFloat (redLevel damData);
      parseFloat (orangeLevel damData); parseFloat (blueLevel damData) ].

Definition waterLevelDomain (damData : StationConfig)
    (filteredData : list TelemetryRecord) : float * float :=
  calculateAxisDomain
    (map Some (waterLevels filteredData ++ referenceLines damData)).

End DamDetail.

(* ================================================================== *)
(** * src/components/dam/Visualization.tsx                             *)
(* ================================================================== *)

Module Visualization.
Import JS.

(** The component carries its own copy of [parseDateTime]. *)
Definition parseDateTime_try (host : Host)
    (dateStr : string) (timeStr : option string) : completion Date :=
  let parts := split "." dateStr in
  let day := nth_error parts 0 in
  let month := nth_error parts 1 in
  let year := nth_error parts 2 in
  let date := Date_ymd host (parseInt year) (pred (parseInt month))
                       (parseInt day) in
  let date :=
    if truthyStr timeStr then
      let parts := split ":" (ToString timeStr) in
      let hours := nth_error parts 0 in
      let minutes := nth_error parts 1 in
      setHours host date (parseInt hours) (parseInt minutes)
               (Some 0) (Some 0)
    else date in
  Normal date.

Definition parseDateTime (host : Host) (clock : Z)
    (dateStr : option string) (timeStr : option string) : Date :=
  if negb (truthyStr dateStr) then Date_now clock
  else
    match parseDateTime_try host (ToString dateStr) timeStr with
    | Normal date => date
    | Throw => Date_now clock
    end.

(** The items of the [data] property are objects of the feed: two
    items are the same object when they have the same address. *)
Record Item := { addr : nat; fields : TelemetryRecord }.

(** The items the component keeps: those with a date. *)
Definition validData (data : list Item) : list Item :=
  filter (fun item => truthyStr (date (fields item))) data.

Definition isHourlyData (validData : list Item) : bool :=
  existsb (fun item => truthyStr (time (fields item))) validData.

(** [item.date === targetDate] *)
Definition dateIs (targetDate : string) (item : Item) : bool :=
  match date (fields item) with
  | Some d => String.eqb d targetDate
  | None => false
  end.

Section WithFormat.
(** [format] of date-fns on a valid date; on an Invalid Date it raises a
    RangeError. *)
Variable format : Z -> string -> string.

Definition DateFns_format (d : Date) (pattern : string) : completion string :=
  match d with
  | Some t => Normal (format t pattern)
  | None => Throw
  end.

(** The body of the [try] block of [formatDate]. *)
Definition formatDate_try (host : Host)
    (dateStr : string) (timeStr : option string) : completion string :=
  let parts := split "." dateStr in
  let day := nth_error parts 0 in
  let month := nth_error parts 1 in
  let year := nth_error parts 2 in
  let date := Date_ymd host (parseInt year) (pred (parseInt month))
                       (parseInt day) in
  if truthyStr timeStr then
    let parts := split ":" (ToString timeStr) in
    let hours := nth_error parts 0 in
    let minutes := nth_error parts 1 in
    let date := setHoursMinutes host date (parseInt hours) (parseInt minutes) in
    DateFns_format date "MMM dd, yyyy HH:mm"
  else DateFns_format date "MMM dd, yyyy".

(** [formatDate(dateStr, timeStr?)] *)
Definition formatDate (host : Host)
    (dateStr : option string) (timeStr : option string) : string :=
  if negb (truthyStr dateStr) then "Invalid Date"
  else
    match formatDate_try host (ToString dateStr) timeStr with
    | Normal text => text
    | Throw => "Invalid Date"
    end.

(** [handleDateSelect(date)]: the index handed to [onIndexChange], if
    any. *)
Definition handleDateSelect (validData : list Item) (date : option Date)
    : completion (option nat) :=
  match date with
  | None => Normal None
  | Some date =>
      if Z.of_nat (List.length validData) =? 0 then Normal None
      else
        match DateFns_format date "dd.MM.yyyy" with
        | Throw => Throw
        | Normal targetDate =>
            if isHourlyData validData then
              let dayEntries := filter (dateIs targetDate) validData in
              if 0 <? Z.of_nat (List.length dayEntries) then
                match lastItem dayEntries with
                | Some lastEntryOfDay =>
                    Normal (findIndex
                              (fun item => Nat.eqb (addr item)
                                                   (addr lastEntryOfDay))
                              validData)
                | None => Normal None
                end
              else Normal None
            else Normal (findIndex (dateIs targetDate) validData)
        end
  end.
End WithFormat.

End Visualization.

(* ================================================================== *)
(** * src/components/dam/DamStatusCards.tsx                            *)
(* ================================================================== *)

Module DamStatusCards.
Import JS.

Inductive Zone := red | orange | blue | normal.

(** [getAlertZone(waterLevel, damData)] *)
Definition getAlertZone (waterLevel : float) (damData : StationConfig) : Zone :=
  if ge waterLevel (parseFloat (redLevel damData)) then red
  else if ge waterLevel (parseFloat (orangeLevel damData)) then orange
  else if ge waterLevel (parseFloat (blueLevel damData)) then blue
  else normal.

Inductive Trend := rising | falling | stable.
Inductive Confidence := high | medium | low.

(** The object [calculateWaterLevelTrend] returns; the early return
    leaves two fields out. *)
Record TrendEstimate := {
  hourlyChange : float;
  hourlyChangeInches : option float;
  trend : Trend;
  confidence : Confidence;
  netFlow : option float
}.

(** The surface area of the lake in acres at a level in feet. *)
Definition surfaceAreaAcres (currentLevel : float) : float :=
  (22000 + ((currentLevel - 552) / (580 - 552)) * 2000)%float.

(** The classification from the flow-based rate alone. *)
Definition flowTrend (hourlyChangeFeet : float) : Trend * Confidence :=
  let trend := stable in
  let confidence := medium in
  if gt (Math_abs hourlyChangeFeet) 0.01 then
    (if gt hourlyChangeFeet 0 then rising else falling, high)
  else if gt (Math_abs hourlyChangeFeet) 0.005 then
    (if gt hourlyChangeFeet 0 then rising else falling, medium)
  else (trend, low).

(** [recent3Hours[0] - recent3Hours[2]] of the first three samples;
    reading past the end of an array gives [undefined], hence NaN. *)
Definition levelTrend (recentData : list TelemetryRecord) : float :=
  let recent3Hours :=
    map (fun d => parseFloat (waterLevel d)) (firstn 3 recentData) in
  (nth 0 recent3Hours nan - nth 2 recent3Hours nan)%float.

(** [calculateWaterLevelTrend(currentData, damData, recentData?)] *)
Definition calculateWaterLevelTrend (currentData : option TelemetryRecord)
    (damData : StationConfig) (recentData : option (list TelemetryRecord))
    : TrendEstimate :=
  match currentData with
  | None =>
      {| hourlyChange := 0; hourlyChangeInches := None; trend := stable;
         confidence := low; netFlow := None |}
  | Some currentData =>
      let inflow := orElse (parseFloat (inflow currentData)) 0 in
      let outflow := orElse (parseFloat (totalOutflow currentData)) 0 in
      let netFlow := (inflow - outflow)%float in
      let currentLevel := orElse (parseFloat (waterLevel currentData)) 552 in
      let surfaceAreaAcres := surfaceAreaAcres currentLevel in
      let cubicFeetPerHour := (netFlow * 3600)%float in
      let surfaceAreaSqFt := (surfaceAreaAcres * 43560)%float in
      let hourlyChangeFeet := (cubicFeetPerHour / surfaceAreaSqFt)%float in
      let '(trend, confidence) := flowTrend hourlyChangeFeet in
      let '(trend, confidence) :=
        match recentData with
        | Some recentData =>
            if 3 <=? Z.of_nat (List.length recentData) then
              let levelTrend := levelTrend recentData in
              if gt (Math_abs levelTrend) 0.05 then
                (if gt levelTrend 0 then rising else falling, high)
              else (trend, confidence)
            else (trend, confidence)
        | None => (trend, confidence)
        end in
      {| hourlyChange := hourlyChangeFeet;
         hourlyChangeInches := Some (hourlyChangeFeet * 12)%float;
         trend := trend;
         confidence := confidence;
         netFlow := Some netFlow |}
  end.

(** The object [getTemperatureStatus] returns. *)
Record TemperatureStatus := {
  color : string;
  status : string;
  bgColor : string
}.

(** [getTemperatureStatus(temp)] *)
Definition getTemperatureStatus (temp : float) : TemperatureStatus :=
  if ge temp 80 then
    {| color := "red"; status := "Very Warm"; bgColor := "bg-red-500" |}
  else if ge temp 75 then
    {| color := "orange"; status := "Warm"; bgColor := "bg-orange-500" |}
  else if ge temp 68 then
    {| color := "green"; status := "Ideal"; bgColor := "bg-green-500" |}
  else if ge temp 60 then
    {| color := "blue"; status := "Cool"; bgColor := "bg-blue-500" |}
  else if ge temp 50 then
    {| color := "cyan"; status := "Cold"; bgColor := "bg-cyan-500" |}
  else
    {| color := "slate"; status := "Very Cold"; bgColor := "bg-slate-500" |}.

(** [formatStorage(value)], the value being a string or a number. *)
Definition formatStorage (value : string + float) : float :=
  let numValue :=
    match value with
    | inl text => parseFloat (Some (removeAll "," text))
    | inr number => number
    end in
  (numValue / 1000)%float.

(** The degree sign is the code unit 176. *)
Definition degreeF : string := String (ascii_of_nat 176) "F".

(** The temperature the lake card reads off a present [lakeWaterTemp]:
    [parseInt(currentData.lakeWaterTemp.replace('°F', '') || '0')]. *)
Definition lakeTemperature (lakeWaterTemp : string) : float :=
  numberOfInt (parseInt (Some (orElseStr (removeFirst degreeF lakeWaterTemp) "0"))).

(** The value of the temperature gauge:
    [Math.min(100, Math.max(0, (temp - 32) / (90 - 32) * 100))]. *)
Definition temperatureGauge (temp : float) : float :=
  Math_min [100; Math_max [0; (temp - 32) / (90 - 32) * 100]]%float.

(** The zone and the trend the cards show for the current record. *)
Definition currentAlertZone (currentData : option TelemetryRecord)
    (damData : StationConfig) : Zone :=
  match currentData with
  | Some current => getAlertZone (parseFloat (waterLevel current)) damData
  | None => normal
  end.

End DamStatusCards.

(* ================================================================== *)
(** * The SMS consent form ([ConsentOptIn])                            *)
(* ================================================================== *)

Module ConsentOptIn.
Import JS.

(** [/^[\+]?[1-9][\d]{0,15}$/.test(s)] *)
Fixpoint allDigits (s : string) : bool :=
  match s with
  | EmptyString => true
  | String c s' => isDigit c && allDigits s'
  end.

Definition phoneRegex_test (s : string) : bool :=
  let s := match s with
           | String "+" r => r
           | _ => s
           end in
  match s with
  | String c r =>
      ((49 <=? code c) && (code c <=? 57))
      && allDigits r && (Z.of_nat (String.length r) <=? 15)
  | EmptyString => false
  end.

(** The class [[\s\-\(\)\.]]. *)
Definition isSeparator (c : ascii) : bool :=
  isWhiteSpace c || Ascii.eqb c "-" || Ascii.eqb c "(" || Ascii.eqb c ")"
  || Ascii.eqb c ".".

(** [validatePhoneNumber(phone)] *)
Definition validatePhoneNumber (phone : string) : bool :=
  let cleanPhone := removeWhere isSeparator phone in
  phoneRegex_test cleanPhone && (10 <=? Z.of_nat (String.length cleanPhone)).

(** [formatPhoneNumber(value)] *)
Definition formatPhoneNumber (value : string) : string :=
  let phone := removeWhere (fun c => negb (isDigit c)) value in
  if Z.of_nat (String.length phone) <=? 3 then phone
  else if Z.of_nat (String.length phone) <=? 6 then
    "(" ++ slice 0 3 phone ++ ") " ++ sliceFrom 3 phone
  else
    "(" ++ slice 0 3 phone ++ ") " ++ slice 3 6 phone ++ "-"
    ++ slice 6 10 phone.

(** The [newErrors] object of [handleSubmit]: a missing key is [None]. *)
Record FormErrors := { phone : option string; consent : option string }.

Definition handleSubmit_errors (phoneNumber : string) (consentGiven : bool)
    : FormErrors :=
  let cleanPhone := removeWhere (fun c => negb (isDigit c)) phoneNumber in
  {| phone :=
       if String.eqb (trim phoneNumber) "" then Some "Phone number is required"
       else if negb (validatePhoneNumber cleanPhone)
            then Some "Please enter a valid phone number"
            else None;
     consent :=
       if negb consentGiven
       then Some "You must consent to receive SMS messages"
       else None |}.

(** [Object.keys(newErrors).length > 0]: the submission stops. *)
Definition hasErrors (e : FormErrors) : bool :=
  match phone e, consent e with
  | None, None => false
  | _, _ => true
  end.

End ConsentOptIn.


(* ================================================================== *)
(** * Vocabulary of the properties                                     *)
(* ================================================================== *)

Import JS.

(** The resolved timestamp of a record: what the page computes for it. *)
Definition timestamp (host : Host) (clock : Z) (r : TelemetryRecord) : Date :=
  DamDetail.parseDateTime host clock (date r) (time r).

(** The time value of [d] is the instant [t]. *)
Definition atInstant (t : Z) (d : Date) : bool :=
  match d with
  | Some x => x =? t
  | None => false
  end.

(** Both dates are valid and the first is not after the second. *)
Definition notAfter (a b : Date) : Prop :=
  exists ta tb, a = Some ta /\ b = Some tb /\ ta <= tb.

(** An entry the Axis Domain Calculator keeps: a number other than NaN. *)
Definition isKept (val : option float) : bool :=
  match val with
  | Some x => negb (is_nan x)
  | None => false
  end.

(** The observed level change over the three most recent samples, the
    most recent one first: latest level minus the level two samples
    earlier.  There is none with fewer than three samples. *)
Definition observedChange (recentData : option (list TelemetryRecord))
  : option float :=
  match recentData with
  | Some (latest :: _ :: earliest :: _) =>
      Some (parseFloat (waterLevel latest)
            - parseFloat (waterLevel earliest))%float
  | _ => None
  end.

(** The recent samples overrule the flow-based estimate: there are at
    least three and their level change exceeds 0.05 ft. *)
Definition overruled (recentData : option (list TelemetryRecord)) : bool :=
  match observedChange recentData with
  | Some change => gt (Math_abs change) 0.05
  | None => false
  end.

(** The record [r] with its water level replaced. *)
Definition withLevel (r : TelemetryRecord) (level : option string)
  : TelemetryRecord :=
  {| date := date r; time := time r; waterLevel := level;
     inflow := inflow r; totalOutflow := totalOutflow r;
     powerHouseDischarge := powerHouseDischarge r;
     spillwayRelease := spillwayRelease r; rainfall := rainfall r;
     liveStorage := liveStorage r; storagePercentage := storagePercentage r;
     lakeWaterTemp := lakeWaterTemp r |}.

(** A host whose local time is UTC, and sample data for the examples. *)
Definition utcHost : Host := {| UTC := fun t => t; LocalTime := fun t => t |}.

Definition observation (d t : option string) (level flowIn flowOut : option string)
  : TelemetryRecord :=
  {| date := d; time := t; waterLevel := level; inflow := flowIn;
     totalOutflow := flowOut; powerHouseDischarge := None;
     spillwayRelease := None; rainfall := None; liveStorage := None;
     storagePercentage := None; lakeWaterTemp := None |}.

Definition thresholds (r o b : string) : StationConfig :=
  {| FRL := None; redLevel := Some r; orangeLevel := Some o;
     blueLevel := Some b; liveStorageAtFRL := None |}.

(** Six observations: out of order, two at the same instant, one without
    a date, one with a malformed date and one before the range. *)
Definition sampleRecords : list TelemetryRecord :=
  [ observation (Some "16.03.2024") None (Some "553.1") None None;
    observation (Some "15.03.2024") (Some "14:30") (Some "552.9") None None;
    observation None None (Some "552.0") None None;
    observation (Some "15.03.2024") (Some "14:30") (Some "552.8") None None;
    observation (Some "bad") None (Some "552.7") None None;
    observation (Some "01.01.2020") None (Some "552.6") None None ].

(** The derived view: everything the page computes from the feed, the
    station, the chosen range and the reference date, on a host at a
    reading of the clock.  The cards are rendered without recent
    samples. *)
Record DerivedView := {
  shown : list TelemetryRecord;
  axes : list (float * float);
  statistics : option DamDetail.LevelStats;
  current : option TelemetryRecord;
  zone : DamStatusCards.Zone;
  estimate : DamStatusCards.TrendEstimate
}.

Definition derivedView (host : Host) (clock : Z)
    (data : option (list TelemetryRecord)) (damData : StationConfig)
    (dateRange : option DamDetail.DateRange) (referenceDate : Date)
  : DerivedView :=
  let filteredData :=
    DamDetail.filteredData host clock data dateRange referenceDate in
  let currentData := DamDetail.currentData filteredData data in
  {| shown := filteredData;
     axes := [ DamDetail.inflowDomain filteredData;
               DamDetail.rainfallDomain filteredData;
               DamDetail.storageDomain filteredData;
               DamDetail.outflowDomain filteredData;
               DamDetail.waterLevelDomain damData filteredData ];
     statistics := DamDetail.waterLevelStats filteredData;
     current := currentData;
     zone := DamStatusCards.currentAlertZone currentData damData;
     estimate :=
       DamStatusCards.calculateWaterLevelTrend currentData damData None |}.

(** A text begins with a number: after leading white space and an
    optional sign comes a digit, a dot followed by a digit, or the word
    [Infinity]. *)
Definition beginsWithNumber (text : string) : bool :=
  let unsigned :=
    match trimStart text with
    | String "-" r => r
    | String "+" r => r
    | r => r
    end in
  String.prefix "Infinity" unsigned
  || match unsigned with
     | String c r =>
         isDigit c
         || (Ascii.eqb c "."
             && match r with
                | String d _ => isDigit d
                | EmptyString => false
                end)
     | EmptyString => false
     end.

(** A text without its thousands separators and percent signs. *)
Definition withoutSeparators (text : string) : string :=
  removeAll "%" (removeAll "," text).

(** The rounding of an integer to binary64 as the library of
    floating-point numbers computes it. *)
Definition roundedByLibrary (z : Z) : option Z :=
  match binary_normalize prec emax z 0 false with
  | S754_finite s m e => Some ((if s then -1 else 1) * (Z.pos m * 2 ^ e))
  | _ => None
  end.

(** A number that is neither NaN nor an infinity. *)
Definition isFiniteNumber (v : float) : bool :=
  negb (is_nan v) && PrimFloat.ltb v infinity && PrimFloat.ltb neg_infinity v.

(** The place of a number other than NaN in the order of the binary64
    values: first its class (negative infinity, negative, zero, positive,
    positive infinity), then its exponent and mantissa. *)
Definition sfKey (x : spec_float) : Z * Z * Z :=
  match x with
  | S754_zero _ => (0, 0, 0)
  | S754_infinity s => (if s then -2 else 2, 0, 0)
  | S754_nan => (0, 0, 0)
  | S754_finite s m e => if s then (-1, - e, - Zpos m) else (1, e, Zpos m)
  end.

Definition keyLt (a b : Z * Z * Z) : Prop :=
  let '(a1, a2, a3) := a in
  let '(b1, b2, b3) := b in
  a1 < b1 \/ (a1 = b1 /\ (a2 < b2 \/ (a2 = b2 /\ a3 < b3))).

Definition numKey (x : float) : Z * Z * Z := sfKey (Prim2SF x).

(** How warm a temperature status is, and how severe an alert zone. *)
Definition warmth (s : DamStatusCards.TemperatureStatus) : nat :=
  let label := DamStatusCards.status s in
  if String.eqb label "Very Warm" then 5
  else if String.eqb label "Warm" then 4
  else if String.eqb label "Ideal" then 3
  else if String.eqb label "Cool" then 2
  else if String.eqb label "Cold" then 1
  else 0.

Definition severity (z : DamStatusCards.Zone) : nat :=
  match z with
  | DamStatusCards.red => 3
  | DamStatusCards.orange => 2
  | DamStatusCards.blue => 1
  | DamStatusCards.normal => 0
  end.

(** The water levels [waterLevelStats] reads: the numbers, other than
    NaN, of the records that have a water level. *)
Definition readableLevel (r : TelemetryRecord) : bool :=
  truthyStr (waterLevel r) && negb (is_nan (parseFloat (waterLevel r))).

(** A record has a date and its resolved timestamp is the instant [t]. *)
Definition datedAt (host : Host) (clock : Z) (t : Z) (r : TelemetryRecord)
  : bool :=
  truthyStr (date r) && atInstant t (timestamp host clock r).

(** The decimal digits of a string, in order. *)
Definition digitsOf (s : string) : string :=
  removeWhere (fun c => negb (isDigit c)) s.

(** A host that keeps a fixed offset of [k] milliseconds to UTC. *)
Definition fixedOffsetHost (k : Z) : Host :=
  {| UTC := fun t => t - k; LocalTime := fun t => t + k |}.

(** Four items of hourly data, distinct objects, two of them on one day. *)
Definition sampleItems : list Visualization.Item :=
  [ {| Visualization.addr := 10;
       Visualization.fields :=
         observation (Some "14.03.2024") (Some "23:00") (Some "552.1") None None |};
    {| Visualization.addr := 11;
       Visualization.fields :=
         observation (Some "15.03.2024") (Some "08:00") (Some "552.4") None None |};
    {| Visualization.addr := 12;
       Visualization.fields :=
         observation (Some "15.03.2024") (Some "09:00") (Some "552.5") None None |};
    {| Visualization.addr := 13;
       Visualization.fields :=
         observation (Some "16.03.2024") (Some "00:00") (Some "552.6") None None |} ].

(* ================================================================== *)
(** * Facts about the host language                                    *)
(* ================================================================== *)

(** From year -399999 on, [DayFromYear] is the day number of
    ECMA-262. *)
Lemma DayFromYear_calendar (y : Z) :
  - 399999 <= y ->
  DayFromYear y
  = 365 * (y - 1970) + (y - 1969) / 4 - (y - 1901) / 100 + (y - 1601) / 400.
Proof.
  intros H. unfold DayFromYear, kBaseDay, kYearDelta.
  rewrite !Z.quot_div_nonneg by lia.
  change ((1970 + 399999) / 4) with 100492.
  change ((1970 + 399999) / 100) with 4019.
  change ((1970 + 399999) / 400) with 1004.
  Z.div_mod_to_equations. lia.
Qed.

(** [toNumber] rounds as the library does: on odd integers above 2^53,
    on ties, and at the edge of the overflow. *)
Example toNumber_rounds_as_binary64 :
  forallb (fun z => match toNumber z, roundedByLibrary z with
                    | Some a, Some b => a =? b
                    | None, None => true
                    | _, _ => false
                    end)
    [ 2 ^ 53 + 1; 2 ^ 53 + 2; 2 ^ 53 + 3; - (2 ^ 53 + 1); 2 ^ 54 + 2; 2 ^ 54 + 6;
      9007199254740993; - 9007199254740993; 540431955284457600000;
      10 ^ 22; 10 ^ 23; 10 ^ 300 + 1; 2 ^ 1024 - 2 ^ 970 - 1; 2 ^ 1024 - 2 ^ 970;
      2 ^ 1024; - 2 ^ 1024; 10 ^ 400 ] = true.
Proof. vm_compute. reflexivity. Qed.

Section SortAny.
Context {A : Type} (compareFn : A -> A -> option Z).

Lemma insertSorted_perm (x : A) (l : list A) :
  Permutation (insertSorted compareFn x l) (x :: l).
Proof.
  induction l as [|y l IH]; simpl.
  - apply Permutation_refl.
  - destruct (comesAfter (compareFn x y)).
    + eapply perm_trans; [apply perm_skip, IH | apply perm_swap].
    + apply Permutation_refl.
Qed.

Lemma Array_sort_perm (l : list A) : Permutation (Array_sort compareFn l) l.
Proof.
  induction l as [|x l IH]; simpl.
  - apply perm_nil.
  - eapply perm_trans; [apply insertSorted_perm | apply perm_skip, IH].
Qed.

Lemma Array_sort_In (l : list A) (x : A) :
  In x (Array_sort compareFn l) <-> In x l.
Proof.
  split; apply Permutation_in;
    [apply Array_sort_perm | apply Permutation_sym, Array_sort_perm].
Qed.

(** Only the comparisons between elements of the array matter. *)
Lemma insertSorted_ext_in (other : A -> A -> option Z) (x : A) (l : list A) :
  (forall y, In y l -> compareFn x y = other x y) ->
  insertSorted compareFn x l = insertSorted other x l.
Proof.
  induction l as [|y l IH]; intros H; [reflexivity|].
  cbn [insertSorted]. rewrite (H y (or_introl eq_refl)).
  rewrite IH; [reflexivity|]. intros z Hz. apply H. right. exact Hz.
Qed.

Lemma Array_sort_ext_in (other : A -> A -> option Z) (l : list A) :
  (forall x y, In x l -> In y l -> compareFn x y = other x y) ->
  Array_sort compareFn l = Array_sort other l.
Proof.
  induction l as [|x l IH]; intros H; [reflexivity|].
  cbn [Array_sort]. rewrite <- IH.
  - apply insertSorted_ext_in. intros y Hy.
    apply H; [left; reflexivity|right]. apply Array_sort_In. exact Hy.
  - intros a b Ha Hb. apply H; right; assumption.
Qed.

End SortAny.

Section SortByTime.
Context {A : Type} (key : A -> Date).

Let byTime (a b : A) : option Z := timeDiff (key a) (key b).
Let ordered (a b : A) : Prop := notAfter (key a) (key b).

Lemma comesAfter_timeDiff (a b : A) :
  comesAfter (byTime a b) = true ->
  exists ta tb, key a = Some ta /\ key b = Some tb /\ tb < ta.
Proof.
  unfold byTime, timeDiff, comesAfter.
  destruct (key a) as [ta|], (key b) as [tb|]; try discriminate.
  intros H. apply Z.ltb_lt in H. exists ta, tb. repeat split; lia.
Qed.

Lemma insertSorted_ordered (x : A) (l : list A) :
  (forall y, In y (x :: l) -> exists t, key y = Some t) ->
  StronglySorted ordered l ->
  StronglySorted ordered (insertSorted byTime x l).
Proof.
  intros Hvalid Hs. induction Hs as [|y l Hs IH Hy]; simpl.
  - constructor; constructor.
  - destruct (comesAfter (byTime x y)) eqn:Hc.
    + apply comesAfter_timeDiff in Hc as (tx & ty & Hx & Hy' & Hlt).
      constructor.
      * apply IH. intros z [Hz|Hz]; apply Hvalid; simpl; auto.
      * apply Forall_forall. intros z Hz.
        apply (Permutation_in _ (insertSorted_perm byTime x l)) in Hz.
        destruct Hz as [<-|Hz].
        -- exists ty, tx. repeat split; auto; lia.
        -- rewrite Forall_forall in Hy. auto.
    + destruct (Hvalid x (or_introl eq_refl)) as [tx Hx].
      destruct (Hvalid y (or_intror (or_introl eq_refl))) as [ty Hy'].
      assert (Hle : tx <= ty).
      { unfold byTime, timeDiff, comesAfter in Hc. rewrite Hx, Hy' in Hc.
        apply Z.ltb_ge in Hc. lia. }
      constructor.
      * constructor; assumption.
      * constructor.
        -- exists tx, ty. auto.
        -- rewrite Forall_forall in Hy |- *. intros z Hz.
           destruct (Hy z Hz) as (ty' & tz & Hy'' & Hz' & Hle').
           rewrite Hy' in Hy''. injection Hy'' as <-.
           exists tx, tz. repeat split; auto; lia.
Qed.

Lemma Array_sort_ordered (l : list A) :
  (forall y, In y l -> exists t, key y = Some t) ->
  StronglySorted ordered (Array_sort byTime l).
Proof.
  induction l as [|x l IH]; simpl; intros Hvalid.
  - constructor.
  - apply insertSorted_ordered.
    + intros y [<-|Hy]; [auto|]. apply Hvalid. right.
      apply (proj1 (Array_sort_In byTime l y)). exact Hy.
    + apply IH. intros y Hy. apply Hvalid. right. exact Hy.
Qed.

(** Sorting never reorders the elements that share one instant. *)
Lemma insertSorted_atInstant (t : Z) (x : A) (l : list A) :
  filter (fun a => atInstant t (key a)) (insertSorted byTime x l)
  = filter (fun a => atInstant t (key a)) (x :: l).
Proof.
  induction l as [|y l IH]; [reflexivity|].
  cbn [insertSorted]. destruct (comesAfter (byTime x y)) eqn:Hc; [|reflexivity].
  apply comesAfter_timeDiff in Hc as (tx & ty & Hx & Hy & Hlt).
  cbn [filter] in *. rewrite IH, Hx, Hy. cbn [atInstant].
  destruct (tx =? t) eqn:Ex, (ty =? t) eqn:Ey; try reflexivity.
  apply Z.eqb_eq in Ex, Ey. lia.
Qed.

Lemma Array_sort_atInstant (t : Z) (l : list A) :
  filter (fun a => atInstant t (key a)) (Array_sort byTime l)
  = filter (fun a => atInstant t (key a)) l.
Proof.
  induction l as [|x l IH]; [reflexivity|].
  cbn [Array_sort]. rewrite insertSorted_atInstant.
  cbn [filter]. rewrite IH. reflexivity.
Qed.

End SortByTime.

Lemma filter_twice {A : Type} (p q : A -> bool) (l : list A) :
  filter p (filter q l) = filter (fun x => q x && p x) l.
Proof.
  induction l as [|x l IH]; [reflexivity|].
  cbn [filter]. destruct (q x); cbn [andb filter]; rewrite IH; reflexivity.
Qed.

Lemma isWithinInterval_inclusive (d : Date) (s e : Z) :
  s <= e ->
  DateFns.isWithinInterval d (Some s) (Some e) = true ->
  exists t, d = Some t /\ s <= t <= e.
Proof.
  intros Hse. unfold DateFns.isWithinInterval. cbn [timeDiff comesAfter].
  replace (0 <? s - e) with false by (symmetry; apply Z.ltb_ge; lia).
  destruct d as [t|]; cbn [timeLe]; [|discriminate].
  intros H. apply andb_prop in H as [H1 H2].
  apply Z.leb_le in H1, H2. exists t. auto.
Qed.

Lemma isWithinInterval_complete (t s e : Z) :
  s <= t <= e -> DateFns.isWithinInterval (Some t) (Some s) (Some e) = true.
Proof.
  intros [H1 H2]. unfold DateFns.isWithinInterval. cbn [timeDiff comesAfter].
  replace (0 <? s - e) with false by (symmetry; apply Z.ltb_ge; lia).
  cbn [timeLe]. apply andb_true_intro. split; apply Z.leb_le; assumption.
Qed.

(** With the ends the wrong way round the interval is read as
    [[e, s]]. *)
Lemma isWithinInterval_reversed (t s e : Z) :
  e < s ->
  DateFns.isWithinInterval (Some t) (Some s) (Some e)
  = (e <=? t) && (t <=? s).
Proof.
  intros H. unfold DateFns.isWithinInterval. cbn [timeDiff comesAfter].
  replace (0 <? s - e) with true by (symmetry; apply Z.ltb_lt; lia).
  reflexivity.
Qed.

(** Whatever the order of the two ends, a date is within the interval
    exactly when it is valid and lies between them, ends included. *)
Lemma isWithinInterval_between (d : Date) (s e : Z) :
  DateFns.isWithinInterval d (Some s) (Some e) = true
  <-> exists t, d = Some t /\ Z.min s e <= t <= Z.max s e.
Proof.
  unfold DateFns.isWithinInterval. cbn [timeDiff comesAfter].
  destruct (0 <? s - e) eqn:Hc;
    [apply Z.ltb_lt in Hc|apply Z.ltb_ge in Hc];
    (destruct d as [t|]; cbn [timeLe];
     [|split; [discriminate|intros (t & Ht & _); discriminate]]);
    (split;
     [intros H; apply andb_prop in H as [H1 H2]; apply Z.leb_le in H1, H2;
      exists t; split; [reflexivity|lia]
     |intros (t' & Ht & H1 & H2); injection Ht as Ht; subst t';
      apply andb_true_intro; split; apply Z.leb_le; lia]).
Qed.

(* ================================================================== *)
(** * The Range Filter                                                 *)
(* ================================================================== *)

(** C2, as stated, fails when the start of the range is later than its
    end, as it is when the picker holds a start only and that start is
    later than the reference date: the record of 16.03.2024, resolved to
    the instant 1710547200000, is in the result although the start of the
    range, 1710600000000, is later. *)
Lemma filteredData_reversed_range :
  let start := 1710600000000 in
  let latest := observation (Some "16.03.2024") None (Some "553.1") None None in
  let result :=
    DamDetail.filteredData utcHost 0 (Some sampleRecords)
      (Some {| DamDetail.from := Some (Some start); DamDetail.to := None |})
      (Some 1710547200000) in
  In latest result
  /\ timestamp utcHost 0 latest = Some 1710547200000
  /\ ~ (forall r, In r result ->
          exists t, timestamp utcHost 0 r = Some t
                    /\ start <= t <= 1710547200000).
Proof.
  cbv zeta.
  assert (Hin : In (observation (Some "16.03.2024") None (Some "553.1") None None)
                   (DamDetail.filteredData utcHost 0 (Some sampleRecords)
                      (Some {| DamDetail.from := Some (Some 1710600000000);
                               DamDetail.to := None |})
                      (Some 1710547200000))).
  { vm_compute. left. reflexivity. }
  assert (Ht : timestamp utcHost 0
                 (observation (Some "16.03.2024") None (Some "553.1") None None)
               = Some 1710547200000).
  { vm_compute. reflexivity. }
  split; [exact Hin|]. split; [exact Ht|].
  intros H. destruct (H _ Hin) as (t & Et & Hlo & _).
  rewrite Ht in Et. injection Et as Et. subst t. lia.
Qed.

(** C2, amended.  For every record sequence and every range of the date
    picker with valid ends [s] and [e] (the end [e] coming from the range
    itself or, when the range has no end, from the reference date): every
    record of [filteredData] has a valid resolved timestamp [t] that lies
    between the two ends, ends included, whichever of the two is the
    earlier one (so [s <= t <= e] when [s <= e]); a record whose date
    field is absent is not in the result; the result is in ascending order
    of resolved timestamp whatever the order of the input; and the records
    that share one timestamp appear in the result exactly as they appear
    in the input, in the same relative order. *)
Theorem filteredData_between_ends_sorted_stable
    (host : Host) (clock : Z) (records : list TelemetryRecord)
    (s e : Z) (rangeEnd : option Date) (referenceDate : Date) :
  match rangeEnd with Some d => d | None => referenceDate end = Some e ->
  let result :=
    DamDetail.filteredData host clock (Some records)
      (Some {| DamDetail.from := Some (Some s); DamDetail.to := rangeEnd |})
      referenceDate in
  (forall r, In r result ->
     exists t, timestamp host clock r = Some t
               /\ Z.min s e <= t <= Z.max s e)
  /\ (s <= e ->
      forall r, In r result ->
        exists t, timestamp host clock r = Some t /\ s <= t <= e)
  /\ (forall r, date r = None -> ~ In r result)
  /\ StronglySorted
       (fun a b => notAfter (timestamp host clock a) (timestamp host clock b))
       result
  /\ (forall t, Z.min s e <= t <= Z.max s e ->
        filter (fun r => atInstant t (timestamp host clock r)) result
        = filter (fun r => truthyStr (date r)
                           && atInstant t (timestamp host clock r)) records).
Proof.
  intros Hend.
  set (keep := fun item : TelemetryRecord =>
                 if negb (truthyStr (date item)) then false
                 else DateFns.isWithinInterval
                        (DamDetail.parseDateTime host clock (date item) (time item))
                        (Some s) (Some e)).
  assert (Hres : DamDetail.filteredData host clock (Some records)
                   (Some {| DamDetail.from := Some (Some s);
                            DamDetail.to := rangeEnd |}) referenceDate
                 = Array_sort (fun a b => timeDiff (timestamp host clock a)
                                                   (timestamp host clock b))
                              (filter keep records)).
  { unfold DamDetail.filteredData. cbn [DamDetail.from DamDetail.to].
    rewrite Hend. reflexivity. }
  rewrite Hres. clear Hres. intros result.
  assert (Hkeep : forall r, In r (filter keep records) ->
            truthyStr (date r) = true
            /\ exists t, timestamp host clock r = Some t
                         /\ Z.min s e <= t <= Z.max s e).
  { intros r Hr. apply filter_In in Hr as [_ Hr]. unfold keep in Hr.
    destruct (truthyStr (date r)); [|discriminate]. split; [reflexivity|].
    apply isWithinInterval_between. exact Hr. }
  assert (Hin : forall r, In r result -> In r (filter keep records)).
  { intros r Hr. unfold result in Hr. apply Array_sort_In in Hr. exact Hr. }
  split; [|split; [|split; [|split]]].
  - intros r Hr. apply Hkeep, Hin, Hr.
  - intros Hse r Hr. apply Hin, Hkeep in Hr as (_ & t & Ht & Hb).
    exists t. split; [exact Ht|]. lia.
  - intros r Hnone Hr. apply Hin, Hkeep in Hr as [Hr _].
    rewrite Hnone in Hr. discriminate.
  - apply (Array_sort_ordered (timestamp host clock)).
    intros r Hr. destruct (Hkeep r Hr) as (_ & t & Ht & _). exists t. exact Ht.
  - intros t Ht. unfold result.
    rewrite (Array_sort_atInstant (timestamp host clock) t).
    rewrite filter_twice. apply filter_ext. intros r.
    unfold keep, timestamp.
    destruct (truthyStr (date r)); cbn [negb andb]; [|reflexivity].
    destruct (DamDetail.parseDateTime host clock (date r) (time r)) as [tr|];
      cbn [atInstant]; [|apply andb_false_r].
    destruct (tr =? t) eqn:Et; [|apply andb_false_r].
    apply Z.eqb_eq in Et. subst tr.
    rewrite (proj2 (isWithinInterval_between (Some t) s e)); [reflexivity|].
    exists t. split; [reflexivity|exact Ht].
Qed.

Example filteredData_sample :
  DamDetail.filteredData utcHost 0 (Some sampleRecords)
    (Some {| DamDetail.from := Some (Some 1710460800000);
             DamDetail.to := Some (Some 1710547200000) |}) None
  = [ observation (Some "15.03.2024") (Some "14:30") (Some "552.9") None None;
      observation (Some "15.03.2024") (Some "14:30") (Some "552.8") None None;
      observation (Some "16.03.2024") None (Some "553.1") None None ].
Proof. vm_compute. reflexivity. Qed.

Lemma filteredData_between_ends_sorted_stable_witness :
  let result :=
    DamDetail.filteredData utcHost 0 (Some sampleRecords)
      (Some {| DamDetail.from := Some (Some 1710460800000);
               DamDetail.to := None |}) (Some 1710547200000) in
  (forall r, In r result ->
     exists t, timestamp utcHost 0 r = Some t
               /\ Z.min 1710460800000 1710547200000 <= t
                  <= Z.max 1710460800000 1710547200000)
  /\ (1710460800000 <= 1710547200000 ->
      forall r, In r result ->
        exists t, timestamp utcHost 0 r = Some t
                  /\ 1710460800000 <= t <= 1710547200000)
  /\ (forall r, date r = None -> ~ In r result)
  /\ StronglySorted
       (fun a b => notAfter (timestamp utcHost 0 a) (timestamp utcHost 0 b))
       result
  /\ (forall t, Z.min 1710460800000 1710547200000 <= t
                <= Z.max 1710460800000 1710547200000 ->
        filter (fun r => atInstant t (timestamp utcHost 0 r)) result
        = filter (fun r => truthyStr (date r)
                           && atInstant t (timestamp utcHost 0 r))
                 sampleRecords).
Proof.
  apply (filteredData_between_ends_sorted_stable utcHost 0 sampleRecords
           1710460800000 1710547200000 None (Some 1710547200000)).
  reflexivity.
Defined.

(* ================================================================== *)
(** * The DateTime Normalizer                                          *)
(* ================================================================== *)

(** The [try] block completes normally on every pair of strings: the
    [catch] clause of [parseDateTime] is never entered. *)
Lemma parseDateTime_try_completes (host : Host) (dateStr : string)
    (timeStr : option string) :
  exists d, DamDetail.parseDateTime_try host dateStr timeStr = Normal d.
Proof. unfold DamDetail.parseDateTime_try. eexists. reflexivity. Qed.

(** The two copies of [parseDateTime] are the same function. *)
Lemma parseDateTime_copies_agree (host : Host) (clock : Z)
    (dateStr timeStr : option string) :
  Visualization.parseDateTime host clock dateStr timeStr
  = DamDetail.parseDateTime host clock dateStr timeStr.
Proof. reflexivity. Qed.

Example parseDateTime_date_only :
  DamDetail.parseDateTime utcHost 0 (Some "15.03.2024") None
  = Some 1710460800000.
Proof. vm_compute. reflexivity. Qed.

Example parseDateTime_date_and_time :
  DamDetail.parseDateTime utcHost 0 (Some "15.03.2024") (Some "14:30")
  = Some (1710460800000 + 14 * 3600000 + 30 * 60000).
Proof. vm_compute. reflexivity. Qed.

(** Hours and minutes beyond 2^53 are rounded as Numbers are, and a year
    beyond a million gives an Invalid Date. *)
Example parseDateTime_rounds :
  DamDetail.parseDateTime utcHost 0 (Some "15.03.2024")
    (Some "150119987579016:-9007199254740993") = Some 1710458899456
  /\ DamDetail.parseDateTime utcHost 0 (Some "-700000000.01.2000000") None
     = None.
Proof. split; vm_compute; reflexivity. Qed.

(** A date string with a field that [parseInt] cannot read gives an
    Invalid Date, whatever the time string. *)
Lemma parseDateTime_unreadable_field (host : Host) (clock : Z)
    (dateStr : string) (timeStr : option string) :
  truthyStr (Some dateStr) = true ->
  parseInt (nth_error (split "." dateStr) 0) = None
  \/ parseInt (nth_error (split "." dateStr) 1) = None
  \/ parseInt (nth_error (split "." dateStr) 2) = None ->
  DamDetail.parseDateTime host clock (Some dateStr) timeStr = None.
Proof.
  intros Ht H. unfold DamDetail.parseDateTime. rewrite Ht. cbn [negb ToString].
  unfold DamDetail.parseDateTime_try.
  assert (Hd : Date_ymd host (parseInt (nth_error (split "." dateStr) 2))
                 (pred (parseInt (nth_error (split "." dateStr) 1)))
                 (parseInt (nth_error (split "." dateStr) 0)) = None).
  { unfold Date_ymd, pred.
    destruct H as [H|[H|H]]; rewrite H; cbn [number numAdd];
      repeat match goal with |- context [match ?x with _ => _ end] =>
                               destruct x end; reflexivity. }
  rewrite Hd. destruct (truthyStr timeStr); reflexivity.
Qed.

(** C1.  On the malformed date string ["bad"], [parseDateTime] (either
    copy) returns an Invalid Date, whose time value is NaN: it does not
    return the current moment.  The same happens with a missing field
    (["15.03"]), a non-numeric token (["15.xx.2024"]) and an unreadable
    time string. *)
Theorem parseDateTime_bad_is_invalid (host : Host) (clock : Z) :
  DamDetail.parseDateTime host clock (Some "bad") None = None
  /\ Visualization.parseDateTime host clock (Some "bad") None = None
  /\ DamDetail.parseDateTime host clock (Some "bad") None <> Date_now clock
  /\ DamDetail.parseDateTime host clock (Some "15.03") None = None
  /\ DamDetail.parseDateTime host clock (Some "15.xx.2024") None = None
  /\ DamDetail.parseDateTime host clock (Some "15.03.2024") (Some "noon") = None.
Proof.
  repeat split; try reflexivity.
  - discriminate.
  - unfold DamDetail.parseDateTime, DamDetail.parseDateTime_try.
    cbn [truthyStr negb ToString]. unfold setHours.
    replace (parseInt (nth_error (split ":" "noon") 0)) with (@None Z)
      by reflexivity.
    destruct (Date_ymd _ _ _ _); reflexivity.
Qed.

(* ================================================================== *)
(** * Determinism                                                      *)
(* ================================================================== *)

Lemma parseDateTime_ignores_clock (host : Host) (c1 c2 : Z)
    (dateStr timeStr : option string) :
  truthyStr dateStr = true ->
  DamDetail.parseDateTime host c1 dateStr timeStr
  = DamDetail.parseDateTime host c2 dateStr timeStr.
Proof.
  intros H. unfold DamDetail.parseDateTime. rewrite H. reflexivity.
Qed.

Lemma filteredData_ignores_clock (host : Host) (c1 c2 : Z)
    (data : option (list TelemetryRecord))
    (dateRange : option DamDetail.DateRange) (referenceDate : Date) :
  DamDetail.filteredData host c1 data dateRange referenceDate
  = DamDetail.filteredData host c2 data dateRange referenceDate.
Proof.
  unfold DamDetail.filteredData.
  destruct data as [data|]; [|reflexivity].
  destruct dateRange as [[[startDate|] rangeEnd]|]; try reflexivity.
  cbn [DamDetail.from DamDetail.to].
  set (endDate := match rangeEnd with Some d => d | None => referenceDate end).
  match goal with
  | |- Array_sort _ (filter ?k1 _) = Array_sort _ (filter ?k2 _) =>
      assert (Hk : filter k1 data = filter k2 data)
  end.
  { apply filter_ext. intros r.
    destruct (truthyStr (date r)) eqn:Hr; [|reflexivity]. cbn [negb].
    rewrite (parseDateTime_ignores_clock host c1 c2 _ _ Hr). reflexivity. }
  rewrite Hk. apply Array_sort_ext_in. intros a b Ha Hb.
  apply filter_In in Ha as [_ Ha], Hb as [_ Hb].
  destruct (truthyStr (date a)) eqn:Hda; [|discriminate].
  destruct (truthyStr (date b)) eqn:Hdb; [|discriminate].
  rewrite (parseDateTime_ignores_clock host c1 c2 _ _ Hda).
  rewrite (parseDateTime_ignores_clock host c1 c2 _ _ Hdb).
  reflexivity.
Qed.

(** C9, as stated, fails: on the empty date string two runs at different
    clock readings return different dates. *)
Lemma parseDateTime_empty_reads_clock :
  DamDetail.parseDateTime utcHost 0 (Some "") None
  <> DamDetail.parseDateTime utcHost 1000 (Some "") None.
Proof. intros H. vm_compute in H. discriminate. Qed.

(** C9, amended.  Two runs on identical input on one host (the same
    time-zone rules) give identical output, whatever the clock reads at
    each run: [parseDateTime] (either copy) on every non-empty date
    string, [filteredData], and the whole derived view that
    [parseNumber], [calculateAxisDomain], [calculateWaterLevelTrend] and
    [getAlertZone] compute from it (axis domains, statistics, current
    record, zone and trend estimate).  A date string with a field that
    [parseInt] cannot read, such as ["bad"], gives an Invalid Date on
    every host at every time.  The exception: on an absent or empty date
    string [parseDateTime] returns the reading of the clock.  The host
    matters: the same date string is another instant in another time
    zone. *)
Theorem pipeline_deterministic_but_for_clock (host : Host) (c1 c2 : Z) :
  (forall dateStr timeStr, truthyStr dateStr = true ->
     DamDetail.parseDateTime host c1 dateStr timeStr
     = DamDetail.parseDateTime host c2 dateStr timeStr
     /\ Visualization.parseDateTime host c1 dateStr timeStr
        = Visualization.parseDateTime host c2 dateStr timeStr)
  /\ (forall (other : Host) dateStr timeStr,
        truthyStr (Some dateStr) = true ->
        parseInt (nth_error (split "." dateStr) 0) = None
        \/ parseInt (nth_error (split "." dateStr) 1) = None
        \/ parseInt (nth_error (split "." dateStr) 2) = None ->
        DamDetail.parseDateTime host c1 (Some dateStr) timeStr = None
        /\ DamDetail.parseDateTime other c2 (Some dateStr) timeStr = None)
  /\ (forall other : Host,
        DamDetail.parseDateTime host c1 (Some "bad") None
        = DamDetail.parseDateTime other c2 (Some "bad") None)
  /\ (forall dateStr timeStr, truthyStr dateStr = false ->
        DamDetail.parseDateTime host c1 dateStr timeStr = Date_now c1
        /\ Visualization.parseDateTime host c1 dateStr timeStr = Date_now c1)
  /\ (forall data dateRange referenceDate,
        DamDetail.filteredData host c1 data dateRange referenceDate
        = DamDetail.filteredData host c2 data dateRange referenceDate)
  /\ (forall data damData dateRange referenceDate,
        derivedView host c1 data damData dateRange referenceDate
        = derivedView host c2 data damData dateRange referenceDate)
  /\ DamDetail.parseDateTime utcHost c1 (Some "15.03.2024") None
     <> DamDetail.parseDateTime (fixedOffsetHost 3600000) c1
          (Some "15.03.2024") None.
Proof.
  split; [|split; [|split; [|split; [|split; [|split]]]]].
  - intros dateStr timeStr H.
    split; exact (parseDateTime_ignores_clock host c1 c2 dateStr timeStr H).
  - intros other dateStr timeStr Ht H.
    split; apply parseDateTime_unreadable_field; assumption.
  - intros other. reflexivity.
  - intros dateStr timeStr H.
    assert (E : DamDetail.parseDateTime host c1 dateStr timeStr = Date_now c1).
    { unfold DamDetail.parseDateTime. rewrite H. reflexivity. }
    split; exact E.
  - apply filteredData_ignores_clock.
  - intros data damData dateRange referenceDate. unfold derivedView.
    rewrite (filteredData_ignores_clock host c1 c2). reflexivity.
  - intros H. vm_compute in H. discriminate.
Qed.

Lemma pipeline_deterministic_but_for_clock_witness :
  DamDetail.parseDateTime utcHost 0 (Some "15.03.2024") (Some "14:30")
  = DamDetail.parseDateTime utcHost 1000 (Some "15.03.2024") (Some "14:30")
  /\ DamDetail.parseDateTime utcHost 0 (Some "15.xx.2024") (Some "14:30") = None
  /\ DamDetail.parseDateTime utcHost 0 None (Some "14:30") = Date_now 0.
Proof.
  split; [|split].
  - apply (proj1 (pipeline_deterministic_but_for_clock utcHost 0 1000)).
    reflexivity.
  - apply (proj1 (proj2 (pipeline_deterministic_but_for_clock utcHost 0 1000))
             utcHost "15.xx.2024" (Some "14:30")).
    + reflexivity.
    + right. left. reflexivity.
  - apply (proj1 (proj2 (proj2 (proj2
             (pipeline_deterministic_but_for_clock utcHost 0 1000))))).
    reflexivity.
Defined.

(* ================================================================== *)
(** * The Numeric Coercer                                              *)
(* ================================================================== *)

Example parseNumber_examples :
  DamDetail.parseNumber (Some "1,234.5") = 1234.5%float
  /\ DamDetail.parseNumber (Some "42%") = 42%float
  /\ DamDetail.parseNumber (Some "n/a") = 0%float.
Proof. repeat split; vm_compute; reflexivity. Qed.

(* ================================================================== *)
(** * The Axis Domain Calculator                                       *)
(* ================================================================== *)

Lemma validData_isKept (data : list (option float)) :
  map Some (DamDetail.validData data) = filter isKept data.
Proof.
  unfold DamDetail.validData, isNaN.
  induction data as [|[x|] data IH]; cbn [flat_map filter isKept];
    [reflexivity| |exact IH].
  destruct (negb (is_nan x)); cbn [app map]; rewrite IH; reflexivity.
Qed.

Lemma validData_values (data : list (option float)) (vs : list float) :
  filter isKept data = map Some vs -> DamDetail.validData data = vs.
Proof.
  rewrite <- validData_isKept. generalize (DamDetail.validData data).
  induction vs as [|v vs IH]; intros [|w ws] H; try discriminate; [reflexivity|].
  cbn [map] in H. injection H as -> H. f_equal. apply IH. exact H.
Qed.

Lemma validData_filter (data : list (option float)) :
  DamDetail.validData (filter isKept data) = DamDetail.validData data.
Proof.
  apply validData_values. rewrite validData_isKept.
  induction data as [|v data IH]; [reflexivity|].
  cbn [filter]. destruct (isKept v) eqn:Hv; cbn [filter]; rewrite ?Hv, IH;
    reflexivity.
Qed.

(** C4, as stated, fails: an infinite entry is not filtered out. *)
Lemma calculateAxisDomain_keeps_infinity :
  DamDetail.calculateAxisDomain [Some 1%float; Some infinity]
  <> DamDetail.calculateAxisDomain [Some 1%float].
Proof.
  intros H. apply (f_equal (fun d => Prim2SF (fst d))) in H.
  vm_compute in H. discriminate.
Qed.

(** C4, amended.  [calculateAxisDomain] first filters out the NaN and
    undefined entries (infinite entries are kept), then: if nothing
    remains it yields [[0, 100]]; otherwise, with [min] and [max] of the
    remaining values different, it yields [[min - p, max + p]] where
    [p = (max - min) * 0.05].  In particular the domain of the empty list
    is [[0, 100]], that of [[5,5,5]] is [[4.5, 5.5]], that of
    [[1,2,3,4,10]] is [[0.55, 10.45]], and a list with NaN or undefined
    entries has the domain of the list without them. *)
Theorem calculateAxisDomain_filters_then_pads :
  (forall data,
     DamDetail.calculateAxisDomain data
     = DamDetail.calculateAxisDomain (filter isKept data))
  /\ (forall data, filter isKept data = [] ->
        DamDetail.calculateAxisDomain data = (0, 100)%float)
  /\ (forall data v vs, filter isKept data = map Some (v :: vs) ->
        let min := Math_min (v :: vs) in
        let max := Math_max (v :: vs) in
        let p := ((max - min) * 0.05)%float in
        PrimFloat.eqb min max = false ->
        DamDetail.calculateAxisDomain data = (min - p, max + p)%float)
  /\ DamDetail.calculateAxisDomain [] = (0, 100)%float
  /\ DamDetail.calculateAxisDomain [Some 5; Some 5; Some 5]%float
     = (4.5, 5.5)%float
  /\ DamDetail.calculateAxisDomain [Some 1; Some 2; Some 3; Some 4; Some 10]%float
     = (0.55, 10.45)%float
  /\ DamDetail.calculateAxisDomain
       [Some 1; Some nan; None; Some 10; Some (0 / 0)]%float
     = DamDetail.calculateAxisDomain [Some 1; Some 10]%float
  /\ DamDetail.calculateAxisDomain [Some 1%float; Some infinity]
     = (neg_infinity, infinity).
Proof.
  repeat split; try (vm_compute; reflexivity).
  - intros data. unfold DamDetail.calculateAxisDomain.
    rewrite validData_filter. reflexivity.
  - intros data H. unfold DamDetail.calculateAxisDomain.
    rewrite (validData_values data [] H). reflexivity.
  - intros data v vs H min max p Hne. unfold DamDetail.calculateAxisDomain.
    rewrite (validData_values data (v :: vs) H).
    cbn [List.length]. rewrite Nat2Z.inj_succ.
    replace (Z.succ (Z.of_nat (List.length vs)) =? 0) with false
      by (symmetry; apply Z.eqb_neq; lia).
    fold min max. rewrite Hne. reflexivity.
Qed.

Lemma calculateAxisDomain_filters_then_pads_witness :
  DamDetail.calculateAxisDomain [Some nan; None]%float = (0, 100)%float
  /\ DamDetail.calculateAxisDomain [None; Some 2; Some nan; Some 4]%float
     = (2 - (4 - 2) * 0.05, 4 + (4 - 2) * 0.05)%float.
Proof.
  split.
  - apply (proj1 (proj2 calculateAxisDomain_filters_then_pads)). reflexivity.
  - apply (proj1 (proj2 (proj2 calculateAxisDomain_filters_then_pads))
             [None; Some 2; Some nan; Some 4]%float 2%float [4%float]);
      reflexivity.
Defined.

Lemma min2_same (v : float) : is_nan v = false -> min2 v v = v.
Proof.
  intros H. unfold min2. rewrite H. cbn [orb].
  destruct (is_zero v && is_zero v && get_sign v); [reflexivity|].
  destruct (PrimFloat.ltb v v); reflexivity.
Qed.

Lemma max2_same (v : float) : is_nan v = false -> max2 v v = v.
Proof.
  intros H. unfold max2. rewrite H. cbn [orb].
  destruct (is_zero v && is_zero v && negb (get_sign v)); [reflexivity|].
  destruct (PrimFloat.ltb v v); reflexivity.
Qed.

Lemma fold_min2_same (v : float) (n : nat) :
  is_nan v = false -> fold_left min2 (repeat v n) v = v.
Proof.
  intros H. induction n as [|n IH]; [reflexivity|].
  cbn [repeat fold_left]. rewrite (min2_same v H). exact IH.
Qed.

Lemma fold_max2_same (v : float) (n : nat) :
  is_nan v = false -> fold_left max2 (repeat v n) v = v.
Proof.
  intros H. induction n as [|n IH]; [reflexivity|].
  cbn [repeat fold_left]. rewrite (max2_same v H). exact IH.
Qed.

(** A flat series of a finite value [v], NaN and undefined entries
    aside, has the domain [[v * 0.9, v * 1.1]]. *)
Lemma calculateAxisDomain_flat (data : list (option float)) (v : float)
    (n : nat) :
  filter isKept data = repeat (Some v) (S n) ->
  isFiniteNumber v = true ->
  DamDetail.calculateAxisDomain data = (v * 0.9, v * 1.1)%float.
Proof.
  intros Hdata Hv. unfold isFiniteNumber in Hv.
  apply andb_prop in Hv as [Hv Hlo]. apply andb_prop in Hv as [Hnan Hhi].
  apply negb_true_iff in Hnan.
  rewrite <- map_repeat in Hdata. apply validData_values in Hdata.
  unfold DamDetail.calculateAxisDomain. rewrite Hdata.
  rewrite repeat_length.
  replace (Z.of_nat (S n) =? 0) with false by (symmetry; apply Z.eqb_neq; lia).
  assert (Hmin : Math_min (repeat v (S n)) = v).
  { unfold Math_min. cbn [repeat fold_left].
    replace (min2 infinity v) with v; [apply fold_min2_same, Hnan|].
    unfold min2. rewrite Hnan, Hhi.
    replace (is_zero infinity) with false by reflexivity.
    rewrite andb_false_r. reflexivity. }
  assert (Hmax : Math_max (repeat v (S n)) = v).
  { unfold Math_max. cbn [repeat fold_left].
    replace (max2 neg_infinity v) with v; [apply fold_max2_same, Hnan|].
    unfold max2. rewrite Hnan, Hlo.
    replace (is_zero neg_infinity) with false by reflexivity.
    rewrite andb_false_r. reflexivity. }
  rewrite Hmin, Hmax.
  unfold is_nan in Hnan. apply negb_false_iff in Hnan. rewrite Hnan.
  reflexivity.
Qed.

Example calculateAxisDomain_flat_552 :
  DamDetail.calculateAxisDomain [Some 552.5; None; Some 552.5]%float
  = (552.5 * 0.9, 552.5 * 1.1)%float.
Proof. apply (calculateAxisDomain_flat _ 552.5%float 1); reflexivity. Qed.

(** C7.  On a flat series of zeros [calculateAxisDomain] yields
    [[0, 0]], a domain of zero height, and on a flat negative series its
    low bound is above its high bound; on a flat positive series such as
    [[5,5,5]] the low bound is below the high bound. *)
Theorem calculateAxisDomain_flat_series :
  DamDetail.calculateAxisDomain [Some 0; Some 0; Some 0]%float = (0, 0)%float
  /\ DamDetail.calculateAxisDomain [Some (-5); Some (-5)]%float
     = (-4.5, -5.5)%float
  /\ PrimFloat.ltb (-5.5) (-4.5) = true
  /\ DamDetail.calculateAxisDomain [Some 5; Some 5; Some 5]%float
     = (5 * 0.9, 5 * 1.1)%float
  /\ PrimFloat.ltb (5 * 0.9) (5 * 1.1) = true.
Proof. repeat split; vm_compute; reflexivity. Qed.

(* ================================================================== *)
(** * The Alert Zone Classifier                                        *)
(* ================================================================== *)

(** C6.  [getAlertZone] checks the thresholds in descending priority
    with inclusive comparisons: a level at or above the red level is
    [red]; otherwise a level at or above the orange level is [orange];
    otherwise a level at or above the blue level is [blue]; otherwise
    [normal].  With thresholds 580, 575 and 570: 581 is red, 576 orange,
    571 blue, 560 normal, and the boundary 580 is red. *)
Theorem getAlertZone_descending_priority :
  (forall level damData,
     let r := parseFloat (redLevel damData) in
     let o := parseFloat (orangeLevel damData) in
     let b := parseFloat (blueLevel damData) in
     (ge level r = true ->
        DamStatusCards.getAlertZone level damData = DamStatusCards.red)
     /\ (ge level r = false -> ge level o = true ->
           DamStatusCards.getAlertZone level damData = DamStatusCards.orange)
     /\ (ge level r = false -> ge level o = false -> ge level b = true ->
           DamStatusCards.getAlertZone level damData = DamStatusCards.blue)
     /\ (ge level r = false -> ge level o = false -> ge level b = false ->
           DamStatusCards.getAlertZone level damData = DamStatusCards.normal))
  /\ (let damData := thresholds "580" "575" "570" in
      DamStatusCards.getAlertZone 581 damData = DamStatusCards.red
      /\ DamStatusCards.getAlertZone 576 damData = DamStatusCards.orange
      /\ DamStatusCards.getAlertZone 571 damData = DamStatusCards.blue
      /\ DamStatusCards.getAlertZone 560 damData = DamStatusCards.normal
      /\ DamStatusCards.getAlertZone 580 damData = DamStatusCards.red
      /\ DamStatusCards.getAlertZone 575 damData = DamStatusCards.orange
      /\ DamStatusCards.getAlertZone 570 damData = DamStatusCards.blue).
Proof.
  split.
  - intros level damData r o b. unfold DamStatusCards.getAlertZone.
    fold r o b. repeat split; intros; 
      repeat match goal with H : ge _ _ = _ |- _ => rewrite H; clear H end;
      reflexivity.
  - repeat split; vm_compute; reflexivity.
Qed.

Lemma getAlertZone_descending_priority_witness :
  DamStatusCards.getAlertZone 577.25 (thresholds "580" "575" "570")
  = DamStatusCards.orange.
Proof.
  apply (proj1 getAlertZone_descending_priority 577.25%float
           (thresholds "580" "575" "570")); reflexivity.
Defined.

(* ================================================================== *)
(** * The Trend Estimator                                              *)
(* ================================================================== *)

Lemma orElse_falsy (x d : float) : truthyNum x = false -> orElse x d = d.
Proof. intros H. unfold orElse. rewrite H. reflexivity. Qed.

Lemma enough_samples (a b c : TelemetryRecord) (rest : list TelemetryRecord) :
  (3 <=? Z.of_nat (List.length (a :: b :: c :: rest))) = true.
Proof. apply Z.leb_le. cbn [List.length]. lia. Qed.

Lemma too_few_samples (l : list TelemetryRecord) :
  observedChange (Some l) = None ->
  (3 <=? Z.of_nat (List.length l)) = false.
Proof.
  destruct l as [|a [|b [|c rest]]]; try reflexivity. discriminate.
Qed.

(** The estimate for a present record, with the override expressed by
    [observedChange]. *)
Lemma calculateWaterLevelTrend_present (currentData : TelemetryRecord)
    (damData : StationConfig) (recentData : option (list TelemetryRecord)) :
  let nf := (orElse (parseFloat (inflow currentData)) 0
             - orElse (parseFloat (totalOutflow currentData)) 0)%float in
  let level := orElse (parseFloat (waterLevel currentData)) 552 in
  let rate :=
    (nf * 3600 / (DamStatusCards.surfaceAreaAcres level * 43560))%float in
  let verdict :=
    match observedChange recentData with
    | Some change =>
        if gt (Math_abs change) 0.05
        then (if gt change 0 then DamStatusCards.rising
              else DamStatusCards.falling, DamStatusCards.high)
        else DamStatusCards.flowTrend rate
    | None => DamStatusCards.flowTrend rate
    end in
  DamStatusCards.calculateWaterLevelTrend (Some currentData) damData recentData
  = {| DamStatusCards.hourlyChange := rate;
       DamStatusCards.hourlyChangeInches := Some (rate * 12)%float;
       DamStatusCards.trend := fst verdict;
       DamStatusCards.confidence := snd verdict;
       DamStatusCards.netFlow := Some nf |}.
Proof.
  intros nf level rate verdict.
  unfold DamStatusCards.calculateWaterLevelTrend.
  fold nf. fold level. fold rate. unfold verdict.
  destruct (DamStatusCards.flowTrend rate) as [t0 c0].
  destruct recentData as [l|]; [|reflexivity].
  destruct (observedChange (Some l)) as [change|] eqn:Hobs.
  - destruct l as [|a [|b [|c rest]]]; try discriminate.
    rewrite enough_samples.
    change (DamStatusCards.levelTrend (a :: b :: c :: rest))
      with (parseFloat (waterLevel a) - parseFloat (waterLevel c))%float.
    cbn [observedChange] in Hobs. injection Hobs as Hobs. rewrite Hobs.
    destruct (gt (Math_abs change) 0.05); reflexivity.
  - rewrite (too_few_samples l Hobs). reflexivity.
Qed.




(** C5.  With the comma-grouped inflow ["1,234"] and outflow ["0"] the
    net flow of [calculateWaterLevelTrend] is 1: [parseFloat] stops at the
    comma.  [parseNumber] reads the same strings as 1234 and 0. *)
Theorem netFlow_stops_at_comma :
  let est :=
    DamStatusCards.calculateWaterLevelTrend
      (Some (observation None None (Some "566") (Some "1,234") (Some "0")))
      (thresholds "580" "575" "570") None in
  DamStatusCards.netFlow est = Some 1%float
  /\ (DamDetail.parseNumber (Some "1,234") - DamDetail.parseNumber (Some "0")
      = 1234)%float
  /\ DamStatusCards.netFlow est
     <> Some (DamDetail.parseNumber (Some "1,234")
              - DamDetail.parseNumber (Some "0"))%float.
Proof.
  repeat split; try (vm_compute; reflexivity).
  intros H.
  apply (f_equal (fun o => match o with
                           | Some x => Prim2SF x
                           | None => S754_nan
                           end)) in H.
  vm_compute in H. discriminate.
Qed.

Lemma falsy_level (level : option string) :
  level = None
  \/ isNaN (parseFloat level) = true
  \/ is_zero (parseFloat level) = true ->
  truthyNum (parseFloat level) = false.
Proof.
  unfold truthyNum, isNaN. intros [->|[H|H]].
  - reflexivity.
  - rewrite H. reflexivity.
  - rewrite H, orb_true_r. reflexivity.
Qed.

(** C10.  When the current record is present but its water level is
    missing, unparseable or parses to 0, [calculateWaterLevelTrend] takes
    552 ft as the current level, so that the surface area is exactly
    22,000 acres: the net flow is the inflow less the outflow of the
    record, the hourly change is that net flow times 3600 over 22,000
    acres of 43,560 square feet, and the whole estimate is the one of the
    same record at level ["552"].  The zero default of [parseNumber] is
    not applied to the level: for a record without a level, a net flow of
    100 does not give the rate a level of 0 would give. *)
Theorem waterLevel_defaults_to_552 (currentData : TelemetryRecord)
    (damData : StationConfig) (recentData : option (list TelemetryRecord)) :
  waterLevel currentData = None
  \/ isNaN (parseFloat (waterLevel currentData)) = true
  \/ is_zero (parseFloat (waterLevel currentData)) = true ->
  let est := DamStatusCards.calculateWaterLevelTrend
               (Some currentData) damData recentData in
  let nf := (orElse (parseFloat (inflow currentData)) 0
             - orElse (parseFloat (totalOutflow currentData)) 0)%float in
  let rate := (nf * 3600 / (22000 * 43560))%float in
  DamStatusCards.netFlow est = Some nf
  /\ DamStatusCards.hourlyChange est = rate
  /\ DamStatusCards.hourlyChangeInches est = Some (rate * 12)%float
  /\ (overruled recentData = false ->
      (DamStatusCards.trend est, DamStatusCards.confidence est)
      = DamStatusCards.flowTrend rate)
  /\ DamStatusCards.surfaceAreaAcres
       (orElse (parseFloat (waterLevel currentData)) 552) = 22000%float
  /\ est = DamStatusCards.calculateWaterLevelTrend
             (Some (withLevel currentData (Some "552"))) damData recentData
  /\ DamStatusCards.hourlyChange
       (DamStatusCards.calculateWaterLevelTrend
          (Some (observation None None None (Some "1000") (Some "900")))
          damData recentData)
     <> (100 * 3600
         / (DamStatusCards.surfaceAreaAcres (DamDetail.parseNumber None)
            * 43560))%float.
Proof.
  intros H est nf rate. apply falsy_level in H.
  pose proof (orElse_falsy _ 552%float H) as Hlevel.
  assert (Harea : DamStatusCards.surfaceAreaAcres 552 = 22000%float)
    by reflexivity.
  assert (Hest : est
                 = {| DamStatusCards.hourlyChange := rate;
                      DamStatusCards.hourlyChangeInches := Some (rate * 12)%float;
                      DamStatusCards.trend :=
                        fst (match observedChange recentData with
                             | Some change =>
                                 if gt (Math_abs change) 0.05
                                 then (if gt change 0 then DamStatusCards.rising
                                       else DamStatusCards.falling,
                                       DamStatusCards.high)
                                 else DamStatusCards.flowTrend rate
                             | None => DamStatusCards.flowTrend rate
                             end);
                      DamStatusCards.confidence :=
                        snd (match observedChange recentData with
                             | Some change =>
                                 if gt (Math_abs change) 0.05
                                 then (if gt change 0 then DamStatusCards.rising
                                       else DamStatusCards.falling,
                                       DamStatusCards.high)
                                 else DamStatusCards.flowTrend rate
                             | None => DamStatusCards.flowTrend rate
                             end);
                      DamStatusCards.netFlow := Some nf |}).
  { unfold est. rewrite calculateWaterLevelTrend_present. cbv zeta.
    rewrite Hlevel, Harea. reflexivity. }
  split; [rewrite Hest; reflexivity|].
  split; [rewrite Hest; reflexivity|].
  split; [rewrite Hest; reflexivity|].
  split.
  { intros Ho. rewrite Hest.
    cbn [DamStatusCards.trend DamStatusCards.confidence].
    unfold overruled in Ho.
    destruct (observedChange recentData) as [change|].
    - rewrite Ho. destruct (DamStatusCards.flowTrend rate); reflexivity.
    - destruct (DamStatusCards.flowTrend rate); reflexivity. }
  split; [rewrite Hlevel; exact Harea|].
  split.
  { rewrite Hest. rewrite calculateWaterLevelTrend_present. cbv zeta.
    cbn [withLevel inflow totalOutflow waterLevel].
    replace (orElse (parseFloat (Some "552")) 552) with 552%float
      by reflexivity.
    rewrite Harea. reflexivity. }
  rewrite calculateWaterLevelTrend_present. cbv zeta.
  cbn [DamStatusCards.hourlyChange].
  intros E. apply (f_equal Prim2SF) in E. vm_compute in E. discriminate.
Qed.

Lemma waterLevel_defaults_to_552_witness :
  let currentData :=
    observation None None (Some "0") (Some "1000") (Some "900") in
  let est :=
    DamStatusCards.calculateWaterLevelTrend (Some currentData)
      (thresholds "580" "575" "570") None in
  DamStatusCards.netFlow est = Some 100%float
  /\ DamStatusCards.hourlyChange est = (100 * 3600 / (22000 * 43560))%float.
Proof.
  intros currentData est.
  destruct (waterLevel_defaults_to_552 currentData
              (thresholds "580" "575" "570") None) as (Hnet & Hrate & _).
  - right. right. reflexivity.
  - split; [exact Hnet|exact Hrate].
Defined.

(* ================================================================== *)
(** * The order of the numbers                                         *)
(* ================================================================== *)

Lemma SFcompare_key (x y : spec_float) :
  x <> S754_nan -> y <> S754_nan ->
  exists c, SFcompare x y = Some c /\
    match c with
    | Lt => keyLt (sfKey x) (sfKey y)
    | Eq => sfKey x = sfKey y
    | Gt => keyLt (sfKey y) (sfKey x)
    end.
Proof.
  intros Hx Hy.
  destruct x as [sx|sx| |sx mx ex], y as [sy|sy| |sy my ey];
    try contradiction; try (destruct sx); try (destruct sy);
    cbn [SFcompare sfKey keyLt];
    try (eexists; split; [reflexivity|]; cbn; try reflexivity; lia).
  - change (Pos.compare_cont Eq mx my) with (Pos.compare mx my).
    destruct (Z.compare_spec ex ey); [destruct (Pos.compare_spec mx my)| |];
      eexists; (split; [reflexivity|]); cbn; subst; try reflexivity; lia.
  - change (Pos.compare_cont Eq mx my) with (Pos.compare mx my).
    destruct (Z.compare_spec ex ey); [destruct (Pos.compare_spec mx my)| |];
      eexists; (split; [reflexivity|]); cbn; subst; try reflexivity; lia.
Qed.

Lemma keyLt_irrefl (a : Z * Z * Z) : ~ keyLt a a.
Proof. destruct a as [[a1 a2] a3]. unfold keyLt. lia. Qed.

Lemma keyLt_trans (a b c : Z * Z * Z) : keyLt a b -> keyLt b c -> keyLt a c.
Proof.
  destruct a as [[a1 a2] a3], b as [[b1 b2] b3], c as [[c1 c2] c3].
  unfold keyLt. lia.
Qed.

Lemma keyLt_asym (a b : Z * Z * Z) : keyLt a b -> ~ keyLt b a.
Proof. intros H1 H2. exact (keyLt_irrefl a (keyLt_trans a b a H1 H2)). Qed.

Lemma keyLt_total (a b : Z * Z * Z) : keyLt a b \/ a = b \/ keyLt b a.
Proof.
  destruct a as [[a1 a2] a3], b as [[b1 b2] b3]. unfold keyLt.
  destruct (Z.lt_total a1 b1) as [?|[?|?]]; [lia| |lia].
  destruct (Z.lt_total a2 b2) as [?|[?|?]]; [lia| |lia].
  destruct (Z.lt_total a3 b3) as [?|[?|?]]; [lia| |lia].
  right. left. congruence.
Qed.

(** NaN is the only value that differs from itself. *)
Lemma is_nan_spec (x : float) :
  is_nan x = false <-> Prim2SF x <> S754_nan.
Proof.
  unfold is_nan. rewrite FloatAxioms.eqb_spec. unfold SFeqb. split.
  - intros H E. rewrite E in H. discriminate.
  - intros H. destruct (SFcompare_key _ _ H H) as (c & -> & Hc).
    destruct c; [reflexivity| |]; exfalso; eapply keyLt_irrefl; exact Hc.
Qed.

Lemma ltb_key (x y : float) :
  PrimFloat.ltb x y = true <->
  is_nan x = false /\ is_nan y = false /\ keyLt (numKey x) (numKey y).
Proof.
  rewrite FloatAxioms.ltb_spec, !is_nan_spec. unfold SFltb, numKey. split.
  - intros H.
    assert (Hx : Prim2SF x <> S754_nan)
      by (intros E; rewrite E in H; discriminate).
    assert (Hy : Prim2SF y <> S754_nan)
      by (intros E; rewrite E in H; destruct (Prim2SF x); discriminate).
    destruct (SFcompare_key _ _ Hx Hy) as (c & Hc & Hk). rewrite Hc in H.
    destruct c; try discriminate. auto.
  - intros (Hx & Hy & Hk).
    destruct (SFcompare_key _ _ Hx Hy) as (c & -> & Hc).
    destruct c; [|reflexivity|].
    + rewrite Hc in Hk. exfalso. eapply keyLt_irrefl; exact Hk.
    + exfalso. eapply keyLt_asym; eassumption.
Qed.

Lemma leb_key (x y : float) :
  PrimFloat.leb x y = true <->
  is_nan x = false /\ is_nan y = false
  /\ (keyLt (numKey x) (numKey y) \/ numKey x = numKey y).
Proof.
  rewrite FloatAxioms.leb_spec, !is_nan_spec. unfold SFleb, numKey. split.
  - intros H.
    assert (Hx : Prim2SF x <> S754_nan)
      by (intros E; rewrite E in H; discriminate).
    assert (Hy : Prim2SF y <> S754_nan)
      by (intros E; rewrite E in H; destruct (Prim2SF x); discriminate).
    destruct (SFcompare_key _ _ Hx Hy) as (c & Hc & Hk). rewrite Hc in H.
    destruct c; try discriminate; auto.
  - intros (Hx & Hy & Hk).
    destruct (SFcompare_key _ _ Hx Hy) as (c & -> & Hc).
    destruct c; try reflexivity. exfalso. destruct Hk as [Hk|Hk].
    + eapply keyLt_asym; eassumption.
    + rewrite Hk in Hc. eapply keyLt_irrefl; exact Hc.
Qed.

Lemma num_le_refl (x : float) : is_nan x = false -> PrimFloat.leb x x = true.
Proof. intros H. apply leb_key. auto. Qed.

Lemma num_lt_le (x y : float) :
  PrimFloat.ltb x y = true -> PrimFloat.leb x y = true.
Proof. rewrite ltb_key, leb_key. intros (? & ? & ?). auto. Qed.

Lemma num_le_trans (x y z : float) :
  PrimFloat.leb x y = true -> PrimFloat.leb y z = true ->
  PrimFloat.leb x z = true.
Proof.
  rewrite !leb_key. intros (Hx & _ & H1) (_ & Hz & H2).
  repeat split; try assumption.
  destruct H1 as [H1|H1], H2 as [H2|H2].
  - left. eapply keyLt_trans; eassumption.
  - left. rewrite <- H2. exact H1.
  - left. rewrite H1. exact H2.
  - right. congruence.
Qed.

Lemma num_lt_le_trans (x y z : float) :
  PrimFloat.ltb x y = true -> PrimFloat.leb y z = true ->
  PrimFloat.ltb x z = true.
Proof.
  rewrite !ltb_key, leb_key. intros (Hx & _ & H1) (_ & Hz & H2).
  repeat split; try assumption. destruct H2 as [H2|H2].
  - eapply keyLt_trans; eassumption.
  - rewrite <- H2. exact H1.
Qed.

Lemma num_le_lt_trans (x y z : float) :
  PrimFloat.leb x y = true -> PrimFloat.ltb y z = true ->
  PrimFloat.ltb x z = true.
Proof.
  rewrite !ltb_key, leb_key. intros (Hx & _ & H1) (_ & Hz & H2).
  repeat split; try assumption. destruct H1 as [H1|H1].
  - eapply keyLt_trans; eassumption.
  - rewrite H1. exact H2.
Qed.

(** Two numbers other than NaN are always comparable. *)
Lemma num_not_lt_le (x y : float) :
  is_nan x = false -> is_nan y = false ->
  PrimFloat.ltb x y = false -> PrimFloat.leb y x = true.
Proof.
  intros Hx Hy H. apply leb_key. repeat split; try assumption.
  destruct (keyLt_total (numKey x) (numKey y)) as [Hk|[Hk|Hk]]; auto.
  assert (Hlt : PrimFloat.ltb x y = true) by (apply ltb_key; auto).
  rewrite Hlt in H. discriminate.
Qed.

Lemma num_le_not_lt (x y : float) :
  PrimFloat.leb x y = true -> PrimFloat.ltb y x = false.
Proof.
  intros H. destruct (PrimFloat.ltb y x) eqn:E; [|reflexivity].
  apply leb_key in H as (_ & _ & H). apply ltb_key in E as (_ & _ & E).
  exfalso. destruct H as [H|H].
  - eapply keyLt_asym; eassumption.
  - rewrite H in E. eapply keyLt_irrefl; exact E.
Qed.

Lemma num_le_not_nan (x y : float) :
  PrimFloat.leb x y = true -> is_nan x = false /\ is_nan y = false.
Proof. rewrite leb_key. intros (? & ? & _). auto. Qed.

(** Every comparison with NaN is false. *)
Lemma num_nan_le_l (x y : float) :
  is_nan x = true -> PrimFloat.leb x y = false.
Proof.
  intros H. destruct (PrimFloat.leb x y) eqn:E; [|reflexivity].
  apply num_le_not_nan in E as [E _]. congruence.
Qed.

Lemma num_nan_le_r (x y : float) :
  is_nan y = true -> PrimFloat.leb x y = false.
Proof.
  intros H. destruct (PrimFloat.leb x y) eqn:E; [|reflexivity].
  apply num_le_not_nan in E as [_ E]. congruence.
Qed.

Lemma eqb_key (x y : float) :
  PrimFloat.eqb x y = true <->
  is_nan x = false /\ is_nan y = false /\ numKey x = numKey y.
Proof.
  rewrite FloatAxioms.eqb_spec, !is_nan_spec. unfold SFeqb, numKey. split.
  - intros H.
    assert (Hx : Prim2SF x <> S754_nan)
      by (intros E; rewrite E in H; discriminate).
    assert (Hy : Prim2SF y <> S754_nan)
      by (intros E; rewrite E in H; destruct (Prim2SF x); discriminate).
    destruct (SFcompare_key _ _ Hx Hy) as (c & Hc & Hk). rewrite Hc in H.
    destruct c; try discriminate. auto.
  - intros (Hx & Hy & Hk).
    destruct (SFcompare_key _ _ Hx Hy) as (c & -> & Hc).
    destruct c; [reflexivity| |]; exfalso; rewrite Hk in Hc;
      eapply keyLt_irrefl; exact Hc.
Qed.

Lemma num_eq_le (x y : float) :
  PrimFloat.eqb x y = true -> PrimFloat.leb x y = true.
Proof. rewrite eqb_key, leb_key. intros (? & ? & ?). auto. Qed.

Lemma num_eq_sym (x y : float) :
  PrimFloat.eqb x y = true -> PrimFloat.eqb y x = true.
Proof. rewrite !eqb_key. intros (? & ? & ?). auto. Qed.

(** Both zeros are equal to each other. *)
Lemma num_zero_le (x y : float) :
  is_zero x = true -> is_zero y = true -> PrimFloat.leb x y = true.
Proof.
  unfold is_zero. rewrite !eqb_key, leb_key.
  intros (? & _ & H1) (? & _ & H2). repeat split; auto.
  right. congruence.
Qed.

(* ================================================================== *)
(** * The alert zone and the lake temperature                          *)
(* ================================================================== *)

(** X1.  Raising the water level never lowers the alert zone, whatever
    the thresholds of the station are. *)
Theorem getAlertZone_monotone (level1 level2 : float) (damData : StationConfig) :
  PrimFloat.leb level1 level2 = true ->
  (severity (DamStatusCards.getAlertZone level1 damData)
   <= severity (DamStatusCards.getAlertZone level2 damData))%nat.
Proof.
  intros H. unfold DamStatusCards.getAlertZone, ge.
  repeat match goal with
         | |- context [PrimFloat.leb ?c ?l] =>
             destruct (PrimFloat.leb c l) eqn:?
         end;
    cbn [severity]; try lia; exfalso;
    match goal with
    | A : PrimFloat.leb ?c level1 = true,
      B : PrimFloat.leb ?c level2 = false |- _ =>
        rewrite (num_le_trans _ _ _ A H) in B; discriminate
    end.
Qed.

Lemma getAlertZone_monotone_witness :
  (severity (DamStatusCards.getAlertZone 571 (thresholds "580" "575" "570"))
   <= severity (DamStatusCards.getAlertZone 576.5
                  (thresholds "580" "575" "570")))%nat.
Proof.
  apply (getAlertZone_monotone 571 576.5 (thresholds "580" "575" "570")).
  reflexivity.
Defined.

(** X2.  An unreadable water level (NaN) is classified [normal]
    whatever the thresholds are, and a threshold that is missing or
    unreadable is never reached: its zone is never reported. *)
Theorem getAlertZone_unreadable (level : float) (damData : StationConfig) :
  (is_nan level = true ->
     DamStatusCards.getAlertZone level damData = DamStatusCards.normal)
  /\ (is_nan (parseFloat (redLevel damData)) = true ->
        DamStatusCards.getAlertZone level damData <> DamStatusCards.red)
  /\ (is_nan (parseFloat (orangeLevel damData)) = true ->
        DamStatusCards.getAlertZone level damData <> DamStatusCards.orange)
  /\ (is_nan (parseFloat (blueLevel damData)) = true ->
        DamStatusCards.getAlertZone level damData <> DamStatusCards.blue)
  /\ (redLevel damData = None ->
        DamStatusCards.getAlertZone level damData <> DamStatusCards.red).
Proof.
  unfold DamStatusCards.getAlertZone, ge. repeat split.
  - intros H. rewrite !(num_nan_le_r _ level H). reflexivity.
  - intros H. rewrite (num_nan_le_l _ level H).
    repeat destruct (PrimFloat.leb _ _); discriminate.
  - intros H. rewrite (num_nan_le_l _ level H).
    repeat destruct (PrimFloat.leb _ _); discriminate.
  - intros H. rewrite (num_nan_le_l _ level H).
    repeat destruct (PrimFloat.leb _ _); discriminate.
  - intros H. rewrite H. rewrite (num_nan_le_l (parseFloat None) level eq_refl).
    repeat destruct (PrimFloat.leb _ _); discriminate.
Qed.

Lemma getAlertZone_unreadable_witness :
  DamStatusCards.getAlertZone (parseFloat None) (thresholds "580" "575" "570")
  = DamStatusCards.normal
  /\ DamStatusCards.getAlertZone 600
       {| FRL := None; redLevel := None; orangeLevel := Some "575";
          blueLevel := Some "570"; liveStorageAtFRL := None |}
     <> DamStatusCards.red.
Proof.
  split.
  - apply (proj1 (getAlertZone_unreadable (parseFloat None)
                    (thresholds "580" "575" "570"))). reflexivity.
  - apply (proj2 (proj2 (proj2 (proj2 (getAlertZone_unreadable 600
             {| FRL := None; redLevel := None; orangeLevel := Some "575";
                blueLevel := Some "570"; liveStorageAtFRL := None |}))))).
    reflexivity.
Defined.

(** X3.  A warmer temperature never gets a colder status, and a
    temperature that is not a number gets the status "Very Cold". *)
Theorem getTemperatureStatus_monotone (temp1 temp2 : float) :
  (PrimFloat.leb temp1 temp2 = true ->
     (warmth (DamStatusCards.getTemperatureStatus temp1)
      <= warmth (DamStatusCards.getTemperatureStatus temp2))%nat)
  /\ (is_nan temp1 = true ->
        DamStatusCards.status (DamStatusCards.getTemperatureStatus temp1)
        = "Very Cold").
Proof.
  unfold DamStatusCards.getTemperatureStatus, ge. split.
  - intros H.
    destruct (PrimFloat.leb 80 temp1) eqn:A1.
    { rewrite (num_le_trans _ _ _ A1 H). apply le_n. }
    destruct (PrimFloat.leb 80 temp2);
      [repeat destruct (PrimFloat.leb _ temp1); vm_compute; lia|].
    destruct (PrimFloat.leb 75 temp1) eqn:A2.
    { rewrite (num_le_trans _ _ _ A2 H). apply le_n. }
    destruct (PrimFloat.leb 75 temp2);
      [repeat destruct (PrimFloat.leb _ temp1); vm_compute; lia|].
    destruct (PrimFloat.leb 68 temp1) eqn:A3.
    { rewrite (num_le_trans _ _ _ A3 H). apply le_n. }
    destruct (PrimFloat.leb 68 temp2);
      [repeat destruct (PrimFloat.leb _ temp1); vm_compute; lia|].
    destruct (PrimFloat.leb 60 temp1) eqn:A4.
    { rewrite (num_le_trans _ _ _ A4 H). apply le_n. }
    destruct (PrimFloat.leb 60 temp2);
      [repeat destruct (PrimFloat.leb _ temp1); vm_compute; lia|].
    destruct (PrimFloat.leb 50 temp1) eqn:A5.
    { rewrite (num_le_trans _ _ _ A5 H). apply le_n. }
    destruct (PrimFloat.leb 50 temp2); vm_compute; lia.
  - intros H. rewrite !(num_nan_le_r _ temp1 H). reflexivity.
Qed.

Lemma getTemperatureStatus_monotone_witness :
  (warmth (DamStatusCards.getTemperatureStatus 61)
   <= warmth (DamStatusCards.getTemperatureStatus 79.5))%nat
  /\ DamStatusCards.status (DamStatusCards.getTemperatureStatus nan)
     = "Very Cold".
Proof.
  split.
  - apply (proj1 (getTemperatureStatus_monotone 61 79.5)). reflexivity.
  - apply (proj2 (getTemperatureStatus_monotone nan 0)). reflexivity.
Defined.

(** X4.  The temperature gauge is a number between 0 and 100, both
    included, unless the temperature is such that the scaled value is
    not a number, in which case the gauge is NaN. *)
Theorem temperatureGauge_bounds (temp : float) :
  let g := DamStatusCards.temperatureGauge temp in
  (is_nan ((temp - 32) / (90 - 32) * 100)%float = false ->
     PrimFloat.leb 0 g = true /\ PrimFloat.leb g 100 = true)
  /\ (is_nan ((temp - 32) / (90 - 32) * 100)%float = true ->
        is_nan g = true).
Proof.
  intros g. unfold g, DamStatusCards.temperatureGauge, Math_min, Math_max.
  set (y := ((temp - 32) / (90 - 32) * 100)%float).
  cbn [fold_left].
  change (max2 neg_infinity 0) with 0%float.
  change (min2 infinity 100) with 100%float.
  split; intros Hy.
  - assert (HM : PrimFloat.leb 0 (max2 0 y) = true).
    { unfold max2. rewrite Hy. cbn [is_nan orb].
      change (is_nan 0) with false. cbn [orb].
      destruct (is_zero y && is_zero 0 && negb (get_sign y)) eqn:Z.
      - apply andb_prop in Z as [Z _]. apply andb_prop in Z as [Z _].
        apply num_zero_le; [reflexivity|exact Z].
      - destruct (PrimFloat.ltb 0 y) eqn:L; [apply num_lt_le, L|reflexivity]. }
    set (M := max2 0 y) in *.
    destruct (num_le_not_nan _ _ HM) as [_ HMn].
    unfold min2. change (is_nan 100) with false. rewrite HMn. cbn [orb].
    change (is_zero 100) with false. rewrite andb_false_r. cbn [andb].
    destruct (PrimFloat.ltb M 100) eqn:L.
    + split; [exact HM|apply num_lt_le, L].
    + split; reflexivity.
  - unfold max2. rewrite Hy. change (is_nan 0) with false. cbn [orb].
    reflexivity.
Qed.

Lemma temperatureGauge_bounds_witness :
  PrimFloat.leb 0 (DamStatusCards.temperatureGauge 120) = true
  /\ PrimFloat.leb (DamStatusCards.temperatureGauge 120) 100 = true.
Proof.
  apply (proj1 (temperatureGauge_bounds 120)). reflexivity.
Defined.
(* ================================================================== *)
(** * Math.min and Math.max                                            *)
(* ================================================================== *)

Lemma min2_cases (lowest x : float) :
  is_nan lowest = false -> is_nan x = false ->
  (min2 lowest x = x \/ min2 lowest x = lowest)
  /\ PrimFloat.leb (min2 lowest x) lowest = true
  /\ PrimFloat.leb (min2 lowest x) x = true.
Proof.
  intros Hl Hx. unfold min2. rewrite Hl, Hx. cbn [orb].
  destruct (is_zero x && is_zero lowest && get_sign x) eqn:Z.
  - apply andb_prop in Z as [Z _]. apply andb_prop in Z as [Zx Zl].
    repeat split; auto using num_zero_le, num_le_refl.
  - destruct (PrimFloat.ltb x lowest) eqn:L.
    + repeat split; auto using num_lt_le, num_le_refl.
    + repeat split; auto using num_not_lt_le, num_le_refl.
Qed.

Lemma max2_cases (highest x : float) :
  is_nan highest = false -> is_nan x = false ->
  (max2 highest x = x \/ max2 highest x = highest)
  /\ PrimFloat.leb highest (max2 highest x) = true
  /\ PrimFloat.leb x (max2 highest x) = true.
Proof.
  intros Hh Hx. unfold max2. rewrite Hh, Hx. cbn [orb].
  destruct (is_zero x && is_zero highest && negb (get_sign x)) eqn:Z.
  - apply andb_prop in Z as [Z _]. apply andb_prop in Z as [Zx Zh].
    repeat split; auto using num_zero_le, num_le_refl.
  - destruct (PrimFloat.ltb highest x) eqn:L.
    + repeat split; auto using num_lt_le, num_le_refl.
    + repeat split; auto using num_not_lt_le, num_le_refl.
Qed.

Lemma fold_min2_spec (l : list float) (acc : float) :
  is_nan acc = false -> (forall x, In x l -> is_nan x = false) ->
  let m := fold_left min2 l acc in
  is_nan m = false
  /\ (m = acc \/ In m l)
  /\ PrimFloat.leb m acc = true
  /\ (forall x, In x l -> PrimFloat.leb m x = true).
Proof.
  revert acc. induction l as [|v l IH]; intros acc Hacc Hl; cbn [fold_left].
  - repeat split; auto using num_le_refl; try (intros x []).

  - assert (Hv : is_nan v = false) by (apply Hl; left; reflexivity).
    destruct (min2_cases acc v Hacc Hv) as (Hc & Hle1 & Hle2).
    assert (Hn : is_nan (min2 acc v) = false)
      by (destruct Hc as [->| ->]; assumption).
    destruct (IH (min2 acc v) Hn (fun x Hx => Hl x (or_intror Hx)))
      as (Hm & Hin & Hle & Hall).
    repeat split.
    + exact Hm.
    + destruct Hin as [Hin|Hin]; [|right; right; exact Hin].
      rewrite Hin. destruct Hc as [->| ->]; [right; left; reflexivity|left; reflexivity].
    + eapply num_le_trans; eassumption.
    + intros x [<-|Hx]; [eapply num_le_trans; eassumption|auto].
Qed.

Lemma fold_max2_spec (l : list float) (acc : float) :
  is_nan acc = false -> (forall x, In x l -> is_nan x = false) ->
  let m := fold_left max2 l acc in
  is_nan m = false
  /\ (m = acc \/ In m l)
  /\ PrimFloat.leb acc m = true
  /\ (forall x, In x l -> PrimFloat.leb x m = true).
Proof.
  revert acc. induction l as [|v l IH]; intros acc Hacc Hl; cbn [fold_left].
  - repeat split; auto using num_le_refl; try (intros x []).

  - assert (Hv : is_nan v = false) by (apply Hl; left; reflexivity).
    destruct (max2_cases acc v Hacc Hv) as (Hc & Hle1 & Hle2).
    assert (Hn : is_nan (max2 acc v) = false)
      by (destruct Hc as [->| ->]; assumption).
    destruct (IH (max2 acc v) Hn (fun x Hx => Hl x (or_intror Hx)))
      as (Hm & Hin & Hle & Hall).
    repeat split.
    + exact Hm.
    + destruct Hin as [Hin|Hin]; [|right; right; exact Hin].
      rewrite Hin. destruct Hc as [->| ->]; [right; left; reflexivity|left; reflexivity].
    + eapply num_le_trans; eassumption.
    + intros x [<-|Hx]; [eapply num_le_trans; eassumption|auto].
Qed.

(** The only number that is not below positive infinity is positive
    infinity itself, and likewise for negative infinity. *)
Lemma num_top (x : float) :
  is_nan x = false -> PrimFloat.ltb x infinity = false -> x = infinity.
Proof.
  intros Hx H. apply (num_not_lt_le x infinity Hx eq_refl) in H.
  apply leb_key in H as (_ & _ & H). apply FloatAxioms.Prim2SF_inj.
  change (Prim2SF infinity) with (S754_infinity false).
  unfold numKey in H. change (Prim2SF infinity) with (S754_infinity false) in H.
  apply is_nan_spec in Hx.
  destruct (Prim2SF x) as [s|s| |s m e]; try contradiction;
    try destruct s; cbn in H; try reflexivity;
    destruct H as [H|H]; try discriminate; lia.
Qed.

Lemma num_bottom (x : float) :
  is_nan x = false -> PrimFloat.ltb neg_infinity x = false -> x = neg_infinity.
Proof.
  intros Hx H. apply (num_not_lt_le neg_infinity x eq_refl Hx) in H.
  apply leb_key in H as (_ & _ & H). apply FloatAxioms.Prim2SF_inj.
  change (Prim2SF neg_infinity) with (S754_infinity true).
  unfold numKey in H.
  change (Prim2SF neg_infinity) with (S754_infinity true) in H.
  apply is_nan_spec in Hx.
  destruct (Prim2SF x) as [s|s| |s m e]; try contradiction;
    try destruct s; cbn in H; try reflexivity;
    destruct H as [H|H]; try discriminate; lia.
Qed.

(** [Math.min] of numbers other than NaN, at least one: one of them,
    and none is below it. *)
Lemma Math_min_spec (v : float) (l : list float) :
  (forall x, In x (v :: l) -> is_nan x = false) ->
  In (Math_min (v :: l)) (v :: l)
  /\ (forall x, In x (v :: l) -> PrimFloat.leb (Math_min (v :: l)) x = true).
Proof.
  intros Hl. unfold Math_min. cbn [fold_left].
  assert (Hv : is_nan v = false) by (apply Hl; left; reflexivity).
  assert (H0 : min2 infinity v = v).
  { unfold min2. rewrite Hv. cbn [orb]. change (is_nan infinity) with false.
    cbn [orb]. change (is_zero infinity) with false.
    rewrite andb_false_r. cbn [andb].
    destruct (PrimFloat.ltb v infinity) eqn:L; [reflexivity|].
    symmetry. apply num_top; assumption. }
  rewrite H0.
  destruct (fold_min2_spec l v Hv (fun x Hx => Hl x (or_intror Hx)))
    as (_ & Hin & Hle & Hall).
  split.
  - destruct Hin as [->|Hin]; [left; reflexivity|right; exact Hin].
  - intros x [<-|Hx]; auto.
Qed.

Lemma Math_max_spec (v : float) (l : list float) :
  (forall x, In x (v :: l) -> is_nan x = false) ->
  In (Math_max (v :: l)) (v :: l)
  /\ (forall x, In x (v :: l) -> PrimFloat.leb x (Math_max (v :: l)) = true).
Proof.
  intros Hl. unfold Math_max. cbn [fold_left].
  assert (Hv : is_nan v = false) by (apply Hl; left; reflexivity).
  assert (H0 : max2 neg_infinity v = v).
  { unfold max2. rewrite Hv. cbn [orb]. change (is_nan neg_infinity) with false.
    cbn [orb]. change (is_zero neg_infinity) with false.
    rewrite andb_false_r. cbn [andb].
    destruct (PrimFloat.ltb neg_infinity v) eqn:L; [reflexivity|].
    symmetry. apply num_bottom; assumption. }
  rewrite H0.
  destruct (fold_max2_spec l v Hv (fun x Hx => Hl x (or_intror Hx)))
    as (_ & Hin & Hle & Hall).
  split.
  - destruct Hin as [->|Hin]; [left; reflexivity|right; exact Hin].
  - intros x [<-|Hx]; auto.
Qed.

(* ================================================================== *)
(** * The water level statistics                                       *)
(* ================================================================== *)

Lemma levels_In (filteredData : list TelemetryRecord) (x : float) :
  In x (filter (fun level => negb (isNaN level))
          (map (fun d => parseFloat (waterLevel d))
             (filter (fun d => truthyStr (waterLevel d)) filteredData)))
  <-> exists r, In r filteredData /\ readableLevel r = true
                /\ parseFloat (waterLevel r) = x.
Proof.
  rewrite filter_In, in_map_iff. unfold readableLevel, isNaN. split.
  - intros [(r & <- & Hr) Hx]. apply filter_In in Hr as [Hr Ht].
    exists r. rewrite Ht, Hx. auto.
  - intros (r & Hr & Hread & <-). apply andb_prop in Hread as [Ht Hn].
    split; [|exact Hn]. exists r. split; [reflexivity|].
    apply filter_In. auto.
Qed.

Lemma length_zero_nil {A : Type} (l : list A) :
  (Z.of_nat (List.length l) =? 0) = true <-> l = [].
Proof.
  destruct l; cbn [List.length]; split; intros H; try reflexivity;
    try discriminate.
Qed.

(** X5.  [waterLevelStats] is [null] exactly when no record of the range
    has a readable water level.  Otherwise its minimum and its maximum
    are the levels of two records of the range, and the level of every
    record with a readable level lies between them. *)
Theorem waterLevelStats_bounds (filteredData : list TelemetryRecord) :
  (DamDetail.waterLevelStats filteredData = None <->
     forall r, In r filteredData -> readableLevel r = false)
  /\ (forall st, DamDetail.waterLevelStats filteredData = Some st ->
        (exists r, In r filteredData /\ readableLevel r = true
                   /\ parseFloat (waterLevel r) = DamDetail.min st)
        /\ (exists r, In r filteredData /\ readableLevel r = true
                      /\ parseFloat (waterLevel r) = DamDetail.max st)
        /\ (forall r, In r filteredData -> readableLevel r = true ->
              PrimFloat.leb (DamDetail.min st) (parseFloat (waterLevel r)) = true
              /\ PrimFloat.leb (parseFloat (waterLevel r)) (DamDetail.max st)
                 = true)).
Proof.
  unfold DamDetail.waterLevelStats.
  set (levels := filter (fun level => negb (isNaN level))
                   (map (fun d => parseFloat (waterLevel d))
                      (filter (fun d => truthyStr (waterLevel d)) filteredData))).
  assert (Hin : forall x, In x levels <->
            exists r, In r filteredData /\ readableLevel r = true
                      /\ parseFloat (waterLevel r) = x)
    by (intros x; apply levels_In).
  assert (Hnn : forall x, In x levels -> is_nan x = false).
  { intros x Hx. apply filter_In in Hx as [_ Hx].
    apply negb_true_iff in Hx. exact Hx. }
  destruct (Z.of_nat (List.length filteredData) =? 0) eqn:Hfd.
  { apply length_zero_nil in Hfd. subst filteredData. split.
    - split; [intros _ r []|reflexivity].
    - intros st H. discriminate. }
  destruct levels as [|v l] eqn:Hlev.
  - cbn [List.length Z.of_nat Z.eqb]. split.
    + split; [|reflexivity]. intros _ r Hr.
      destruct (readableLevel r) eqn:E; [|reflexivity].
      exfalso. apply (proj2 (Hin (parseFloat (waterLevel r)))). eauto.
    + intros st H. discriminate.
  - replace (Z.of_nat (List.length (v :: l)) =? 0) with false
      by (symmetry; apply Z.eqb_neq; cbn [List.length]; lia).
    destruct (Math_min_spec v l Hnn) as [Hmin Hminle].
    destruct (Math_max_spec v l Hnn) as [Hmax Hmaxle].
    split.
    + split; [discriminate|]. intros H. exfalso.
      destruct (proj1 (Hin v) (or_introl eq_refl)) as (r & Hr & Hread & _).
      rewrite (H r Hr) in Hread. discriminate.
    + intros st H. injection H as <-.
      cbn [DamDetail.min DamDetail.max].
      split; [apply Hin, Hmin|]. split; [apply Hin, Hmax|].
      intros r Hr Hread.
      assert (Hx : In (parseFloat (waterLevel r)) (v :: l))
        by (apply Hin; eauto).
      split; [apply Hminle|apply Hmaxle]; exact Hx.
Qed.

Lemma waterLevelStats_bounds_witness :
  PrimFloat.leb 552 (parseFloat (Some "552.9")) = true
  /\ PrimFloat.leb (parseFloat (Some "552.9")) 553.1 = true.
Proof.
  apply (proj2 (proj2 (proj2 (waterLevelStats_bounds sampleRecords)
                         {| DamDetail.min := 552; DamDetail.max := 553.1;
                            DamDetail.avg := 552.68333333333328 |}
                         eq_refl))
           (observation (Some "15.03.2024") (Some "14:30") (Some "552.9")
                        None None)).
  - right. left. reflexivity.
  - reflexivity.
Defined.

(* ================================================================== *)
(** * The reference date and the records shown                         *)
(* ================================================================== *)

Lemma mostRecentDate_fold (host : Host) (clock : Z)
    (data : list TelemetryRecord) (a : Z) :
  exists m,
    fold_left
      (fun latest item =>
         if negb (truthyStr (date item)) then latest
         else
           let itemDate :=
             DamDetail.parseDateTime host clock (date item) (time item) in
           if timeGt itemDate latest then itemDate else latest)
      data (Some a) = Some m
    /\ a <= m
    /\ (forall r t, In r data -> truthyStr (date r) = true ->
          timestamp host clock r = Some t -> t <= m)
    /\ (m = a \/ exists r, In r data /\ truthyStr (date r) = true
                           /\ timestamp host clock r = Some m).
Proof.
  revert a. induction data as [|item data IH]; intros a; cbn [fold_left].
  - exists a. repeat split; [lia| |left; reflexivity]. intros r t [].
  - destruct (truthyStr (date item)) eqn:Hd; cbn [negb].
    + fold (timestamp host clock item).
      destruct (timestamp host clock item) as [ti|] eqn:Hi; cbn [timeGt].
      * destruct (a <? ti) eqn:Hlt.
        -- apply Z.ltb_lt in Hlt.
           destruct (IH ti) as (m & Hm & Hle & Hall & Hex).
           exists m. repeat split; [exact Hm|lia| |].
           ++ intros r t [<-|Hr] Ht Hts; [|eauto].
              rewrite Hi in Hts. injection Hts as <-. exact Hle.
           ++ right. destruct Hex as [->|(r & Hr & Ht & Hts)].
              ** exists item. split; [left; reflexivity|]. auto.
              ** exists r. split; [right; exact Hr|]. auto.
        -- apply Z.ltb_ge in Hlt.
           destruct (IH a) as (m & Hm & Hle & Hall & Hex).
           exists m. repeat split; [exact Hm|exact Hle| |].
           ++ intros r t [<-|Hr] Ht Hts; [|eauto].
              rewrite Hi in Hts. injection Hts as <-. lia.
           ++ destruct Hex as [->|(r & Hr & Ht & Hts)]; [left; reflexivity|].
              right. exists r. split; [right; exact Hr|]. auto.
      * destruct (IH a) as (m & Hm & Hle & Hall & Hex).
        exists m. repeat split; [exact Hm|exact Hle| |].
        -- intros r t [<-|Hr] Ht Hts; [|eauto].
           rewrite Hi in Hts. discriminate.
        -- destruct Hex as [->|(r & Hr & Ht & Hts)]; [left; reflexivity|].
           right. exists r. split; [right; exact Hr|]. auto.
    + destruct (IH a) as (m & Hm & Hle & Hall & Hex).
      exists m. repeat split; [exact Hm|exact Hle| |].
      * intros r t [<-|Hr] Ht Hts; [|eauto].
        rewrite Hd in Ht. discriminate.
      * destruct Hex as [->|(r & Hr & Ht & Hts)]; [left; reflexivity|].
        right. exists r. split; [right; exact Hr|]. auto.
Qed.

(** X6.  The reference date computed from the feed is always a valid
    date, never before the epoch: it is the latest of the epoch and of the
    valid timestamps of the dated records.  Records without a date and
    records whose date is invalid are passed over. *)
Theorem mostRecentDate_is_latest (host : Host) (clock : Z)
    (data : list TelemetryRecord) :
  exists m,
    DamDetail.mostRecentDate host clock data = Some m
    /\ 0 <= m
    /\ (forall r t, In r data -> truthyStr (date r) = true ->
          timestamp host clock r = Some t -> t <= m)
    /\ (m = 0 \/ exists r, In r data /\ truthyStr (date r) = true
                           /\ timestamp host clock r = Some m).
Proof. apply mostRecentDate_fold. Qed.

Example mostRecentDate_sample :
  DamDetail.mostRecentDate utcHost 0 sampleRecords = Some 1710547200000.
Proof. vm_compute. reflexivity. Qed.

Lemma filter_none {A : Type} (p : A -> bool) (l : list A) :
  (forall x, In x l -> p x = false) -> filter p l = [].
Proof.
  induction l as [|x l IH]; intros H; [reflexivity|].
  cbn [filter]. rewrite (H x (or_introl eq_refl)).
  apply IH. intros y Hy. apply H. right. exact Hy.
Qed.

(** X7.  [visualizationData] keeps exactly the dated records whose
    timestamp lies between the date two years before the reference date
    and the reference date, both included, in ascending order of
    timestamp, the records of one instant in their input order.  With
    an invalid reference date it is empty. *)
Theorem visualizationData_in_range_sorted_stable
    (subYears : Date -> Z -> Date) (host : Host) (clock : Z)
    (records : list TelemetryRecord) (referenceDate : Date) :
  let result :=
    DamDetail.visualizationData subYears host clock (Some records)
      referenceDate in
  (forall a b, subYears referenceDate 2 = Some a -> referenceDate = Some b ->
     (forall r, In r result ->
        exists t, timestamp host clock r = Some t /\ a <= t <= b)
     /\ (forall t, a <= t <= b ->
           filter (fun r => atInstant t (timestamp host clock r)) result
           = filter (datedAt host clock t) records))
  /\ (forall r, date r = None -> ~ In r result)
  /\ StronglySorted
       (fun a b => notAfter (timestamp host clock a) (timestamp host clock b))
       result
  /\ (referenceDate = None -> result = []).
Proof.
  intros result. unfold DamDetail.visualizationData in result.
  set (keep := fun item : TelemetryRecord =>
                 if negb (truthyStr (date item)) then false
                 else timeLe (subYears referenceDate 2)
                        (DamDetail.parseDateTime host clock (date item) (time item))
                      && timeLe
                           (DamDetail.parseDateTime host clock (date item) (time item))
                           referenceDate) in result.
  assert (Hkeep : forall r, keep r = true ->
            truthyStr (date r) = true
            /\ exists t a b, timestamp host clock r = Some t
                 /\ subYears referenceDate 2 = Some a
                 /\ referenceDate = Some b /\ a <= t <= b).
  { intros r Hr. unfold keep in Hr.
    destruct (truthyStr (date r)); [|discriminate]. split; [reflexivity|].
    cbn [negb] in Hr. fold (timestamp host clock r) in Hr.
    apply andb_prop in Hr as [H1 H2]. unfold timeLe in H1, H2.
    destruct (subYears referenceDate 2) as [a|]; [|discriminate].
    destruct (timestamp host clock r) as [t|]; [|discriminate].
    destruct referenceDate as [b|]; [|discriminate].
    apply Z.leb_le in H1, H2. exists t, a, b. auto. }
  assert (Hin : forall r, In r result -> keep r = true).
  { intros r Hr. unfold result in Hr. apply Array_sort_In in Hr.
    apply filter_In in Hr as [_ Hr]. exact Hr. }
  split; [intros a b Ha Hb; split|split; [|split]].
  - intros r Hr.
    destruct (Hkeep r (Hin r Hr)) as (_ & t & a' & b' & Ht & Ha' & Hb' & Hle).
    rewrite Ha in Ha'. rewrite Hb in Hb'.
    injection Ha' as <-. injection Hb' as <-. exists t. auto.
  - intros t Ht. unfold result.
    rewrite (Array_sort_atInstant (timestamp host clock) t).
    rewrite filter_twice. apply filter_ext. intros r.
    unfold keep, datedAt. fold (timestamp host clock r).
    destruct (truthyStr (date r)); cbn [negb andb]; [|reflexivity].
    rewrite Ha, Hb.
    destruct (timestamp host clock r) as [tr|]; cbn [atInstant timeLe];
      [|reflexivity].
    destruct (tr =? t) eqn:Et; [|apply andb_false_r].
    apply Z.eqb_eq in Et. subst tr. rewrite andb_true_r.
    apply andb_true_intro. split; apply Z.leb_le; lia.
  - intros r Hnone Hr. destruct (Hkeep r (Hin r Hr)) as [Hd _].
    rewrite Hnone in Hd. discriminate.
  - apply (Array_sort_ordered (timestamp host clock)).
    intros r Hr. apply filter_In in Hr as [_ Hr].
    destruct (Hkeep r Hr) as (_ & t & _ & _ & Ht & _). exists t. exact Ht.
  - intros Href. unfold result. rewrite (filter_none keep); [reflexivity|].
    intros r _. destruct (keep r) eqn:E; [|reflexivity].
    destruct (Hkeep r E) as (_ & _ & _ & b & _ & _ & Hb & _). congruence.
Qed.

Lemma visualizationData_in_range_sorted_stable_witness :
  exists t,
    timestamp utcHost 0
      (observation (Some "16.03.2024") None (Some "553.1") None None) = Some t
    /\ 1710547200000 - 63072000000 <= t <= 1710547200000.
Proof.
  apply (proj1 (proj1 (visualizationData_in_range_sorted_stable
                         (fun d _ => option_map (fun t => t - 63072000000) d)
                         utcHost 0 sampleRecords (Some 1710547200000))
                  (1710547200000 - 63072000000) 1710547200000
                  eq_refl eq_refl)
           (observation (Some "16.03.2024") None (Some "553.1") None None)).
  vm_compute. right. right. left. reflexivity.
Defined.

Lemma lastItem_cons {A : Type} (x y : A) (l : list A) :
  lastItem (x :: y :: l) = lastItem (y :: l).
Proof.
  unfold lastItem. cbn [List.length]. rewrite !Nat.sub_succ, !Nat.sub_0_r.
  reflexivity.
Qed.

Lemma lastItem_sorted {A : Type} (R : A -> A -> Prop) (l : list A) :
  (forall x, In x l -> R x x) ->
  StronglySorted R l -> l <> [] ->
  exists z, lastItem l = Some z /\ In z l /\ forall x, In x l -> R x z.
Proof.
  intros Hrefl Hs. induction Hs as [|x l Hs IH Hx]; intros Hne; [contradiction|].
  destruct l as [|y l].
  - exists x. repeat split; [left; reflexivity|].
    intros z [<-|[]]. apply Hrefl. left. reflexivity.
  - destruct IH as (z & Hz & Hin & Hall); [|discriminate|].
    { intros w Hw. apply Hrefl. right. exact Hw. }
    exists z. rewrite lastItem_cons. repeat split; [exact Hz|right; exact Hin|].
    intros w [<-|Hw]; [|auto]. rewrite Forall_forall in Hx. auto.
Qed.

(** The chosen range as the sorted selection of the feed. *)
Lemma filteredData_ordered (host : Host) (clock : Z)
    (records : list TelemetryRecord) (s e : Z) (rangeEnd : option Date)
    (referenceDate : Date) :
  s <= e ->
  match rangeEnd with Some d => d | None => referenceDate end = Some e ->
  let result :=
    DamDetail.filteredData host clock (Some records)
      (Some {| DamDetail.from := Some (Some s); DamDetail.to := rangeEnd |})
      referenceDate in
  StronglySorted
    (fun a b => notAfter (timestamp host clock a) (timestamp host clock b))
    result
  /\ (forall r, In r result ->
        In r records /\ exists t, timestamp host clock r = Some t).
Proof.
  intros Hse Hend.
  unfold DamDetail.filteredData. cbn [DamDetail.from DamDetail.to].
  rewrite Hend.
  match goal with
  | |- context [filter ?k records] => set (keep := k)
  end.
  assert (Hkeep : forall r, In r (filter keep records) ->
            In r records /\ exists t, timestamp host clock r = Some t).
  { intros r Hr. apply filter_In in Hr as [Hin Hr]. split; [exact Hin|].
    unfold keep in Hr. destruct (truthyStr (date r)); [|discriminate].
    destruct (isWithinInterval_inclusive _ s e Hse Hr) as (t & Ht & _).
    exists t. exact Ht. }
  split.
  - apply (Array_sort_ordered (timestamp host clock)).
    intros r Hr. apply Hkeep, Hr.
  - intros r Hr. apply Array_sort_In in Hr. apply Hkeep, Hr.
Qed.

(** X8.  When the chosen range holds at least one record, the record
    shown by the cards is a record of the range with the latest
    timestamp of the range.  When the range holds none, the cards show
    the last record of the feed as it was received, whatever its date. *)
Theorem currentData_is_latest (host : Host) (clock : Z)
    (records : list TelemetryRecord) (s e : Z) (rangeEnd : option Date)
    (referenceDate : Date) :
  s <= e ->
  match rangeEnd with Some d => d | None => referenceDate end = Some e ->
  let filtered :=
    DamDetail.filteredData host clock (Some records)
      (Some {| DamDetail.from := Some (Some s); DamDetail.to := rangeEnd |})
      referenceDate in
  (filtered <> [] ->
     exists current,
       DamDetail.currentData filtered (Some records) = Some current
       /\ In current filtered
       /\ forall r, In r filtered ->
            notAfter (timestamp host clock r) (timestamp host clock current))
  /\ (filtered = [] ->
        DamDetail.currentData filtered (Some records) = lastItem records).
Proof.
  intros Hse Hend filtered.
  destruct (filteredData_ordered host clock records s e rangeEnd referenceDate
              Hse Hend) as [Hsorted Hvalid].
  fold filtered in Hsorted, Hvalid. split.
  - intros Hne. unfold DamDetail.currentData.
    replace (0 <? Z.of_nat (List.length filtered)) with true
      by (symmetry; apply Z.ltb_lt; destruct filtered;
          [contradiction|cbn [List.length]; lia]).
    apply (lastItem_sorted _ filtered); [|exact Hsorted|exact Hne].
    intros r Hr. destruct (Hvalid r Hr) as (_ & t & Ht).
    exists t, t. repeat split; auto; lia.
  - intros Hnil. rewrite Hnil. unfold DamDetail.currentData.
    cbn [List.length Z.of_nat Z.ltb Z.compare].
    destruct records as [|r l]; [reflexivity|].
    replace (0 <? Z.of_nat (List.length (r :: l))) with true
      by (symmetry; apply Z.ltb_lt; cbn [List.length]; lia).
    reflexivity.
Qed.

Lemma currentData_is_latest_witness :
  DamDetail.currentData
    (DamDetail.filteredData utcHost 0 (Some sampleRecords)
       (Some {| DamDetail.from := Some (Some 0); DamDetail.to := Some (Some 1000) |})
       None)
    (Some sampleRecords)
  = lastItem sampleRecords.
Proof.
  apply (currentData_is_latest utcHost 0 sampleRecords 0 1000
           (Some (Some 1000)) None); [lia|reflexivity|reflexivity].
Defined.

(* ================================================================== *)
(** * Strings                                                          *)
(* ================================================================== *)

Lemma substring_split (n m : nat) (s : string) :
  (String.substring 0 n s ++ String.substring n m s)%string
  = String.substring 0 (n + m) s.
Proof.
  revert s. induction n as [|n IH]; intros s.
  - destruct s, m; reflexivity.
  - destruct s as [|c s]; [reflexivity|].
    cbn [String.substring Nat.add String.append]. rewrite IH. reflexivity.
Qed.

Lemma substring_all (n : nat) (s : string) :
  (String.length s <= n)%nat -> String.substring 0 n s = s.
Proof.
  revert n. induction s as [|c s IH]; intros n H.
  - destruct n; reflexivity.
  - destruct n as [|n]; cbn [String.length] in H; [lia|].
    cbn [String.substring]. rewrite IH; [reflexivity|lia].
Qed.

Lemma substring_length_0 (n : nat) (s : string) :
  String.length (String.substring 0 n s) = Nat.min n (String.length s).
Proof.
  revert s. induction n as [|n IH]; intros s.
  - destruct s; reflexivity.
  - destruct s as [|c s]; [reflexivity|].
    cbn [String.substring String.length Nat.min]. rewrite IH. reflexivity.
Qed.

Lemma substring_of_prefix (a n k : nat) (s : string) :
  (a + n <= k)%nat ->
  String.substring a n (String.substring 0 k s) = String.substring a n s.
Proof.
  revert a n s. induction k as [|k IH]; intros a n s H.
  - assert (a = 0%nat) by lia. assert (n = 0%nat) by lia. subst.
    destruct s; reflexivity.
  - destruct s as [|c s]; [destruct a, n; reflexivity|].
    cbn [String.substring]. destruct a as [|a].
    + destruct n as [|n]; [reflexivity|].
      cbn [String.substring]. rewrite IH; [reflexivity|lia].
    + cbn [String.substring]. apply IH. lia.
Qed.

Lemma removeWhere_app (p : ascii -> bool) (a b : string) :
  removeWhere p (a ++ b) = (removeWhere p a ++ removeWhere p b)%string.
Proof.
  induction a as [|c a IH]; [reflexivity|].
  cbn [String.append removeWhere]. destruct (p c); rewrite IH; reflexivity.
Qed.

Lemma removeWhere_none (p : ascii -> bool) (s : string) :
  (forall c, isDigit c = true -> p c = false) ->
  ConsentOptIn.allDigits s = true -> removeWhere p s = s.
Proof.
  intros Hp. induction s as [|c s IH]; [reflexivity|].
  cbn [ConsentOptIn.allDigits removeWhere]. intros H.
  apply andb_prop in H as [Hc Hs]. rewrite (Hp c Hc), (IH Hs). reflexivity.
Qed.

Lemma digitsOf_allDigits (s : string) :
  ConsentOptIn.allDigits (digitsOf s) = true.
Proof.
  unfold digitsOf. induction s as [|c s IH]; [reflexivity|].
  cbn [removeWhere]. destruct (isDigit c) eqn:Hc; cbn [negb]; [|exact IH].
  cbn [ConsentOptIn.allDigits]. rewrite Hc, IH. reflexivity.
Qed.

Lemma digitsOf_digits (s : string) :
  ConsentOptIn.allDigits s = true -> digitsOf s = s.
Proof.
  apply removeWhere_none. intros c Hc. rewrite Hc. reflexivity.
Qed.

Lemma allDigits_substring (a n : nat) (s : string) :
  ConsentOptIn.allDigits s = true ->
  ConsentOptIn.allDigits (String.substring a n s) = true.
Proof.
  revert a n. induction s as [|c s IH]; intros a n H.
  - destruct a, n; reflexivity.
  - cbn [ConsentOptIn.allDigits] in H. apply andb_prop in H as [Hc Hs].
    destruct a as [|a]; cbn [String.substring].
    + destruct n as [|n]; [reflexivity|].
      cbn [ConsentOptIn.allDigits]. rewrite Hc, (IH 0%nat n Hs). reflexivity.
    + apply IH, Hs.
Qed.

(** A string is blank when all its characters are white space. *)
Lemma trimStart_blank (s : string) :
  trimStart s = "" <-> removeWhere isWhiteSpace s = "".
Proof.
  induction s as [|c s IH]; [split; reflexivity|].
  cbn [trimStart removeWhere]. destruct (isWhiteSpace c); [exact IH|].
  split; discriminate.
Qed.

Lemma removeWhere_rev (p : ascii -> bool) (s acc : string) :
  removeWhere p (rev_string s acc) = "" <->
  removeWhere p s = "" /\ removeWhere p acc = "".
Proof.
  revert acc. induction s as [|c s IH]; intros acc; cbn [rev_string removeWhere].
  - tauto.
  - rewrite IH. cbn [removeWhere]. destruct (p c); [tauto|].
    split; [intros [_ H]|intros [H _]]; discriminate.
Qed.

Lemma removeWhere_trimStart (s : string) :
  removeWhere isWhiteSpace (trimStart s) = removeWhere isWhiteSpace s.
Proof.
  induction s as [|c s IH]; [reflexivity|].
  cbn [trimStart]. destruct (isWhiteSpace c) eqn:Hc.
  - cbn [removeWhere]. rewrite Hc. exact IH.
  - reflexivity.
Qed.

Lemma rev_string_empty (s acc : string) :
  rev_string s acc = "" <-> s = "" /\ acc = "".
Proof.
  revert acc. induction s as [|c s IH]; intros acc; cbn [rev_string].
  - tauto.
  - rewrite IH. split; [intros [_ H]|intros [H _]]; discriminate.
Qed.

Lemma trim_blank (s : string) :
  trim s = "" <-> removeWhere isWhiteSpace s = "".
Proof.
  unfold trim, trimEnd. rewrite rev_string_empty.
  rewrite <- (removeWhere_trimStart s).
  set (x := trimStart s). split.
  - intros [H _]. apply trimStart_blank in H.
    apply removeWhere_rev in H as [H _]. exact H.
  - intros H. split; [|reflexivity]. apply trimStart_blank.
    apply removeWhere_rev. auto.
Qed.

(* ================================================================== *)
(** * The SMS consent form                                             *)
(* ================================================================== *)

Lemma string_app_assoc (a b c : string) :
  (a ++ (b ++ c))%string = ((a ++ b) ++ c)%string.
Proof.
  induction a as [|x a IH]; [reflexivity|].
  cbn [String.append]. rewrite IH. reflexivity.
Qed.

Lemma digitsOf_app (a b : string) :
  digitsOf (a ++ b) = (digitsOf a ++ digitsOf b)%string.
Proof. apply removeWhere_app. Qed.

Lemma formatPhoneNumber_digits (value : string) :
  digitsOf (ConsentOptIn.formatPhoneNumber value)
  = String.substring 0 10 (digitsOf value).
Proof.
  unfold ConsentOptIn.formatPhoneNumber. fold (digitsOf value).
  pose proof (digitsOf_allDigits value) as Hd.
  set (phone := digitsOf value) in *.
  assert (Hsub : forall a n, digitsOf (String.substring a n phone)
                             = String.substring a n phone)
    by (intros a n; apply digitsOf_digits, allDigits_substring, Hd).
  destruct (Z.of_nat (String.length phone) <=? 3) eqn:H3.
  { apply Z.leb_le in H3. rewrite (digitsOf_digits phone Hd).
    symmetry. apply substring_all. lia. }
  destruct (Z.of_nat (String.length phone) <=? 6) eqn:H6.
  { apply Z.leb_le in H6. unfold slice, sliceFrom.
    rewrite !digitsOf_app, !Hsub.
    change (digitsOf "(") with "". change (digitsOf ") ") with "".
    cbn [String.append Nat.sub].
    rewrite substring_split. rewrite !substring_all; [reflexivity|lia|lia]. }
  unfold slice. rewrite !digitsOf_app, !Hsub.
  change (digitsOf "(") with "". change (digitsOf ") ") with "".
  change (digitsOf "-") with "".
  cbn [String.append Nat.sub].
  rewrite string_app_assoc, (substring_split 3 3 phone).
  cbn [Nat.add]. rewrite (substring_split 6 4 phone). reflexivity.
Qed.

Lemma formatPhoneNumber_of_digits (phone : string) :
  ConsentOptIn.allDigits phone = true ->
  ConsentOptIn.formatPhoneNumber (String.substring 0 10 phone)
  = ConsentOptIn.formatPhoneNumber phone.
Proof.
  intros Hd. unfold ConsentOptIn.formatPhoneNumber.
  fold (digitsOf (String.substring 0 10 phone)). fold (digitsOf phone).
  rewrite (digitsOf_digits phone Hd).
  rewrite (digitsOf_digits _ (allDigits_substring 0 10 phone Hd)).
  rewrite substring_length_0.
  destruct (Z.of_nat (String.length phone) <=? 3) eqn:H3.
  { apply Z.leb_le in H3.
    replace (Z.of_nat (Nat.min 10 (String.length phone)) <=? 3) with true
      by (symmetry; apply Z.leb_le; lia).
    apply substring_all. lia. }
  replace (Z.of_nat (Nat.min 10 (String.length phone)) <=? 3) with false
    by (symmetry; apply Z.leb_gt; apply Z.leb_gt in H3; lia).
  destruct (Z.of_nat (String.length phone) <=? 6) eqn:H6.
  { apply Z.leb_le in H6.
    replace (Z.of_nat (Nat.min 10 (String.length phone)) <=? 6) with true
      by (symmetry; apply Z.leb_le; lia).
    rewrite (substring_all 10 phone); [reflexivity|lia]. }
  replace (Z.of_nat (Nat.min 10 (String.length phone)) <=? 6) with false
    by (symmetry; apply Z.leb_gt; apply Z.leb_gt in H6; lia).
  unfold slice. rewrite !substring_of_prefix by lia. reflexivity.
Qed.

(** X9.  Formatting a phone number keeps the first ten decimal digits
    of the input, in order, and nothing else of it; formatting an already
    formatted number changes nothing. *)
Theorem formatPhoneNumber_idempotent (value : string) :
  digitsOf (ConsentOptIn.formatPhoneNumber value)
  = String.substring 0 10 (digitsOf value)
  /\ ConsentOptIn.formatPhoneNumber (ConsentOptIn.formatPhoneNumber value)
     = ConsentOptIn.formatPhoneNumber value.
Proof.
  split; [apply formatPhoneNumber_digits|].
  assert (H : forall v, ConsentOptIn.formatPhoneNumber v
                        = ConsentOptIn.formatPhoneNumber (digitsOf v)).
  { intros v. unfold ConsentOptIn.formatPhoneNumber.
    fold (digitsOf v). fold (digitsOf (digitsOf v)).
    rewrite (digitsOf_digits _ (digitsOf_allDigits v)). reflexivity. }
  rewrite (H (ConsentOptIn.formatPhoneNumber value)).
  rewrite formatPhoneNumber_digits.
  rewrite (formatPhoneNumber_of_digits _ (digitsOf_allDigits value)).
  symmetry. apply H.
Qed.

Example formatPhoneNumber_sample :
  ConsentOptIn.formatPhoneNumber "+1 555-867-53o9 ext 22" = "(155) 586-7539".
Proof. vm_compute. reflexivity. Qed.

Lemma code_zero (c : ascii) : code c = 48 <-> c = "0"%char.
Proof.
  unfold code. split.
  - intros H. rewrite <- (ascii_N_embedding c).
    replace (N_of_ascii c) with 48%N by lia. reflexivity.
  - intros ->. reflexivity.
Qed.

Lemma digit_not_separator (c : ascii) :
  isDigit c = true -> ConsentOptIn.isSeparator c = false.
Proof.
  unfold isDigit, ConsentOptIn.isSeparator, isWhiteSpace. intros H.
  apply andb_prop in H as [H1 H2]. apply Z.leb_le in H1, H2.
  repeat match goal with
         | |- context [Ascii.eqb c ?k] =>
             let E := fresh "E" in
             destruct (Ascii.eqb c k) eqn:E;
             [apply Ascii.eqb_eq in E; subst c; cbn in H1, H2; lia|]
         end.
  replace (9 <=? code c) with true by (symmetry; apply Z.leb_le; lia).
  replace (code c <=? 13) with false by (symmetry; apply Z.leb_gt; lia).
  replace (code c =? 32) with false by (symmetry; apply Z.eqb_neq; lia).
  replace (code c =? 160) with false by (symmetry; apply Z.eqb_neq; lia).
  reflexivity.
Qed.

Lemma digit_not_white (c : ascii) :
  isDigit c = true -> isWhiteSpace c = false.
Proof.
  unfold isDigit, isWhiteSpace. intros H.
  apply andb_prop in H as [H1 H2]. apply Z.leb_le in H1, H2.
  replace (code c <=? 13) with false by (symmetry; apply Z.leb_gt; lia).
  replace (code c =? 32) with false by (symmetry; apply Z.eqb_neq; lia).
  replace (code c =? 160) with false by (symmetry; apply Z.eqb_neq; lia).
  rewrite andb_false_r. reflexivity.
Qed.

Lemma blank_no_digits (s : string) :
  removeWhere isWhiteSpace s = "" -> digitsOf s = "".
Proof.
  unfold digitsOf. induction s as [|c s IH]; [reflexivity|].
  cbn [removeWhere]. destruct (isWhiteSpace c) eqn:Hw; [|discriminate].
  intros H. destruct (isDigit c) eqn:Hd.
  - rewrite (digit_not_white c Hd) in Hw. discriminate.
  - cbn [negb]. apply IH, H.
Qed.

Lemma optional_plus (c : ascii) (r : string) :
  isDigit c = true ->
  match String c r with
  | String "+" r' => r'
  | _ => String c r
  end = String c r.
Proof.
  intros H.
  destruct c as [[] [] [] [] [] [] [] []]; try reflexivity.
  vm_compute in H. discriminate.
Qed.

(** On a string of digits the pattern asks for a first digit other
    than 0 and at most sixteen digits. *)
Lemma validatePhoneNumber_digits (c : ascii) (r : string) :
  ConsentOptIn.allDigits (String c r) = true ->
  ConsentOptIn.validatePhoneNumber (String c r)
  = negb (Ascii.eqb c "0") && (Z.of_nat (String.length r) <=? 15)
    && (9 <=? Z.of_nat (String.length r)).
Proof.
  intros Hd. unfold ConsentOptIn.validatePhoneNumber.
  rewrite (removeWhere_none ConsentOptIn.isSeparator (String c r)
             digit_not_separator Hd).
  cbn [ConsentOptIn.allDigits] in Hd. apply andb_prop in Hd as [Hc Hr].
  unfold ConsentOptIn.phoneRegex_test. rewrite (optional_plus c r Hc).
  rewrite Hr, andb_true_r.
  assert (Hfirst : (49 <=? code c) && (code c <=? 57) = negb (Ascii.eqb c "0")).
  { unfold isDigit in Hc. apply andb_prop in Hc as [H1 H2]. rewrite H2, andb_true_r.
    apply Z.leb_le in H1. destruct (Ascii.eqb c "0") eqn:E; cbn [negb].
    - apply Ascii.eqb_eq in E. subst c. reflexivity.
    - apply Z.leb_le. apply Ascii.eqb_neq in E.
      assert (code c <> 48) by (intros K; apply E, code_zero, K). lia. }
  rewrite Hfirst. cbn [String.length].
  replace (10 <=? Z.of_nat (S (String.length r)))
    with (9 <=? Z.of_nat (String.length r)); [reflexivity|].
  destruct (9 <=? Z.of_nat (String.length r)) eqn:E; symmetry.
  - apply Z.leb_le in E. apply Z.leb_le. lia.
  - apply Z.leb_gt in E. apply Z.leb_gt. lia.
Qed.

(** X10.  With the phone field holding a formatted number, the
    submission goes through exactly when consent is given and the text
    typed holds at least ten digits, the first of which is not 0. *)
Theorem handleSubmit_accepts (value : string) (consentGiven : bool) :
  ConsentOptIn.hasErrors
    (ConsentOptIn.handleSubmit_errors
       (ConsentOptIn.formatPhoneNumber value) consentGiven) = false
  <-> consentGiven = true
      /\ (10 <= String.length (digitsOf value))%nat
      /\ String.get 0 (digitsOf value) <> Some "0"%char.
Proof.
  unfold ConsentOptIn.hasErrors, ConsentOptIn.handleSubmit_errors.
  cbn [ConsentOptIn.phone ConsentOptIn.consent].
  fold (digitsOf (ConsentOptIn.formatPhoneNumber value)).
  rewrite formatPhoneNumber_digits.
  pose proof (digitsOf_allDigits value) as Hd.
  set (phone := digitsOf value) in *.
  pose proof (allDigits_substring 0 10 phone Hd) as Hq.
  pose proof (substring_length_0 10 phone) as Hlen.
  assert (Hget : String.get 0 (String.substring 0 10 phone) = String.get 0 phone)
    by (destruct phone; reflexivity).
  assert (Hblank : String.substring 0 10 phone <> "" ->
            String.eqb (trim (ConsentOptIn.formatPhoneNumber value)) "" = false).
  { intros Hne. apply String.eqb_neq. intros Ht. apply Hne.
    apply trim_blank, blank_no_digits in Ht.
    rewrite formatPhoneNumber_digits in Ht. exact Ht. }
  destruct (String.substring 0 10 phone) as [|c r] eqn:Eq.
  - cbn [String.length] in Hlen. split.
    + intros H. exfalso. destruct (String.eqb _ ""); [discriminate|].
      cbn in H. discriminate.
    + intros (_ & H & _). lia.
  - rewrite (Hblank ltac:(discriminate)).
    rewrite (validatePhoneNumber_digits c r Hq).
    cbn [String.length] in Hlen. cbn [String.get] in Hget.
    rewrite <- Hget. split.
    + intros H. destruct consentGiven; cbn [negb] in H.
      * destruct (Ascii.eqb c "0") eqn:E0; cbn [negb andb] in H; [discriminate|].
        destruct (Z.of_nat (String.length r) <=? 15); cbn [andb] in H;
          [|discriminate].
        destruct (9 <=? Z.of_nat (String.length r)) eqn:E9; [|discriminate].
        apply Z.leb_le in E9. apply Ascii.eqb_neq in E0.
        repeat split; [lia|congruence].
      * destruct (negb _); discriminate.
    + intros (-> & Hten & Hfirst). cbn [negb].
      replace (Ascii.eqb c "0") with false
        by (symmetry; apply Ascii.eqb_neq; congruence).
      replace (Z.of_nat (String.length r) <=? 15) with true
        by (symmetry; apply Z.leb_le; lia).
      replace (9 <=? Z.of_nat (String.length r)) with true
        by (symmetry; apply Z.leb_le; lia).
      reflexivity.
Qed.

Lemma handleSubmit_accepts_witness :
  ConsentOptIn.hasErrors
    (ConsentOptIn.handleSubmit_errors
       (ConsentOptIn.formatPhoneNumber "870 555 0142") true) = false.
Proof.
  apply (proj2 (handleSubmit_accepts "870 555 0142" true)).
  repeat split; [cbn; lia|discriminate].
Defined.

(* ================================================================== *)
(** * Reading the lake temperature and the storage                     *)
(* ================================================================== *)

Lemma digitValue_digit (c : ascii) :
  isDigit c = true -> digitValue 10 c = Some (code c - 48).
Proof.
  unfold isDigit, digitValue. intros H. rewrite H.
  apply andb_prop in H as [H1 H2]. apply Z.leb_le in H1, H2.
  replace (code c - 48 <? 10) with true by (symmetry; apply Z.ltb_lt; lia).
  reflexivity.
Qed.

Lemma digitsPrefix_digits (s : string) (acc : Z) :
  ConsentOptIn.allDigits s = true ->
  digitsPrefix 10 s (Some acc) = Some (digitsValue s acc).
Proof.
  revert acc. induction s as [|c s IH]; intros acc H; [reflexivity|].
  cbn [ConsentOptIn.allDigits] in H. apply andb_prop in H as [Hc Hs].
  cbn [digitsPrefix digitsValue]. rewrite (digitValue_digit c Hc).
  apply IH, Hs.
Qed.

(** [parseInt] reads a string of digits as its decimal value. *)
Lemma parseInt_digits (c : ascii) (r : string) :
  ConsentOptIn.allDigits (String c r) = true ->
  parseInt (Some (String c r)) = Some (digitsValue (String c r) 0).
Proof.
  intros H. pose proof H as Hall.
  cbn [ConsentOptIn.allDigits] in H. apply andb_prop in H as [Hc Hr].
  assert (Hgoal : digitsPrefix 10 (String c r) None
                  = Some (digitsValue (String c r) 0)).
  { cbn [digitsPrefix digitsValue]. rewrite (digitValue_digit c Hc).
    apply digitsPrefix_digits, Hr. }
  unfold parseInt. cbn [ToString trimStart]. rewrite (digit_not_white c Hc).
  destruct c as [[] [] [] [] [] [] [] []];
    try (vm_compute in Hc; discriminate);
    try (rewrite Hgoal; f_equal; lia).
  destruct r as [|c2 r2]; [reflexivity|].
  cbn [ConsentOptIn.allDigits] in Hr. apply andb_prop in Hr as [Hc2 _].
  destruct c2 as [[] [] [] [] [] [] [] []];
    try (vm_compute in Hc2; discriminate);
    rewrite Hgoal; f_equal; lia.
Qed.

Lemma removeFirst_unit (d : string) :
  ConsentOptIn.allDigits d = true ->
  removeFirst DamStatusCards.degreeF (d ++ DamStatusCards.degreeF) = d.
Proof.
  induction d as [|c d IH]; intros H; [reflexivity|].
  cbn [ConsentOptIn.allDigits] in H. apply andb_prop in H as [Hc Hd].
  cbn [String.append removeFirst].
  replace (String.prefix DamStatusCards.degreeF
             (String c (d ++ DamStatusCards.degreeF))) with false.
  - rewrite (IH Hd). reflexivity.
  - unfold DamStatusCards.degreeF. cbn [String.prefix].
    destruct (ascii_dec (ascii_of_nat 176) c) as [E|E]; [|reflexivity].
    subst c. vm_compute in Hc. discriminate.
Qed.

Lemma nan_is (x : float) : is_nan x = true -> Prim2SF x = S754_nan.
Proof.
  intros H. destruct (Prim2SF x) eqn:E; try reflexivity;
    assert (K : is_nan x = false) by (apply is_nan_spec; rewrite E; discriminate);
    congruence.
Qed.

(** X11.  A lake temperature written as digits followed by the unit
    is read as the number the digits spell.  A reading in which no
    number can be read is not a number: the card then shows the status
    "Very Cold" and the gauge is not a number either. *)
Theorem lakeTemperature_reading :
  (forall c d, ConsentOptIn.allDigits (String c d) = true ->
     DamStatusCards.lakeTemperature (String c d ++ DamStatusCards.degreeF)
     = numberOfInt (Some (digitsValue (String c d) 0)))
  /\ (forall reading,
        parseInt (Some (orElseStr (removeFirst DamStatusCards.degreeF reading) "0"))
        = None ->
        DamStatusCards.status
          (DamStatusCards.getTemperatureStatus
             (DamStatusCards.lakeTemperature reading)) = "Very Cold"
        /\ is_nan (DamStatusCards.temperatureGauge
                     (DamStatusCards.lakeTemperature reading)) = true).
Proof.
  split.
  - intros c d H. unfold DamStatusCards.lakeTemperature.
    rewrite (removeFirst_unit (String c d) H). cbn [orElseStr].
    rewrite (parseInt_digits c d H). reflexivity.
  - intros reading H. unfold DamStatusCards.lakeTemperature. rewrite H.
    split; reflexivity.
Qed.

Lemma lakeTemperature_reading_witness :
  DamStatusCards.lakeTemperature ("72" ++ DamStatusCards.degreeF) = 72%float
  /\ DamStatusCards.status
       (DamStatusCards.getTemperatureStatus
          (DamStatusCards.lakeTemperature "n/a")) = "Very Cold".
Proof.
  split.
  - apply (proj1 lakeTemperature_reading "7"%char "2"). reflexivity.
  - apply (proj2 lakeTemperature_reading "n/a"). reflexivity.
Defined.

Lemma blank_keeps_commas (s : string) :
  removeWhere isWhiteSpace s = "" -> removeAll "," s = s.
Proof.
  induction s as [|c s IH]; [reflexivity|].
  cbn [removeWhere removeAll]. destruct (isWhiteSpace c) eqn:Hw; [|discriminate].
  intros H. destruct (Ascii.eqb c ",") eqn:E.
  - apply Ascii.eqb_eq in E. subst c. vm_compute in Hw. discriminate.
  - rewrite (IH H). reflexivity.
Qed.

Lemma parseFloat_blank (s : string) :
  trimStart s = "" -> parseFloat (Some s) = nan.
Proof. intros H. unfold parseFloat. cbn [ToString]. rewrite H. reflexivity. Qed.

(** X12.  For a storage text in which a number can be read and that
    holds no percent sign, the storage card and the storage chart agree:
    [formatStorage] gives the thousandth of what [parseNumber] gives.
    When no number can be read the card gets NaN where the chart gets
    0. *)
Theorem formatStorage_agrees_with_parseNumber (text : string) :
  (is_nan (parseFloat (Some (removeAll "," text))) = false ->
   removeAll "%" (removeAll "," text) = removeAll "," text ->
   DamStatusCards.formatStorage (inl text)
   = (DamDetail.parseNumber (Some text) / 1000)%float)
  /\ (is_nan (parseFloat (Some (removeAll "," text))) = true ->
      is_nan (DamStatusCards.formatStorage (inl text)) = true
      /\ (removeAll "%" (removeAll "," text) = removeAll "," text ->
          DamDetail.parseNumber (Some text) = 0%float)).
Proof.
  unfold DamStatusCards.formatStorage, DamDetail.parseNumber.
  cbn [ToString]. split.
  - intros Hn Hp. rewrite Hp. unfold isNaN. rewrite Hn.
    assert (Hblank : trim text <> "").
    { intros Ht. apply trim_blank in Ht.
      rewrite (blank_keeps_commas text Ht) in Hn.
      rewrite parseFloat_blank in Hn; [discriminate|].
      apply trimStart_blank, Ht. }
    assert (Hne : truthyStr (Some text) = true).
    { destruct text; [|reflexivity]. exfalso. apply Hblank. reflexivity. }
    rewrite Hne. apply String.eqb_neq in Hblank. rewrite Hblank. reflexivity.
  - intros Hn. split.
    + destruct (is_nan (parseFloat (Some (removeAll "," text)) / 1000)) eqn:E;
        [reflexivity|].
      apply is_nan_spec in E. exfalso. apply E.
      rewrite FloatAxioms.div_spec, (nan_is _ Hn). reflexivity.
    + intros Hp. rewrite Hp. unfold isNaN. rewrite Hn.
      destruct (_ || _); reflexivity.
Qed.

Lemma formatStorage_agrees_with_parseNumber_witness :
  DamStatusCards.formatStorage (inl "1,234,567")
  = (DamDetail.parseNumber (Some "1,234,567") / 1000)%float.
Proof.
  apply (proj1 (formatStorage_agrees_with_parseNumber "1,234,567"));
    reflexivity.
Defined.

(* ================================================================== *)
(** * More on the Numeric Coercer                                      *)
(* ================================================================== *)

Lemma removeAll_idem (c : ascii) (s : string) :
  removeAll c (removeAll c s) = removeAll c s.
Proof.
  induction s as [|d s IH]; [reflexivity|].
  cbn [removeAll]. destruct (Ascii.eqb d c) eqn:E; [exact IH|].
  cbn [removeAll]. rewrite E, IH. reflexivity.
Qed.

Lemma removeAll_comm (a b : ascii) (s : string) :
  removeAll a (removeAll b s) = removeAll b (removeAll a s).
Proof.
  induction s as [|d s IH]; [reflexivity|].
  cbn [removeAll].
  destruct (Ascii.eqb d b) eqn:Eb, (Ascii.eqb d a) eqn:Ea;
    cbn [removeAll]; rewrite ?Ea, ?Eb, IH; reflexivity.
Qed.

Lemma blank_removeAll (c : ascii) (s : string) :
  removeWhere isWhiteSpace s = "" ->
  removeWhere isWhiteSpace (removeAll c s) = "".
Proof.
  induction s as [|d s IH]; [reflexivity|].
  cbn [removeWhere removeAll]. destruct (isWhiteSpace d) eqn:Hw; [|discriminate].
  intros H. destruct (Ascii.eqb d c); [apply IH, H|].
  cbn [removeWhere]. rewrite Hw. apply IH, H.
Qed.

(** The guard of [parseNumber] fires exactly on blank strings. *)
Lemma parseNumber_guard (s : string) :
  negb (truthyStr (Some s)) || String.eqb (trim s) "" = true
  <-> removeWhere isWhiteSpace s = "".
Proof.
  rewrite <- trim_blank. split.
  - intros H. apply orb_prop in H as [H|H].
    + destruct s; [reflexivity|discriminate].
    + apply String.eqb_eq, H.
  - intros H. rewrite H. apply orb_true_r.
Qed.

Lemma parseNumber_blank_clean (s : string) :
  removeWhere isWhiteSpace s = "" -> DamDetail.parseNumber (Some s) = 0%float.
Proof.
  intros H. unfold DamDetail.parseNumber. cbn [ToString].
  rewrite (proj2 (parseNumber_guard s) H). reflexivity.
Qed.

Lemma parseNumber_unfold (s : string) :
  DamDetail.parseNumber (Some s)
  = let parsed := parseFloat (Some (removeAll "%" (removeAll "," s))) in
    if is_nan parsed then 0%float else parsed.
Proof.
  unfold DamDetail.parseNumber, isNaN. cbn [ToString].
  destruct (negb (truthyStr (Some s)) || String.eqb (trim s) "") eqn:G;
    [|reflexivity].
  apply parseNumber_guard in G.
  rewrite parseFloat_blank; [reflexivity|].
  apply trimStart_blank. apply blank_removeAll, blank_removeAll, G.
Qed.

(** [parseFloat] finds no number in a text that does not begin with
    one. *)
Lemma unsignedLiteral_none (u : string) :
  String.prefix "Infinity" u = false ->
  match u with
  | String c r =>
      isDigit c
      || (Ascii.eqb c "."
          && match r with
             | String d _ => isDigit d
             | EmptyString => false
             end)
  | EmptyString => false
  end = false ->
  unsignedLiteral u = None.
Proof.
  intros Hp H. unfold unsignedLiteral. rewrite Hp.
  destruct u as [|c r]; [reflexivity|].
  apply orb_false_elim in H as [Hc Hd].
  cbn [spanDigits]. rewrite Hc.
  destruct (Ascii.eqb c ".") eqn:E.
  - apply Ascii.eqb_eq in E. subst c. cbn [andb] in Hd.
    destruct r as [|d r']; [reflexivity|].
    cbn [spanDigits]. rewrite Hd. reflexivity.
  - destruct c as [[] [] [] [] [] [] [] []]; try reflexivity; discriminate E.
Qed.

Lemma parseFloat_no_number (text : string) :
  beginsWithNumber text = false -> parseFloat (Some text) = nan.
Proof.
  unfold beginsWithNumber, parseFloat. cbn [ToString].
  destruct (trimStart text) as [|c r]; [reflexivity|].
  intros H. apply orb_false_elim in H as [Hp H].
  destruct c as [[] [] [] [] [] [] [] []];
    rewrite (unsignedLiteral_none _ Hp H); reflexivity.
Qed.

(** C8, as stated, fails: ["1.2.3"] is not a number, with or without
    commas and percent signs, and [parseNumber] does not return 0 for it
    but the number at its start, 1.2; likewise 12 for ["12abc"] and 7 for
    ["7 of 9"]. *)
Lemma parseNumber_reads_leading_number :
  DamDetail.parseNumber (Some "1.2.3") = 1.2%float
  /\ DamDetail.parseNumber (Some "1.2.3") <> 0%float
  /\ DamDetail.parseNumber (Some "12abc") = 12%float
  /\ DamDetail.parseNumber (Some "7 of 9") = 7%float.
Proof.
  split; [vm_compute; reflexivity|].
  split; [|split; vm_compute; reflexivity].
  intros H. apply (f_equal Prim2SF) in H. vm_compute in H. discriminate.
Qed.

(** C8, amended.  [parseNumber] returns exactly 0 for an undefined
    value, for every string that is empty once trimmed, and for every
    string that, its commas and percent signs stripped, does not begin
    with a number (after leading white space and an optional sign comes
    neither a digit, nor a dot followed by a digit, nor [Infinity]), such
    as [""], ["n/a"] and ["--"]; it returns 1234.5 for ["1,234.5"] and 42
    for ["42%"].  A string that begins with a number is read as that
    number even when more text follows: ["1.2.3"] gives 1.2, ["12abc"]
    gives 12 and ["7 of 9"] gives 7. *)
Theorem parseNumber_zero_without_leading_number :
  DamDetail.parseNumber None = 0%float
  /\ (forall s, trim s = "" -> DamDetail.parseNumber (Some s) = 0%float)
  /\ (forall s, beginsWithNumber (withoutSeparators s) = false ->
        DamDetail.parseNumber (Some s) = 0%float)
  /\ DamDetail.parseNumber (Some "") = 0%float
  /\ DamDetail.parseNumber (Some "n/a") = 0%float
  /\ DamDetail.parseNumber (Some "--") = 0%float
  /\ DamDetail.parseNumber (Some "1,234.5") = 1234.5%float
  /\ DamDetail.parseNumber (Some "42%") = 42%float
  /\ DamDetail.parseNumber (Some "1.2.3") = 1.2%float
  /\ DamDetail.parseNumber (Some "12abc") = 12%float
  /\ DamDetail.parseNumber (Some "7 of 9") = 7%float.
Proof.
  split; [reflexivity|].
  split.
  { intros s Hs. unfold DamDetail.parseNumber. cbn [ToString].
    rewrite Hs. cbn [String.eqb]. rewrite orb_true_r. reflexivity. }
  split.
  { intros s Hs. rewrite parseNumber_unfold. cbv zeta.
    unfold withoutSeparators in Hs.
    rewrite (parseFloat_no_number _ Hs). reflexivity. }
  repeat split; vm_compute; reflexivity.
Qed.

Lemma parseNumber_zero_without_leading_number_witness :
  DamDetail.parseNumber (Some "   ") = 0%float
  /\ DamDetail.parseNumber (Some "%,dry,") = 0%float
  /\ DamDetail.parseNumber (Some " -.x5") = 0%float.
Proof.
  split; [|split].
  - apply (proj1 (proj2 parseNumber_zero_without_leading_number)). reflexivity.
  - apply (proj1 (proj2 (proj2 parseNumber_zero_without_leading_number))).
    reflexivity.
  - apply (proj1 (proj2 (proj2 parseNumber_zero_without_leading_number))).
    reflexivity.
Defined.

(** X13.  [parseNumber] never returns NaN, and neither thousands
    separators nor percent signs change the number it reads: removing
    them from the text beforehand gives the same result. *)
Theorem parseNumber_ignores_separators (text : string) :
  is_nan (DamDetail.parseNumber (Some text)) = false
  /\ DamDetail.parseNumber (Some (removeAll "," text))
     = DamDetail.parseNumber (Some text)
  /\ DamDetail.parseNumber (Some (removeAll "%" text))
     = DamDetail.parseNumber (Some text).
Proof.
  rewrite !parseNumber_unfold. cbv zeta. repeat split.
  - destruct (is_nan (parseFloat _)) eqn:E; [reflexivity|exact E].
  - rewrite removeAll_idem. reflexivity.
  - rewrite (removeAll_comm "," "%"), removeAll_idem. reflexivity.
Qed.

Example parseNumber_grouped :
  DamDetail.parseNumber (Some "12,345.5 %") = 12345.5%float.
Proof. vm_compute. reflexivity. Qed.

(* ================================================================== *)
(** * The visualization: labels and the calendar                       *)
(* ================================================================== *)

(** X14.  [formatDate] answers "Invalid Date" for an absent or empty
    date string, for a date string with a field that cannot be read, and
    for a time string whose hours or minutes cannot be read: the
    exception raised by the formatting of an Invalid Date is caught.  For
    a readable date without time it is the formatted local midnight. *)
Theorem formatDate_invalid (format : Z -> string -> string) (host : Host)
    (dateStr timeStr : option string) :
  (truthyStr dateStr = false ->
     Visualization.formatDate format host dateStr timeStr = "Invalid Date")
  /\ (parseInt (nth_error (split "." (ToString dateStr)) 0) = None
      \/ parseInt (nth_error (split "." (ToString dateStr)) 1) = None
      \/ parseInt (nth_error (split "." (ToString dateStr)) 2) = None ->
      Visualization.formatDate format host dateStr timeStr = "Invalid Date")
  /\ (truthyStr timeStr = true ->
      parseInt (nth_error (split ":" (ToString timeStr)) 0) = None
      \/ parseInt (nth_error (split ":" (ToString timeStr)) 1) = None ->
      Visualization.formatDate format host dateStr timeStr = "Invalid Date")
  /\ (forall t, truthyStr dateStr = true -> truthyStr timeStr = false ->
        Visualization.parseDateTime host 0 dateStr timeStr = Some t ->
        Visualization.formatDate format host dateStr timeStr
        = format t "MMM dd, yyyy").
Proof.
  unfold Visualization.formatDate, Visualization.formatDate_try,
    Visualization.parseDateTime, Visualization.parseDateTime_try.
  repeat split.
  - intros H. rewrite H. reflexivity.
  - intros H. destruct (truthyStr dateStr); [|reflexivity]. cbn [negb].
    assert (Hd : Date_ymd host
                   (parseInt (nth_error (split "." (ToString dateStr)) 2))
                   (pred (parseInt (nth_error (split "." (ToString dateStr)) 1)))
                   (parseInt (nth_error (split "." (ToString dateStr)) 0))
                 = None).
    { unfold Date_ymd, pred.
      destruct H as [H|[H|H]]; rewrite H; cbn [number numAdd];
        repeat match goal with |- context [match ?x with _ => _ end] =>
                                 destruct x end; reflexivity. }
    rewrite Hd. destruct (truthyStr timeStr); reflexivity.
  - intros Ht H. destruct (truthyStr dateStr); [|reflexivity]. cbn [negb].
    rewrite Ht.
    match goal with
    | |- context [setHoursMinutes host ?d ?h ?m] =>
        assert (Hs : setHoursMinutes host d h m = None)
    end.
    { unfold setHoursMinutes.
      destruct H as [H|H]; rewrite H; cbn [number];
        repeat match goal with |- context [match ?x with _ => _ end] =>
                                 destruct x end; reflexivity. }
    rewrite Hs. reflexivity.
  - intros t Hd Ht. rewrite Hd, Ht. cbn [negb]. intros ->. reflexivity.
Qed.

Lemma formatDate_invalid_witness :
  Visualization.formatDate (fun _ pattern => pattern) utcHost (Some "bad") None
  = "Invalid Date"
  /\ Visualization.formatDate (fun _ pattern => pattern) utcHost
       (Some "15.03.2024") (Some "noon") = "Invalid Date".
Proof.
  split.
  - apply (proj1 (proj2 (formatDate_invalid (fun _ pattern => pattern)
                           utcHost (Some "bad") None))).
    right. left. reflexivity.
  - apply (proj1 (proj2 (proj2 (formatDate_invalid (fun _ pattern => pattern)
                                  utcHost (Some "15.03.2024") (Some "noon")))));
      [reflexivity|left; reflexivity].
Defined.

Lemma findIndex_some {A : Type} (p : A -> bool) (l : list A) (i : nat) :
  findIndex p l = Some i ->
  exists x, nth_error l i = Some x /\ p x = true
            /\ forall j y, (j < i)%nat -> nth_error l j = Some y -> p y = false.
Proof.
  revert i. induction l as [|x l IH]; intros i H; [discriminate|].
  cbn [findIndex] in H. destruct (p x) eqn:Hx.
  - injection H as <-. exists x. repeat split; [exact Hx|]. intros j y Hj. lia.
  - destruct (findIndex p l) as [k|] eqn:Hk; [|discriminate].
    injection H as <-. destruct (IH k eq_refl) as (z & Hz & Hpz & Hbefore).
    exists z. repeat split; [exact Hz|exact Hpz|].
    intros [|j] y Hj Hy.
    + cbn in Hy. injection Hy as <-. exact Hx.
    + cbn in Hy. apply (Hbefore j y); [lia|exact Hy].
Qed.

Lemma findIndex_none {A : Type} (p : A -> bool) (l : list A) :
  findIndex p l = None <-> forall x, In x l -> p x = false.
Proof.
  induction l as [|x l IH]; cbn [findIndex].
  - split; [intros _ y []|reflexivity].
  - destruct (p x) eqn:Hx.
    + split; [discriminate|]. intros H.
      rewrite (H x (or_introl eq_refl)) in Hx. discriminate.
    + destruct (findIndex p l) as [k|].
      * split; [discriminate|]. intros H.
        assert (E : Some k = None)
          by (apply (proj2 IH); intros y Hy; apply H; right; exact Hy).
        discriminate.
      * split; [|reflexivity]. intros _ y [<-|Hy]; [exact Hx|].
        apply (proj1 IH eq_refl y Hy).
Qed.

(** The last element of a selection: where it sits in the array. *)
Lemma lastItem_filter {A : Type} (p : A -> bool) (l : list A) (z : A) :
  lastItem (filter p l) = Some z ->
  exists k, nth_error l k = Some z /\ p z = true
            /\ forall j y, (k < j)%nat -> nth_error l j = Some y -> p y = false.
Proof.
  induction l as [|x l IH]; [discriminate|].
  cbn [filter]. destruct (p x) eqn:Hx.
  - destruct (filter p l) as [|y f] eqn:Hf.
    + intros H. injection H as <-. exists 0%nat.
      repeat split; [exact Hx|].
      intros [|j] y Hj Hy; [lia|]. cbn in Hy.
      assert (Hin : In y l) by (eapply nth_error_In; exact Hy).
      destruct (p y) eqn:Hy'; [|reflexivity].
      assert (K : In y (filter p l)) by (apply filter_In; auto).
      rewrite Hf in K. destruct K.
    + rewrite lastItem_cons. intros H.
      destruct (IH H) as (k & Hk & Hz & Hafter).
      exists (S k). repeat split; [exact Hk|exact Hz|].
      intros [|j] w Hj Hw; [lia|]. cbn in Hw. apply (Hafter j w); [lia|exact Hw].
  - intros H. destruct (IH H) as (k & Hk & Hz & Hafter).
    exists (S k). repeat split; [exact Hk|exact Hz|].
    intros [|j] w Hj Hw; [lia|]. cbn in Hw. apply (Hafter j w); [lia|exact Hw].
Qed.

Lemma same_address_same_place (l : list Visualization.Item)
    (i k : nat) (x z : Visualization.Item) :
  NoDup (map Visualization.addr l) ->
  nth_error l i = Some x -> nth_error l k = Some z ->
  Visualization.addr x = Visualization.addr z -> i = k.
Proof.
  intros Hnd Hi Hk Heq.
  apply (proj1 (NoDup_nth_error (map Visualization.addr l)) Hnd).
  - rewrite length_map. apply nth_error_Some. rewrite Hi. discriminate.
  - rewrite !nth_error_map, Hi, Hk. cbn. rewrite Heq. reflexivity.
Qed.

(** X15.  Picking a day in the calendar, the items of the array being
    distinct objects: with hourly data the slider goes to the last item
    of that day, with daily data to the first item of that date; when no
    item has the date nothing is selected.  A calendar date that is
    invalid makes the handler raise. *)
Theorem handleDateSelect_index (format : Z -> string -> string)
    (validData : list Visualization.Item) (t : Z) :
  validData <> [] ->
  NoDup (map Visualization.addr validData) ->
  let target := format t "dd.MM.yyyy" in
  (exists selected,
     Visualization.handleDateSelect format validData (Some (Some t))
     = Normal selected
     /\ match selected with
        | None =>
            forall item, In item validData ->
              Visualization.dateIs target item = false
        | Some i =>
            exists item,
              nth_error validData i = Some item
              /\ Visualization.dateIs target item = true
              /\ forall j other, nth_error validData j = Some other ->
                   (if Visualization.isHourlyData validData
                    then (i < j)%nat else (j < i)%nat) ->
                   Visualization.dateIs target other = false
        end)
  /\ Visualization.handleDateSelect format validData (Some None) = Throw
  /\ Visualization.handleDateSelect format validData None = Normal None.
Proof.
  intros Hne Hnd target. 
  assert (Hlen : (Z.of_nat (List.length validData) =? 0) = false).
  { destruct validData; [contradiction|reflexivity]. }
  unfold Visualization.handleDateSelect. rewrite Hlen.
  cbn [Visualization.DateFns_format]. fold target.
  split; [|split; reflexivity].
  destruct (Visualization.isHourlyData validData).
  - destruct (filter (Visualization.dateIs target) validData) as [|e es] eqn:Hf.
    + exists None. split; [reflexivity|]. intros item Hin.
      destruct (Visualization.dateIs target item) eqn:E; [|reflexivity].
      assert (K : In item (filter (Visualization.dateIs target) validData))
        by (apply filter_In; auto).
      rewrite Hf in K. destruct K.
    + replace (0 <? Z.of_nat (List.length (e :: es))) with true
        by (symmetry; apply Z.ltb_lt; cbn [List.length]; lia).
      destruct (lastItem (e :: es)) as [z|] eqn:Hz.
      * rewrite <- Hf in Hz.
        destruct (lastItem_filter _ _ _ Hz) as (k & Hk & Hpz & Hafter).
        destruct (findIndex (fun item => Nat.eqb (Visualization.addr item)
                                                 (Visualization.addr z))
                            validData) as [i|] eqn:Hi.
        -- destruct (findIndex_some _ _ _ Hi) as (x & Hx & Haddr & _).
           apply Nat.eqb_eq in Haddr.
           assert (i = k) by (eapply same_address_same_place; eassumption).
           subst i. exists (Some k). split; [reflexivity|].
           exists z. repeat split; [exact Hk|exact Hpz|].
           intros j other Hj Hlt. exact (Hafter j other Hlt Hj).
        -- exfalso. apply (proj1 (findIndex_none _ _)) with (x := z) in Hi.
           ++ rewrite Nat.eqb_refl in Hi. discriminate.
           ++ eapply nth_error_In. exact Hk.
      * exfalso. unfold lastItem in Hz. cbn [List.length] in Hz.
        apply nth_error_None in Hz. cbn [List.length] in Hz. lia.
  - destruct (findIndex (Visualization.dateIs target) validData) as [i|] eqn:Hi.
    + destruct (findIndex_some _ _ _ Hi) as (x & Hx & Hpx & Hbefore).
      exists (Some i). split; [reflexivity|].
      exists x. repeat split; [exact Hx|exact Hpx|].
      intros j other Hj Hlt. exact (Hbefore j other Hlt Hj).
    + exists None. split; [reflexivity|].
      apply (proj1 (findIndex_none _ _) Hi).
Qed.

Lemma handleDateSelect_index_witness :
  exists selected,
    Visualization.handleDateSelect (fun _ _ => "15.03.2024") sampleItems
      (Some (Some 1710460800000)) = Normal selected
    /\ match selected with
       | None =>
           forall item, In item sampleItems ->
             Visualization.dateIs "15.03.2024" item = false
       | Some i =>
           exists item,
             nth_error sampleItems i = Some item
             /\ Visualization.dateIs "15.03.2024" item = true
             /\ forall j other, nth_error sampleItems j = Some other ->
                  (if Visualization.isHourlyData sampleItems
                   then (i < j)%nat else (j < i)%nat) ->
                  Visualization.dateIs "15.03.2024" other = false
       end.
Proof.
  apply (handleDateSelect_index (fun _ _ => "15.03.2024") sampleItems
           1710460800000).
  - discriminate.
  - repeat constructor; cbn; intuition discriminate.
Defined.

Example handleDateSelect_sample :
  Visualization.handleDateSelect (fun _ _ => "15.03.2024") sampleItems
    (Some (Some 1710460800000)) = Normal (Some 2%nat).
Proof. vm_compute. reflexivity. Qed.

(* ================================================================== *)
(** * More on the DateTime Normalizer                                  *)
(* ================================================================== *)

(** X16.  A date string with a day, month or year that cannot be read
    resolves to an Invalid Date, with or without a time string, and
    never to the reading of the clock. *)
Theorem parseDateTime_invalid_on_unreadable_field (host : Host) (clock : Z)
    (dateStr : string) (timeStr : option string) :
  truthyStr (Some dateStr) = true ->
  parseInt (nth_error (split "." dateStr) 0) = None
  \/ parseInt (nth_error (split "." dateStr) 1) = None
  \/ parseInt (nth_error (split "." dateStr) 2) = None ->
  DamDetail.parseDateTime host clock (Some dateStr) timeStr = None
  /\ Visualization.parseDateTime host clock (Some dateStr) timeStr = None.
Proof.
  intros Ht H.
  assert (Hd : Date_ymd host (parseInt (nth_error (split "." dateStr) 2))
                 (pred (parseInt (nth_error (split "." dateStr) 1)))
                 (parseInt (nth_error (split "." dateStr) 0)) = None).
  { unfold Date_ymd, pred.
    destruct H as [H|[H|H]]; rewrite H; cbn [number numAdd];
      repeat match goal with |- context [match ?x with _ => _ end] =>
                               destruct x end; reflexivity. }
  split.
  - unfold DamDetail.parseDateTime, DamDetail.parseDateTime_try.
    rewrite Ht. cbn [negb ToString]. rewrite Hd.
    destruct (truthyStr timeStr); reflexivity.
  - unfold Visualization.parseDateTime, Visualization.parseDateTime_try.
    rewrite Ht. cbn [negb ToString]. rewrite Hd.
    destruct (truthyStr timeStr); reflexivity.
Qed.

Lemma parseDateTime_invalid_on_unreadable_field_witness :
  DamDetail.parseDateTime utcHost 0 (Some "2024-03-15") (Some "14:30") = None
  /\ Visualization.parseDateTime utcHost 0 (Some "2024-03-15") (Some "14:30")
     = None.
Proof.
  apply (parseDateTime_invalid_on_unreadable_field utcHost 0 "2024-03-15"
           (Some "14:30")); [reflexivity|].
  right. left. reflexivity.
Defined.

(** The integers up to 2^53 are Numbers, and rounding never brings a
    larger one below 2^53. *)
Lemma toNumber_exact (z : Z) : Z.abs z <= 2 ^ 53 -> toNumber z = Some z.
Proof.
  intros H. unfold toNumber.
  replace (Z.abs z <=? 2 ^ 53) with true by (symmetry; apply Z.leb_le; exact H).
  reflexivity.
Qed.

Lemma toNumber_below (z w : Z) :
  toNumber z = Some w -> Z.abs w < 2 ^ 53 -> w = z.
Proof.
  unfold toNumber. destruct (Z.abs z <=? 2 ^ 53) eqn:Hz.
  - intros H _. injection H as H. symmetry. exact H.
  - apply Z.leb_gt in Hz. cbv zeta.
    set (a := Z.abs z) in *.
    set (e := Z.log2 a - 52).
    set (q := a / 2 ^ e).
    match goal with
    | |- context [if ?c then q + 1 else q] =>
        set (m := if c then q + 1 else q)
    end.
    destruct (2 ^ 1024 <=? m * 2 ^ e); [discriminate|].
    intros H Hw. injection H as H. exfalso.
    assert (Ha : 0 < a) by (assert (0 < 2 ^ 53) by (apply Z.pow_pos_nonneg; lia); lia).
    assert (HL : 53 <= Z.log2 a).
    { rewrite <- (Z.log2_pow2 53) by lia. apply Z.log2_le_mono. lia. }
    assert (He : 1 <= e) by (unfold e; lia).
    assert (Hpe : 2 <= 2 ^ e).
    { change 2 with (2 ^ 1) at 1. apply Z.pow_le_mono_r; lia. }
    assert (Hq : 2 ^ 52 <= q).
    { unfold q. apply Z.div_le_lower_bound; [lia|].
      rewrite Z.mul_comm, <- Z.pow_add_r by lia.
      replace (52 + e) with (Z.log2 a) by (unfold e; lia).
      apply Z.log2_spec. exact Ha. }
    assert (Hm : q <= m).
    { unfold m.
      match goal with |- context [if ?c then _ else _] => destruct c end; lia. }
    assert (Hbig : 2 ^ 53 <= m * 2 ^ e).
    { change (2 ^ 53) with (2 ^ 52 * 2). 
      assert (0 < 2 ^ 52) by (apply Z.pow_pos_nonneg; lia).
      nia. }
    assert (Hs : Z.abs w = m * 2 ^ e).
    { subst w. rewrite Z.abs_mul.
      replace (Z.abs (Z.sgn z)) with 1 by (unfold a in Ha; lia).
      rewrite Z.abs_eq; lia. }
    lia.
Qed.

(** Local midnight, as the constructor computes it on a host with a fixed
    offset of at most a day, is the start of a day. *)
Lemma Date_ymd_midnight (k : Z) (year month date : option Z) (midnight : Z) :
  Z.abs k <= 86400000 ->
  Date_ymd (fixedOffsetHost k) year month date = Some midnight ->
  Z.abs midnight <= 8640000000000000
  /\ exists day, midnight + k = day * msPerDay.
Proof.
  intros Hk. unfold Date_ymd.
  destruct (number year) as [y|]; [|discriminate].
  destruct (number month) as [m|]; [|discriminate].
  destruct (number date) as [dt|]; [|discriminate].
  cbv zeta.
  destruct (MakeDay _ m dt) as [day|]; [|discriminate].
  replace (MakeTime 0 0 0 0) with (Some 0) by reflexivity.
  unfold MakeDate, numMul.
  destruct (toNumber (day * msPerDay)) as [p|] eqn:Hp; [|discriminate].
  cbn [numAdd]. rewrite Z.add_0_r.
  destruct (toNumber p) as [tv|] eqn:Htv; [|discriminate].
  unfold TimeClip, fixedOffsetHost. cbn [UTC].
  destruct (8640000000000000 <? Z.abs (tv - k)) eqn:Hc; [discriminate|].
  apply Z.ltb_ge in Hc. intros H. injection H as H.
  assert (Htv' : tv = p) by (apply (toNumber_below _ _ Htv); lia).
  assert (Hp' : p = day * msPerDay) by (apply (toNumber_below _ _ Hp); lia).
  split; [lia|]. exists day. lia.
Qed.

Lemma setHours_within_day (k midnight day hours minutes : Z) :
  Z.abs k <= 86400000 ->
  midnight + k = day * msPerDay ->
  Z.abs hours <= 1000000 ->
  Z.abs minutes <= 1000000 ->
  Z.abs (midnight + hours * 3600000 + minutes * 60000) <= 8640000000000000 ->
  setHours (fixedOffsetHost k) (Some midnight)
    (Some hours) (Some minutes) (Some 0) (Some 0)
  = Some (midnight + hours * 3600000 + minutes * 60000).
Proof.
  intros Hk Hday Hh Hm Hrange. unfold setHours, number.
  rewrite (toNumber_exact hours), (toNumber_exact minutes), (toNumber_exact 0)
    by lia.
  unfold fixedOffsetHost. cbn [LocalTime UTC].
  assert (Hd : Day (midnight + k) = day).
  { unfold Day. rewrite Hday. apply Z.div_mul. discriminate. }
  rewrite Hd. unfold msPerDay in Hday.
  assert (Hbound : Z.abs (day * 86400000) <= 2 ^ 53 - 10 ^ 14) by lia.
  unfold MakeDate, MakeTime, numMul, msPerDay.
  rewrite (toNumber_exact day) by lia.
  rewrite (toNumber_exact (day * 86400000)) by lia.
  rewrite (toNumber_exact (hours * 3600000)) by lia.
  rewrite (toNumber_exact (minutes * 60000)) by lia.
  rewrite Z.mul_0_l. rewrite (toNumber_exact 0) by lia.
  cbn [numAdd].
  rewrite (toNumber_exact (hours * 3600000 + minutes * 60000)) by lia.
  cbn [numAdd].
  rewrite (toNumber_exact (hours * 3600000 + minutes * 60000 + 0)) by lia.
  cbn [numAdd].
  rewrite (toNumber_exact (hours * 3600000 + minutes * 60000 + 0 + 0)) by lia.
  cbn [numAdd].
  rewrite toNumber_exact by lia.
  unfold TimeClip.
  replace (day * 86400000 + (hours * 3600000 + minutes * 60000 + 0 + 0) - k)
    with (midnight + hours * 3600000 + minutes * 60000) by lia.
  replace (8640000000000000
           <? Z.abs (midnight + hours * 3600000 + minutes * 60000))
    with false by (symmetry; apply Z.ltb_ge; exact Hrange).
  reflexivity.
Qed.

(** X17.  On a host that keeps a fixed offset of at most a day to UTC,
    a time string whose hours and minutes are at most a million in
    magnitude moves the timestamp of a date by exactly its hours and
    minutes after the local midnight, as long as the result is in the
    range of Date. *)
Theorem parseDateTime_time_of_day (k clock : Z) (dateStr timeStr : string)
    (midnight hours minutes : Z) :
  truthyStr (Some dateStr) = true ->
  truthyStr (Some timeStr) = true ->
  Z.abs k <= 86400000 ->
  DamDetail.parseDateTime (fixedOffsetHost k) clock (Some dateStr) None
  = Some midnight ->
  parseInt (nth_error (split ":" timeStr) 0) = Some hours ->
  parseInt (nth_error (split ":" timeStr) 1) = Some minutes ->
  Z.abs hours <= 1000000 ->
  Z.abs minutes <= 1000000 ->
  Z.abs (midnight + hours * 3600000 + minutes * 60000) <= 8640000000000000 ->
  DamDetail.parseDateTime (fixedOffsetHost k) clock (Some dateStr)
    (Some timeStr)
  = Some (midnight + hours * 3600000 + minutes * 60000).
Proof.
  intros Hd Ht Hk Hmid Hh Hm Hhb Hmb Hrange.
  unfold DamDetail.parseDateTime, DamDetail.parseDateTime_try in *.
  rewrite Hd in *. cbn [negb ToString] in *. rewrite Ht.
  cbn [truthyStr] in Hmid. rewrite Hh, Hm, Hmid.
  destruct (Date_ymd_midnight k _ _ _ midnight Hk Hmid) as (_ & day & Hday).
  apply (setHours_within_day k midnight day); assumption.
Qed.

Lemma parseDateTime_time_of_day_witness :
  DamDetail.parseDateTime (fixedOffsetHost (-21600000)) 0
    (Some "15.03.2024") (Some "14:30")
  = Some (1710482400000 + 14 * 3600000 + 30 * 60000).
Proof.
  apply (parseDateTime_time_of_day (-21600000) 0 "15.03.2024" "14:30"
           1710482400000 14 30); try reflexivity; cbn; lia.
Defined.
